(** * Department request tracker: classifier, schema, row-level security and role routing

    Shallow embedding of
    - [lib/ai.ts]                  (the keyword classifier),
    - [components/NewRequestForm]  ([handleSubmit]),
    - [components/RequestDetails]  ([handleUpdateRequest], [handleAddComment]),
    - [contexts/AuthContext]       ([fetchUserRole], [signUp]),
    - [App.tsx]                    ([AppContent]),
    - the two SQL migrations       (tables, constraints, policies, triggers).

    Conventions.
    - A JavaScript string is a sequence of code units; the embedding covers the
      code units U+0000..U+00FF, one [ascii] each.
    - An SQL value of a column is an [option]: [None] is SQL NULL.
    - [now()] and [gen_random_uuid()] are inputs of the operations that use
      them. *)

From Stdlib Require Import Bool List Ascii String NArith ZArith Lia.
From Stdlib Require Import Permutation Sorted.
Import ListNotations.
Open Scope string_scope.

Set Implicit Arguments.

(* ================================================================== *)
(** * JavaScript strings and the regular expressions of [lib/ai.ts]    *)
(* ================================================================== *)

Module JS.

Definition in_range (lo hi n : N) : bool := ((lo <=? n) && (n <=? hi))%N.

(** [String.prototype.toLowerCase] on one code unit of U+0000..U+00FF:
    A-Z and the Latin-1 capitals (U+00C0..U+00DE without the
    multiplication sign U+00D7) move up by 32, everything else stays. *)
Definition lower_unit (c : ascii) : ascii :=
  let n := N_of_ascii c in
  if in_range 65 90 n || (in_range 192 222 n && negb (n =? 215)%N)
  then ascii_of_N (n + 32)
  else c.

Fixpoint toLowerCase (s : string) : string :=
  match s with
  | EmptyString => EmptyString
  | String c rest => String (lower_unit c) (toLowerCase rest)
  end.

(** [Canonicalize] of the regular-expression semantics under the [i] flag
    without the [u] flag: the code unit is upper-cased; the result is kept
    when it is one code unit and does not turn a non-ASCII unit into an
    ASCII one.  The result is a code point, hence [N]: U+00FF maps to
    U+0178 and U+00B5 to U+039C; U+00DF upper-cases to two units and is
    therefore kept. *)
Definition canonicalize (c : ascii) : N :=
  let n := N_of_ascii c in
  if in_range 97 122 n then (n - 32)%N
  else if in_range 224 254 n && negb (n =? 247)%N then (n - 32)%N
  else if (n =? 255)%N then 376%N
  else if (n =? 181)%N then 924%N
  else n.

Definition unit_match (pattern_unit text_unit : ascii) : bool :=
  (canonicalize pattern_unit =? canonicalize text_unit)%N.

(** One alternative of a pattern is a literal; it matches at the head of
    the text when each of its units matches the unit of the text at the
    same offset. *)
Fixpoint match_here (literal text : string) : bool :=
  match literal with
  | EmptyString => true
  | String p literal' =>
      match text with
      | EmptyString => false
      | String t text' => unit_match p t && match_here literal' text'
      end
  end.

(** [text.match(/a|b|.../i)] used as a condition: the matcher tries every
    start offset from left to right and, at each offset, the alternatives
    in order; the result is truthy as soon as one of them matches. *)
Fixpoint regex_match (alternatives : list string) (text : string) : bool :=
  existsb (fun literal => match_here literal text) alternatives
  || match text with
     | EmptyString => false
     | String _ text' => regex_match alternatives text'
     end.

(** [a || b] on strings: the empty string is falsy. *)
Definition or_else (a b : string) : string :=
  if String.eqb a "" then b else a.

(** [a || b] where either side may be [undefined]. *)
Definition or_else_opt (a b : option string) : option string :=
  match a with
  | Some s => if String.eqb s "" then b else Some s
  | None => b
  end.

(** White space as [String.prototype.trim] sees it, within U+0000..U+00FF. *)
Definition is_white_space (c : ascii) : bool :=
  let n := N_of_ascii c in
  in_range 9 13 n || (n =? 32)%N || (n =? 160)%N.

Fixpoint all_units (p : ascii -> bool) (s : string) : bool :=
  match s with
  | EmptyString => true
  | String c rest => p c && all_units p rest
  end.

End JS.

(* ================================================================== *)
(** * The classifier, [lib/ai.ts]                                      *)
(* ================================================================== *)

Definition quote : string := String (ascii_of_nat 34) EmptyString.

Definition it_keywords : list string :=
  ["computer"; "laptop"; "software"; "network"; "internet"; "wifi";
   "password"; "email"; "printer"; "it"; "technical"; "system"].

Definition facilities_keywords : list string :=
  ["clean"; "room"; "office"; "repair"; "maintenance"; "hvac";
   "air condition"; "heating"; "ventilation"; "building"].

Definition equipment_keywords : list string :=
  ["desk"; "chair"; "furniture"; "equipment"; "table"; "cabinet";
   "storage"; "supplies"].

Definition safety_keywords : list string :=
  ["safety"; "fire"; "emergency"; "hazard"; "accident"; "injury";
   "security"; "alarm"; "evacuation"].

Definition hr_keywords : list string :=
  ["leave"; "vacation"; "payroll"; "benefits"; "training"; "hr";
   "human resource"; "staff"; "employee"; "recruitment"].

Definition critical_keywords : list string :=
  ["urgent"; "emergency"; "critical"; "immediate"; "asap"; "broken";
   "not working"; "down"; "fire"; "safety"; "injury"].

Definition high_keywords : list string :=
  ["important"; "high priority"; "soon"; "needed"; "blocking";
   "cannot work"].

Definition low_keywords : list string :=
  ["low priority"; "when possible"; "not urgent"; "minor"; "small"].

Definition categorizeRequest (text : string) : string :=
  if JS.regex_match it_keywords text then "IT and Technical Support"
  else if JS.regex_match facilities_keywords text then "Facilities and Maintenance"
  else if JS.regex_match equipment_keywords text then "Equipment and Furniture"
  else if JS.regex_match safety_keywords text then "Safety and Fire Protection"
  else if JS.regex_match hr_keywords text then "HR and Staff Matters"
  else "Other".

Definition determinePriority (text : string) : string :=
  if JS.regex_match critical_keywords text then "Critical"
  else if JS.regex_match high_keywords text then "High"
  else if JS.regex_match low_keywords text then "Low"
  else "Medium".

(** Lookup in an object literal used as a [Record<string, string>], for the
    keys the literal itself defines. *)
Fixpoint record_get (entries : list (string * string)) (key : string)
  : option string :=
  match entries with
  | [] => None
  | (k, v) :: rest => if String.eqb k key then Some v else record_get rest key
  end.

Definition received (title : string) : string :=
  "Your request regarding " ++ quote ++ title ++ quote ++ " has been received".

Definition responses (title : string) : list (string * string) :=
  [ ("IT and Technical Support",
     received title ++ " and forwarded to the IT and Technical Support Division. Our team will review your request and contact you shortly.");
    ("Facilities and Maintenance",
     received title ++ " and forwarded to the Facilities and Maintenance Division. A technician will be assigned to address your concern.");
    ("Equipment and Furniture",
     received title ++ " and forwarded to the Equipment and Furniture Division. We will process your request and notify you of the next steps.");
    ("Safety and Fire Protection",
     received title ++ " and forwarded to the Safety and Fire Protection Division. This matter will be treated with high priority.");
    ("HR and Staff Matters",
     received title ++ " and forwarded to the Human Resources Division. An HR representative will contact you to discuss your request.");
    ("Other",
     received title ++ ". We will review the details and route it to the appropriate department for handling.") ].

(** [responses[category] || responses['Other']]. *)
Definition generateResponse (title category : string) : string :=
  match JS.or_else_opt (record_get (responses title) category)
                       (record_get (responses title) "Other") with
  | Some s => s
  | None => ""
  end.

Definition units : list (string * string) :=
  [ ("IT and Technical Support", "IT Division");
    ("Facilities and Maintenance", "Technical Division");
    ("Equipment and Furniture", "Procurement Division");
    ("Safety and Fire Protection", "Safety Division");
    ("HR and Staff Matters", "HR Division");
    ("Other", "General Support") ].

(** [units[category] || 'General Support']. *)
Definition getAssignedUnit (category : string) : string :=
  match JS.or_else_opt (record_get units category) (Some "General Support") with
  | Some s => s
  | None => ""
  end.

Record analysis : Type := mkAnalysis {
  a_category : string;
  a_priority : string;
  a_aiResponse : string;
  a_assignedUnit : string
}.

Definition analyzeRequest (title description : string) : analysis :=
  let text := JS.toLowerCase (title ++ " " ++ description) in
  let category := categorizeRequest text in
  let priority := determinePriority text in
  let aiResponse := generateResponse title category in
  let assignedUnit := getAssignedUnit category in
  mkAnalysis category priority aiResponse assignedUnit.


(* ================================================================== *)
(** * SQL values, errors and row-level security                        *)
(* ================================================================== *)

Module SQL.

Definition uuid : Type := string.
Definition text : Type := string.
Definition timestamptz : Type := Z.
Bind Scope Z_scope with timestamptz.

(** Three-valued logic: [None] is the unknown truth value. *)
Definition eq3 {A} (eqb : A -> A -> bool) (x y : option A) : option bool :=
  match x, y with
  | Some a, Some b => Some (eqb a b)
  | _, _ => None
  end.

Definition not3 (x : option bool) : option bool := option_map negb x.

Definition and3 (x y : option bool) : option bool :=
  match x, y with
  | Some false, _ | _, Some false => Some false
  | Some true, Some true => Some true
  | _, _ => None
  end.

Definition or3 (x y : option bool) : option bool :=
  match x, y with
  | Some true, _ | _, Some true => Some true
  | Some false, Some false => Some false
  | _, _ => None
  end.

(** A WHERE clause, a policy expression and an IF condition all accept
    only the value true. *)
Definition is_true (x : option bool) : bool :=
  match x with
  | Some true => true
  | _ => false
  end.

Definition text_eq : option text -> option text -> option bool :=
  eq3 String.eqb.
Definition text_ne (x y : option text) : option bool := not3 (text_eq x y).

Definition is_null {A} (x : option A) : bool :=
  match x with
  | Some _ => false
  | None => true
  end.

(** A column of the JSON body of an insert or an update: the key is
    missing, or it carries a value, which may be [null]. *)
Inductive col (A : Type) : Type :=
| Omitted
| Given (v : option A).
Arguments Omitted {A}.
Arguments Given {A} v.

(** For an insert [base] is the column default, for an update the old
    value. *)
Definition col_or {A} (base : option A) (c : col A) : option A :=
  match c with
  | Omitted => base
  | Given v => v
  end.

Inductive failure : Type :=
| rls_violation
| not_null_violation
| check_violation
| unique_violation
| foreign_key_violation.

Inductive result (A : Type) : Type :=
| Ok (a : A)
| Err (e : failure).
Arguments Ok {A} a.
Arguments Err {A} e.

Definition bind {A B} (m : result A) (k : A -> result B) : result B :=
  match m with
  | Ok a => k a
  | Err e => Err e
  end.

Definition guard (b : bool) (e : failure) : result unit :=
  if b then Ok tt else Err e.

Fixpoint mapM {A B} (f : A -> result B) (l : list A) : result (list B) :=
  match l with
  | [] => Ok []
  | a :: l' =>
      bind (f a) (fun b => bind (mapM f l') (fun bs => Ok (b :: bs)))
  end.

(** A statement that fails leaves the database as it was. *)
Definition commit {A} (before : A) (r : result A) : A :=
  match r with
  | Ok after => after
  | Err _ => before
  end.

Inductive command : Type := SELECT | INSERT | UPDATE | DELETE.

Definition command_eqb (a b : command) : bool :=
  match a, b with
  | SELECT, SELECT | INSERT, INSERT | UPDATE, UPDATE | DELETE, DELETE => true
  | _, _ => false
  end.

(** No key twice, for the equality [eqb] of the keys (PRIMARY KEY, UNIQUE). *)
Fixpoint distinct {K} (eqb : K -> K -> bool) (keys : list K) : bool :=
  match keys with
  | [] => true
  | k :: rest => negb (existsb (eqb k) rest) && distinct eqb rest
  end.

End SQL.

Import SQL.

Notation "x <- m ;; k" := (SQL.bind m (fun x => k))
  (at level 61, m at next level, right associativity).
Notation "m ;;; k" := (SQL.bind m (fun _ => k))
  (at level 61, right associativity).

(* ================================================================== *)
(** * The schema, [20251106123731_create_requests_table.sql]           *)
(* ================================================================== *)

Module Requests.

Record row : Type := mk {
  id : option uuid;
  title : option text;
  description : option text;
  category : option text;
  priority : option text;
  status : option text;
  submitter_id : option uuid;
  submitter_name : option text;
  assigned_unit : option text;
  assigned_handler : option text;
  ai_response : option text;
  created_at : option timestamptz;
  updated_at : option timestamptz;
  resolved_at : option timestamptz;
  deadline : option timestamptz
}.

Record payload : Type := body {
  p_id : col uuid;
  p_title : col text;
  p_description : col text;
  p_category : col text;
  p_priority : col text;
  p_status : col text;
  p_submitter_id : col uuid;
  p_submitter_name : col text;
  p_assigned_unit : col text;
  p_assigned_handler : col text;
  p_ai_response : col text;
  p_created_at : col timestamptz;
  p_updated_at : col timestamptz;
  p_resolved_at : col timestamptz;
  p_deadline : col timestamptz
}.

(** The column defaults of CREATE TABLE. *)
Definition defaults (fresh_id : uuid) (now : timestamptz) : row :=
  mk (Some fresh_id) None None None (Some "Medium") (Some "Received")
     None None (Some "") (Some "") (Some "")
     (Some now) (Some now) None None.

(** The tuple a statement proposes: each column of the body replaces the
    one of [base]. *)
Definition overlay (base : row) (p : payload) : row :=
  mk (col_or (id base) (p_id p))
     (col_or (title base) (p_title p))
     (col_or (description base) (p_description p))
     (col_or (category base) (p_category p))
     (col_or (priority base) (p_priority p))
     (col_or (status base) (p_status p))
     (col_or (submitter_id base) (p_submitter_id p))
     (col_or (submitter_name base) (p_submitter_name p))
     (col_or (assigned_unit base) (p_assigned_unit p))
     (col_or (assigned_handler base) (p_assigned_handler p))
     (col_or (ai_response base) (p_ai_response p))
     (col_or (created_at base) (p_created_at p))
     (col_or (updated_at base) (p_updated_at p))
     (col_or (resolved_at base) (p_resolved_at p))
     (col_or (deadline base) (p_deadline p)).

Definition set_updated_at (v : option timestamptz) (r : row) : row :=
  mk (id r) (title r) (description r) (category r) (priority r) (status r)
     (submitter_id r) (submitter_name r) (assigned_unit r)
     (assigned_handler r) (ai_response r) (created_at r) v
     (resolved_at r) (deadline r).

Definition set_resolved_at_column (v : option timestamptz) (r : row) : row :=
  mk (id r) (title r) (description r) (category r) (priority r) (status r)
     (submitter_id r) (submitter_name r) (assigned_unit r)
     (assigned_handler r) (ai_response r) (created_at r) (updated_at r)
     v (deadline r).

(** PRIMARY KEY and NOT NULL columns. *)
Definition not_null (r : row) : bool :=
  negb (is_null (id r)) && negb (is_null (title r))
  && negb (is_null (description r)) && negb (is_null (category r))
  && negb (is_null (priority r)) && negb (is_null (status r))
  && negb (is_null (submitter_id r)) && negb (is_null (submitter_name r)).

End Requests.

Module Comments.

Record row : Type := mk {
  id : option uuid;
  request_id : option uuid;
  user_id : option uuid;
  user_name : option text;
  comment : option text;
  created_at : option timestamptz
}.

Record payload : Type := body {
  p_id : col uuid;
  p_request_id : col uuid;
  p_user_id : col uuid;
  p_user_name : col text;
  p_comment : col text;
  p_created_at : col timestamptz
}.

Definition defaults (fresh_id : uuid) (now : timestamptz) : row :=
  mk (Some fresh_id) None None None None (Some now).

Definition overlay (base : row) (p : payload) : row :=
  mk (col_or (id base) (p_id p))
     (col_or (request_id base) (p_request_id p))
     (col_or (user_id base) (p_user_id p))
     (col_or (user_name base) (p_user_name p))
     (col_or (comment base) (p_comment p))
     (col_or (created_at base) (p_created_at p)).

Definition not_null (r : row) : bool :=
  negb (is_null (id r)) && negb (is_null (request_id r))
  && negb (is_null (user_id r)) && negb (is_null (user_name r))
  && negb (is_null (comment r)).

End Comments.

Module UserRoles.

Record row : Type := mk {
  id : option uuid;
  user_id : option uuid;
  role : option text;
  created_at : option timestamptz
}.

Record payload : Type := body {
  p_id : col uuid;
  p_user_id : col uuid;
  p_role : col text;
  p_created_at : col timestamptz
}.

Definition defaults (fresh_id : uuid) (now : timestamptz) : row :=
  mk (Some fresh_id) None None (Some now).

Definition overlay (base : row) (p : payload) : row :=
  mk (col_or (id base) (p_id p))
     (col_or (user_id base) (p_user_id p))
     (col_or (role base) (p_role p))
     (col_or (created_at base) (p_created_at p)).

Definition not_null (r : row) : bool :=
  negb (is_null (id r)) && negb (is_null (user_id r))
  && negb (is_null (role r)).

(** CHECK (role IN ('submitter', 'handler')); a CHECK constraint accepts
    an unknown result. *)
Definition role_check (r : row) : bool :=
  match or3 (text_eq (role r) (Some "submitter"))
            (text_eq (role r) (Some "handler")) with
  | Some false => false
  | _ => true
  end.

(** UNIQUE(user_id, role): the key of a row, when neither column is NULL. *)
Definition unique_key (r : row) : option (uuid * text) :=
  match user_id r, role r with
  | Some u, Some ro => Some (u, ro)
  | _, _ => None
  end.

End UserRoles.

(** The database: the three tables and the identities of [auth.users]. *)
Record db : Type := mkDb {
  auth_users : list uuid;
  requests : list Requests.row;
  request_comments : list Comments.row;
  user_roles : list UserRoles.row
}.

Definition with_requests (rows : list Requests.row) (d : db) : db :=
  mkDb (auth_users d) rows (request_comments d) (user_roles d).
Definition with_request_comments (rows : list Comments.row) (d : db) : db :=
  mkDb (auth_users d) (requests d) rows (user_roles d).
Definition with_user_roles (rows : list UserRoles.row) (d : db) : db :=
  mkDb (auth_users d) (requests d) (request_comments d) rows.
Definition with_auth_user (u : uuid) (d : db) : db :=
  mkDb (u :: auth_users d) (requests d) (request_comments d) (user_roles d).

(* ================================================================== *)
(** * Row-level security                                               *)
(* ================================================================== *)

(** The expression of a policy reads the caller's [auth.uid()], the
    database (for its sub-queries) and the row. *)
Definition expr (R : Type) : Type := uuid -> db -> R -> option bool.

(** CREATE POLICY name ON table FOR command TO authenticated
    USING (...) WITH CHECK (...); every policy of the schema is permissive. *)
Record policy (R : Type) : Type := mkPolicy {
  policy_name : string;
  for_command : command;
  using_expr : option (expr R);
  check_expr : option (expr R)
}.

Section RowLevelSecurity.

Variable R : Type.
Variable policies : list (policy R).

Definition holds (e : option (expr R)) (uid : uuid) (d : db) (r : R) : bool :=
  match e with
  | Some f => is_true (f uid d r)
  | None => true
  end.

(** With row-level security enabled a row is reachable by a command when
    one of the policies for that command accepts it; when there is no
    policy for the command, no row is. *)
Definition using_ok (c : command) (uid : uuid) (d : db) (r : R) : bool :=
  existsb (fun p => command_eqb (for_command p) c && holds (using_expr p) uid d r)
          policies.

(** The check on a proposed row; a policy without WITH CHECK uses its
    USING expression. *)
Definition check_ok (c : command) (uid : uuid) (d : db) (r : R) : bool :=
  existsb (fun p =>
             command_eqb (for_command p) c
             && holds (match check_expr p with
                       | Some f => Some f
                       | None => using_expr p
                       end) uid d r)
          policies.

End RowLevelSecurity.

Definition uuid_eq : option uuid -> option uuid -> option bool :=
  eq3 String.eqb.

(** Policies of [user_roles]: the SELECT policy of the first migration and
    the INSERT policy of [20251106123807_add_user_roles_insert_policy.sql]. *)
Definition user_roles_policies : list (policy UserRoles.row) :=
  [ mkPolicy "Users can view own roles" SELECT
      (Some (fun uid _ r => uuid_eq (Some uid) (UserRoles.user_id r))) None;
    mkPolicy "Users can insert own role" INSERT
      None (Some (fun uid _ r => uuid_eq (Some uid) (UserRoles.user_id r))) ].

(** EXISTS (SELECT 1 FROM user_roles
            WHERE user_roles.user_id = auth.uid()
            AND user_roles.role = 'handler'),
    a sub-query run for the caller, who reads [user_roles] through its
    SELECT policy. *)
Definition exists_handler_role (uid : uuid) (d : db) : bool :=
  existsb
    (fun ur => is_true (and3 (uuid_eq (UserRoles.user_id ur) (Some uid))
                             (text_eq (UserRoles.role ur) (Some "handler"))))
    (filter (using_ok user_roles_policies SELECT uid d) (user_roles d)).

Definition handler_only {R : Type} : expr R :=
  fun uid d _ => Some (exists_handler_role uid d).

Definition requests_policies : list (policy Requests.row) :=
  [ mkPolicy "Users can create requests" INSERT
      None (Some (fun uid _ r => uuid_eq (Some uid) (Requests.submitter_id r)));
    mkPolicy "Submitters can view own requests" SELECT
      (Some (fun uid _ r => uuid_eq (Some uid) (Requests.submitter_id r))) None;
    mkPolicy "Handlers can view all requests" SELECT
      (Some handler_only) None;
    mkPolicy "Handlers can update requests" UPDATE
      (Some handler_only) (Some handler_only);
    mkPolicy "Handlers can delete requests" DELETE
      (Some handler_only) None ].

(** EXISTS (SELECT 1 FROM requests
            WHERE requests.id = request_id
            AND requests.submitter_id = auth.uid()),
    over the requests the caller can read. *)
Definition exists_own_parent_request (uid : uuid) (d : db)
  (request_id : option uuid) : bool :=
  existsb
    (fun rq => is_true (and3 (uuid_eq (Requests.id rq) request_id)
                             (uuid_eq (Requests.submitter_id rq) (Some uid))))
    (filter (using_ok requests_policies SELECT uid d) (requests d)).

Definition comment_access : expr Comments.row := fun uid d c =>
  or3 (Some (exists_own_parent_request uid d (Comments.request_id c)))
      (Some (exists_handler_role uid d)).

Definition request_comments_policies : list (policy Comments.row) :=
  [ mkPolicy "Users can create comments on accessible requests" INSERT
      None
      (Some (fun uid d c =>
               and3 (uuid_eq (Some uid) (Comments.user_id c))
                    (comment_access uid d c)));
    mkPolicy "Users can view comments on accessible requests" SELECT
      (Some comment_access) None ].

(* ================================================================== *)
(** * Triggers on [requests]                                           *)
(* ================================================================== *)

Definition update_updated_at_column (now : timestamptz)
  (OLD NEW : Requests.row) : Requests.row :=
  Requests.set_updated_at (Some now) NEW.

Definition set_resolved_at (now : timestamptz)
  (OLD NEW : Requests.row) : Requests.row :=
  if is_true (and3 (text_eq (Requests.status NEW) (Some "Resolved"))
                   (text_ne (Requests.status OLD) (Some "Resolved")))
  then Requests.set_resolved_at_column (Some now) NEW
  else if is_true (text_ne (Requests.status NEW) (Some "Resolved"))
  then Requests.set_resolved_at_column None NEW
  else NEW.

(** Both triggers are BEFORE UPDATE ... FOR EACH ROW; they run in the order
    of their names, [update_requests_updated_at] before
    [update_resolved_at].  No trigger is declared for INSERT. *)
Definition before_update (now : timestamptz)
  (OLD NEW : Requests.row) : Requests.row :=
  set_resolved_at now OLD (update_updated_at_column now OLD NEW).

(* ================================================================== *)
(** * Statements, as the storage layer runs them for a signed-in caller *)
(* ================================================================== *)

Definition same_uuid (a b : option uuid) : bool := is_true (uuid_eq a b).

Definition opt_uuid_eqb (a b : option uuid) : bool :=
  match a, b with
  | Some x, Some y => String.eqb x y
  | None, None => true
  | _, _ => false
  end.

(** REFERENCES auth.users(id); a NULL reference is accepted. *)
Definition references_user (d : db) (u : option uuid) : bool :=
  match u with
  | Some x => existsb (String.eqb x) (auth_users d)
  | None => true
  end.

(** REFERENCES requests(id). *)
Definition references_request (rows : list Requests.row) (rid : option uuid)
  : bool :=
  match rid with
  | Some _ => existsb (fun rq => same_uuid (Requests.id rq) rid) rows
  | None => true
  end.

(** INSERT INTO requests: defaults, policy check, constraints. *)
Definition requests_insert (uid : uuid) (fresh_id : uuid) (now : timestamptz)
  (p : Requests.payload) (d : db) : result db :=
  let NEW := Requests.overlay (Requests.defaults fresh_id now) p in
  guard (check_ok requests_policies INSERT uid d NEW) rls_violation ;;;
  guard (Requests.not_null NEW) not_null_violation ;;;
  guard (negb (existsb (fun rq => same_uuid (Requests.id rq) (Requests.id NEW))
                       (requests d))) unique_violation ;;;
  guard (references_user d (Requests.submitter_id NEW)) foreign_key_violation ;;;
  Ok (with_requests (requests d ++ [NEW]) d).

(** One row of UPDATE requests SET ...: the triggers see the proposed row,
    then the policy check and the constraints run on what they return. *)
Definition requests_update_row (uid : uuid) (now : timestamptz)
  (p : Requests.payload) (d : db) (OLD : Requests.row) : result Requests.row :=
  let NEW := before_update now OLD (Requests.overlay OLD p) in
  guard (check_ok requests_policies UPDATE uid d NEW
         && using_ok requests_policies SELECT uid d NEW) rls_violation ;;;
  guard (Requests.not_null NEW) not_null_violation ;;;
  guard (references_user d (Requests.submitter_id NEW)) foreign_key_violation ;;;
  Ok NEW.

(** The rows a statement with a WHERE clause touches: those the clause
    selects among the rows the caller may read and may change. *)
Definition requests_target (c : command) (uid : uuid) (d : db)
  (where_ : Requests.row -> bool) (r : Requests.row) : bool :=
  where_ r
  && using_ok requests_policies SELECT uid d r
  && using_ok requests_policies c uid d r.

Definition requests_update (uid : uuid) (now : timestamptz)
  (p : Requests.payload) (where_ : Requests.row -> bool) (d : db) : result db :=
  rows <- mapM (fun OLD => if requests_target UPDATE uid d where_ OLD
                           then requests_update_row uid now p d OLD
                           else Ok OLD) (requests d) ;;
  guard (distinct opt_uuid_eqb (map Requests.id rows)) unique_violation ;;;
  guard (forallb (fun c => references_request rows (Comments.request_id c))
                 (request_comments d)) foreign_key_violation ;;;
  Ok (with_requests rows d).

(** DELETE FROM requests; the comments of a deleted request go with it
    (ON DELETE CASCADE). *)
Definition requests_delete (uid : uuid) (where_ : Requests.row -> bool)
  (d : db) : result db :=
  let kept := filter (fun r => negb (requests_target DELETE uid d where_ r))
                     (requests d) in
  Ok (with_request_comments
        (filter (fun c => references_request kept (Comments.request_id c))
                (request_comments d))
        (with_requests kept d)).

Definition request_comments_insert (uid : uuid) (fresh_id : uuid)
  (now : timestamptz) (p : Comments.payload) (d : db) : result db :=
  let NEW := Comments.overlay (Comments.defaults fresh_id now) p in
  guard (check_ok request_comments_policies INSERT uid d NEW) rls_violation ;;;
  guard (Comments.not_null NEW) not_null_violation ;;;
  guard (negb (existsb (fun c => same_uuid (Comments.id c) (Comments.id NEW))
                       (request_comments d))) unique_violation ;;;
  guard (references_request (requests d) (Comments.request_id NEW)
         && references_user d (Comments.user_id NEW)) foreign_key_violation ;;;
  Ok (with_request_comments (request_comments d ++ [NEW]) d).

Definition role_key_eqb (a b : option (uuid * text)) : bool :=
  match a, b with
  | Some (u, r), Some (u', r') => String.eqb u u' && String.eqb r r'
  | _, _ => false
  end.

(** The table constraints of [user_roles] on a whole table image. *)
Definition user_roles_constraints (d : db) (rows : list UserRoles.row) : result unit :=
  guard (forallb UserRoles.not_null rows) not_null_violation ;;;
  guard (forallb UserRoles.role_check rows) check_violation ;;;
  guard (distinct opt_uuid_eqb (map UserRoles.id rows)
         && distinct role_key_eqb (map UserRoles.unique_key rows))
        unique_violation ;;;
  guard (forallb (fun r => references_user d (UserRoles.user_id r)) rows)
        foreign_key_violation.

Definition user_roles_insert (uid : uuid) (fresh_id : uuid) (now : timestamptz)
  (p : UserRoles.payload) (d : db) : result db :=
  let NEW := UserRoles.overlay (UserRoles.defaults fresh_id now) p in
  guard (check_ok user_roles_policies INSERT uid d NEW) rls_violation ;;;
  guard (UserRoles.not_null NEW) not_null_violation ;;;
  guard (UserRoles.role_check NEW) check_violation ;;;
  guard (negb (existsb (fun r => same_uuid (UserRoles.id r) (UserRoles.id NEW))
                       (user_roles d))
         && negb (existsb (fun r => role_key_eqb (UserRoles.unique_key r)
                                                 (UserRoles.unique_key NEW))
                          (user_roles d))) unique_violation ;;;
  guard (references_user d (UserRoles.user_id NEW)) foreign_key_violation ;;;
  Ok (with_user_roles (user_roles d ++ [NEW]) d).

Definition user_roles_target (c : command) (uid : uuid) (d : db)
  (where_ : UserRoles.row -> bool) (r : UserRoles.row) : bool :=
  where_ r
  && using_ok user_roles_policies SELECT uid d r
  && using_ok user_roles_policies c uid d r.

Definition user_roles_update (uid : uuid) (p : UserRoles.payload)
  (where_ : UserRoles.row -> bool) (d : db) : result db :=
  rows <- mapM (fun OLD =>
                  if user_roles_target UPDATE uid d where_ OLD
                  then let NEW := UserRoles.overlay OLD p in
                       guard (check_ok user_roles_policies UPDATE uid d NEW)
                             rls_violation ;;;
                       Ok NEW
                  else Ok OLD) (user_roles d) ;;
  user_roles_constraints d rows ;;;
  Ok (with_user_roles rows d).

Definition user_roles_delete (uid : uuid) (where_ : UserRoles.row -> bool)
  (d : db) : result db :=
  Ok (with_user_roles
        (filter (fun r => negb (user_roles_target DELETE uid d where_ r))
                (user_roles d)) d).

(** SELECT role FROM user_roles WHERE user_id = $1, for the caller [uid]. *)
Definition select_roles_of (uid : uuid) (userId : uuid) (d : db)
  : list (option text) :=
  map UserRoles.role
      (filter (fun r => same_uuid (UserRoles.user_id r) (Some userId))
              (filter (using_ok user_roles_policies SELECT uid d) (user_roles d))).

(* ================================================================== *)
(** * The application                                                  *)
(* ================================================================== *)

(** The [User] of the identity provider, as far as the code reads it:
    [user.id], [user.email] and [user.user_metadata.name]. *)
Record User : Type := mkUser {
  u_id : uuid;
  u_email : option string;
  u_name : option string
}.

(** [JSON.stringify] drops a key whose value is [undefined]. *)
Definition json_key (v : option string) : col text :=
  match v with
  | Some s => Given (Some s)
  | None => Omitted
  end.

(** ** [NewRequestForm.handleSubmit] *)

Definition handleSubmit_body (user : User)
  (title description manualCategory manualPriority : string)
  : Requests.payload :=
  let analysis := analyzeRequest title description in
  {| Requests.p_id := Omitted;
     Requests.p_title := Given (Some title);
     Requests.p_description := Given (Some description);
     Requests.p_category :=
       Given (Some (JS.or_else manualCategory (a_category analysis)));
     Requests.p_priority :=
       Given (Some (JS.or_else manualPriority (a_priority analysis)));
     Requests.p_status := Given (Some "Received");
     Requests.p_submitter_id := Given (Some (u_id user));
     Requests.p_submitter_name :=
       json_key (JS.or_else_opt (u_name user) (u_email user));
     Requests.p_assigned_unit := Given (Some (a_assignedUnit analysis));
     Requests.p_assigned_handler := Omitted;
     Requests.p_ai_response := Given (Some (a_aiResponse analysis));
     Requests.p_created_at := Omitted;
     Requests.p_updated_at := Omitted;
     Requests.p_resolved_at := Omitted;
     Requests.p_deadline := Omitted |}.

(** The statement runs for the signed-in [user]; an [Err] is what the form
    shows as its error message. *)
Definition handleSubmit (user : User) (fresh_id : uuid) (now : timestamptz)
  (title description manualCategory manualPriority : string) (d : db)
  : result db :=
  requests_insert (u_id user) fresh_id now
    (handleSubmit_body user title description manualCategory manualPriority) d.

(** ** [RequestDetails.handleUpdateRequest] and [handleAddComment] *)

Definition handleUpdateRequest_body (editedRequest : Requests.row)
  : Requests.payload :=
  {| Requests.p_id := Omitted;
     Requests.p_title := Omitted;
     Requests.p_description := Omitted;
     Requests.p_category := Given (Requests.category editedRequest);
     Requests.p_priority := Given (Requests.priority editedRequest);
     Requests.p_status := Given (Requests.status editedRequest);
     Requests.p_submitter_id := Omitted;
     Requests.p_submitter_name := Omitted;
     Requests.p_assigned_unit := Given (Requests.assigned_unit editedRequest);
     Requests.p_assigned_handler := Given (Requests.assigned_handler editedRequest);
     Requests.p_ai_response := Omitted;
     Requests.p_created_at := Omitted;
     Requests.p_updated_at := Omitted;
     Requests.p_resolved_at := Omitted;
     Requests.p_deadline := Given (Requests.deadline editedRequest) |}.

(** [.update({...}).eq('id', request.id)] *)
Definition handleUpdateRequest (user : User) (now : timestamptz)
  (request editedRequest : Requests.row) (d : db) : result db :=
  requests_update (u_id user) now (handleUpdateRequest_body editedRequest)
    (fun r => same_uuid (Requests.id r) (Requests.id request)) d.

(** [if (!newComment.trim()) return;] then the insert. *)
Definition handleAddComment (user : User) (fresh_id : uuid) (now : timestamptz)
  (request : Requests.row) (newComment : string) (d : db) : result db :=
  if JS.all_units JS.is_white_space newComment then Ok d
  else
    request_comments_insert (u_id user) fresh_id now
      {| Comments.p_id := Omitted;
         Comments.p_request_id := Given (Requests.id request);
         Comments.p_user_id := Given (Some (u_id user));
         Comments.p_user_name :=
           json_key (JS.or_else_opt (u_name user) (u_email user));
         Comments.p_comment := Given (Some newComment);
         Comments.p_created_at := Omitted |} d.

(** ** [AuthContext] *)

(** The answer of a query ended by [.maybeSingle()]: no row gives null data
    without an error, one row gives that row, several rows give null data
    and an error. *)
Record response (A : Type) : Type := mkResponse {
  data : option A;
  error : bool
}.

Definition maybeSingle {A : Type} (rows : list A) : response A :=
  match rows with
  | [] => mkResponse None false
  | [r] => mkResponse (Some r) false
  | _ :: _ :: _ => mkResponse None true
  end.

(** [setUserRole(data?.role ?? 'submitter')]: the value the role state
    takes.  The query runs in the session of the user it asks about. *)
Definition fetchUserRole (userId : uuid) (d : db) : string :=
  match data (maybeSingle (select_roles_of userId userId d)) with
  | Some (Some role) => role
  | _ => "submitter"
  end.

(** [signUp]: the identity provider creates the user; with a session the
    role row is inserted as that user, and the outcome of the insert is not
    looked at.  Without a session (sign-up awaiting confirmation) the
    request is not authenticated and no policy admits it. *)
Definition signUp (new_user : User) (session : bool) (role : string)
  (fresh_id : uuid) (now : timestamptz) (d : db) : db :=
  let d1 := with_auth_user (u_id new_user) d in
  if session
  then commit d1
         (user_roles_insert (u_id new_user) fresh_id now
            {| UserRoles.p_id := Omitted;
               UserRoles.p_user_id := Given (Some (u_id new_user));
               UserRoles.p_role := Given (Some role);
               UserRoles.p_created_at := Omitted |} d1)
  else d1.

(** The state of [AuthProvider]. *)
Record auth_state : Type := mkAuth {
  user : option User;
  userRole : option string;
  loading : bool
}.

Definition initial_auth_state : auth_state := mkAuth None None true.

(** The callback of [onAuthStateChange], once its asynchronous body has
    run. *)
Definition onAuthStateChange (session : option User) (d : db)
  (st : auth_state) : auth_state :=
  match session with
  | Some u => mkAuth (Some u) (Some (fetchUserRole (u_id u) d)) false
  | None => mkAuth None None false
  end.

(** ** [App.tsx] *)

Inductive view : Type := Loading | Auth | HandlerView | SubmitterView.

Definition AppContent (st : auth_state) : view :=
  if loading st then Loading
  else match user st with
       | None => Auth
       | Some _ =>
           match userRole st with
           | Some role => if String.eqb role "handler" then HandlerView
                          else SubmitterView
           | None => SubmitterView
           end
       end.

(** ** Everything a signed-in user can send to the storage layer *)

Inductive statement : Type :=
| InsertRequest (fresh_id : uuid) (now : timestamptz) (p : Requests.payload)
| UpdateRequests (now : timestamptz) (p : Requests.payload)
                 (where_ : Requests.row -> bool)
| DeleteRequests (where_ : Requests.row -> bool)
| InsertComment (fresh_id : uuid) (now : timestamptz) (p : Comments.payload)
| InsertRole (fresh_id : uuid) (now : timestamptz) (p : UserRoles.payload)
| UpdateRoles (p : UserRoles.payload) (where_ : UserRoles.row -> bool)
| DeleteRoles (where_ : UserRoles.row -> bool).

Definition execute (uid : uuid) (s : statement) (d : db) : result db :=
  match s with
  | InsertRequest fresh_id now p => requests_insert uid fresh_id now p d
  | UpdateRequests now p where_ => requests_update uid now p where_ d
  | DeleteRequests where_ => requests_delete uid where_ d
  | InsertComment fresh_id now p => request_comments_insert uid fresh_id now p d
  | InsertRole fresh_id now p => user_roles_insert uid fresh_id now p d
  | UpdateRoles p where_ => user_roles_update uid p where_ d
  | DeleteRoles where_ => user_roles_delete uid where_ d
  end.

Definition run (uid : uuid) (script : list statement) (d : db) : db :=
  fold_left (fun acc s => commit acc (execute uid s acc)) script d.

(** ** Predicates the properties are stated with *)

(** The caller holds a row of [user_roles] with the given role. *)
Definition holds_role (uid : uuid) (role : text) (d : db) : Prop :=
  exists r, In r (user_roles d)
            /\ UserRoles.user_id r = Some uid
            /\ UserRoles.role r = Some role.

(** [resolved_at] is set exactly when the request is resolved. *)
Definition resolved_consistent (r : Requests.row) : Prop :=
  Requests.resolved_at r <> None <-> Requests.status r = Some "Resolved".

(** What the storage layer keeps of a request: a status (NOT NULL) and a
    [resolved_at] that agrees with it. *)
Definition stored_consistent (d : db) : Prop :=
  Forall (fun r => Requests.status r <> None /\ resolved_consistent r)
         (requests d).

(** The request a comment hangs on: the row of [requests] with that id. *)
Definition parent_request (d : db) (c : Comments.row) : option Requests.row :=
  find (fun rq => same_uuid (Requests.id rq) (Comments.request_id c))
       (requests d).

(** PRIMARY KEY of [requests]: no NULL id and no id twice. *)
Definition requests_pkey (d : db) : Prop :=
  Forall (fun rq => Requests.id rq <> None) (requests d)
  /\ NoDup (map Requests.id (requests d)).

(** The rule list of the specification: an ordered list of
    (keyword set, result) pairs, the first matching pair wins. *)
Fixpoint first_match (rules : list (list string * string)) (fallback : string)
  (text : string) : string :=
  match rules with
  | [] => fallback
  | (keywords, result) :: rest =>
      if JS.regex_match keywords text then result
      else first_match rest fallback text
  end.

(** Every keyword of the source begins with a lower-case ASCII letter. *)
Definition starts_with_letter (literal : string) : bool :=
  match literal with
  | String c _ => JS.in_range 97 122 (N_of_ascii c)
  | EmptyString => false
  end.

Definition category_rules : list (list string * string) :=
  [ (it_keywords, "IT and Technical Support");
    (facilities_keywords, "Facilities and Maintenance");
    (equipment_keywords, "Equipment and Furniture");
    (safety_keywords, "Safety and Fire Protection");
    (hr_keywords, "HR and Staff Matters") ].

Definition priority_rules : list (list string * string) :=
  [ (critical_keywords, "Critical");
    (high_keywords, "High");
    (low_keywords, "Low") ].

(* ================================================================== *)
(** * The views: queries, filters and counters                         *)
(* ================================================================== *)

(** [String.prototype.includes]: the needle occurs unit for unit. *)
Fixpoint starts_with (needle text : string) : bool :=
  match needle with
  | EmptyString => true
  | String n needle' =>
      match text with
      | EmptyString => false
      | String t text' => Ascii.eqb n t && starts_with needle' text'
      end
  end.

Fixpoint includes (text needle : string) : bool :=
  starts_with needle text
  || match text with
     | EmptyString => false
     | String _ text' => includes text' needle
     end.

(** ORDER BY ... DESC puts NULL first, ORDER BY ... ASC puts it last. *)
Definition desc_le (a b : option timestamptz) : bool :=
  match a, b with
  | None, _ => true
  | Some _, None => false
  | Some x, Some y => (y <=? x)%Z
  end.

Definition asc_le (a b : option timestamptz) : bool :=
  match a, b with
  | _, None => true
  | None, Some _ => false
  | Some x, Some y => (x <=? y)%Z
  end.

(** What a SELECT with an ORDER BY may answer: the selected rows, each
    once, in an order that respects the sort key; rows with equal keys come
    in any order. *)
Definition answers {R : Type} (le : R -> R -> bool) (selected data : list R)
  : Prop :=
  Permutation selected data
  /\ StronglySorted (fun a b => le a b = true) data.

(** One such answer: rows with equal keys stay in table order. *)
Fixpoint insert_by {R : Type} (le : R -> R -> bool) (x : R) (l : list R)
  : list R :=
  match l with
  | [] => [x]
  | y :: l' => if le x y then x :: l else y :: insert_by le x l'
  end.

Definition sort_by {R : Type} (le : R -> R -> bool) (l : list R) : list R :=
  fold_right (insert_by le) [] l.

Definition newest_first (a b : Requests.row) : bool :=
  desc_le (Requests.created_at a) (Requests.created_at b).

Definition oldest_first (a b : Comments.row) : bool :=
  asc_le (Comments.created_at a) (Comments.created_at b).

(** [SubmitterView.loadRequests]:
    [from('requests').select('*').eq('submitter_id', user.id)], before the
    ordering. *)
Definition SubmitterView_selected (uid : uuid) (d : db) : list Requests.row :=
  filter (fun r => same_uuid (Requests.submitter_id r) (Some uid))
         (filter (using_ok requests_policies SELECT uid d) (requests d)).

(** [HandlerView.loadRequests]: [from('requests').select('*')]. *)
Definition HandlerView_selected (uid : uuid) (d : db) : list Requests.row :=
  filter (using_ok requests_policies SELECT uid d) (requests d).

(** [RequestDetails.loadComments]:
    [from('request_comments').select('*').eq('request_id', request.id)]. *)
Definition loadComments_selected (uid : uuid) (d : db) (request : Requests.row)
  : list Comments.row :=
  filter (fun c => same_uuid (Comments.request_id c) (Requests.id request))
         (filter (using_ok request_comments_policies SELECT uid d)
                 (request_comments d)).

(** The filter state of [HandlerView]. *)
Record filters : Type := mkFilters {
  searchTerm : string;
  filterCategory : string;
  filterStatus : string;
  filterPriority : string
}.

Definition clearFilters : filters := mkFilters "" "" "" "".

(** [field.toLowerCase().includes(search)]; calling a method on [null]
    throws, which is [None]. *)
Definition lower_includes (field : option text) (search : string)
  : option bool :=
  match field with
  | Some s => Some (includes (JS.toLowerCase s) search)
  | None => None
  end.

(** The callback of the search filter; [||] evaluates its right side only
    when the left side is false. *)
Definition matches_search (search : string) (r : Requests.row) : option bool :=
  match lower_includes (Requests.title r) search with
  | None => None
  | Some true => Some true
  | Some false =>
      match lower_includes (Requests.description r) search with
      | None => None
      | Some true => Some true
      | Some false => lower_includes (Requests.submitter_name r) search
      end
  end.

(** The search callback on a row with its three texts present. *)
Definition search_hit (search : string) (r : Requests.row) : bool :=
  match matches_search search r with
  | Some true => true
  | _ => false
  end.

(** [Array.prototype.filter] with a callback that may throw. *)
Fixpoint filterM {A : Type} (keep : A -> option bool) (l : list A)
  : option (list A) :=
  match l with
  | [] => Some []
  | a :: l' =>
      match keep a with
      | None => None
      | Some b =>
          match filterM keep l' with
          | None => None
          | Some rest => Some (if b then a :: rest else rest)
          end
      end
  end.

(** [r.column === value]. *)
Definition strict_eq (field : option text) (value : string) : bool :=
  match field with
  | Some s => String.eqb s value
  | None => false
  end.

(** [if (value) filtered = filtered.filter((r) => r.column === value)]. *)
Definition filter_column (column : Requests.row -> option text)
  (value : string) (filtered : list Requests.row) : list Requests.row :=
  if String.eqb value "" then filtered
  else filter (fun r => strict_eq (column r) value) filtered.

(** [HandlerView.applyFilters]: the value handed to
    [setFilteredRequests], or [None] when a callback throws. *)
Definition applyFilters (f : filters) (requests : list Requests.row)
  : option (list Requests.row) :=
  match (if String.eqb (searchTerm f) "" then Some requests
         else filterM (matches_search (JS.toLowerCase (searchTerm f)))
                      requests) with
  | None => None
  | Some filtered =>
      Some (filter_column Requests.priority (filterPriority f)
              (filter_column Requests.status (filterStatus f)
                 (filter_column Requests.category (filterCategory f)
                    filtered)))
  end.

(** The counters of [HandlerView]; [SubmitterView] shows the first four. *)
Record stats : Type := mkStats {
  total : nat;
  received_count : nat;
  inProgress : nat;
  resolved_count : nat;
  critical : nat
}.

Definition count_where (column : Requests.row -> option text) (value : string)
  (requests : list Requests.row) : nat :=
  List.length (filter (fun r => strict_eq (column r) value) requests).

Definition HandlerView_stats (requests : list Requests.row) : stats :=
  {| total := List.length requests;
     received_count := count_where Requests.status "Received" requests;
     inProgress := count_where Requests.status "In Progress" requests;
     resolved_count := count_where Requests.status "Resolved" requests;
     critical := count_where Requests.priority "Critical" requests |}.

(** ** The constraints of the schema, as predicates on a database *)

(** [requests]: NOT NULL columns, primary key, reference to [auth.users]. *)
Definition requests_constraints (d : db) : Prop :=
  Forall (fun r => Requests.not_null r = true
                   /\ references_user d (Requests.submitter_id r) = true)
         (requests d)
  /\ NoDup (map Requests.id (requests d)).

(** [request_comments]: NOT NULL columns, primary key, references to
    [requests] and to [auth.users]. *)
Definition request_comments_constraints (d : db) : Prop :=
  Forall (fun c => Comments.not_null c = true
                   /\ references_request (requests d) (Comments.request_id c) = true
                   /\ references_user d (Comments.user_id c) = true)
         (request_comments d)
  /\ NoDup (map Comments.id (request_comments d)).

(** [user_roles]: NOT NULL columns, CHECK on the role, primary key,
    UNIQUE(user_id, role), reference to [auth.users]. *)
Definition user_roles_table_constraints (d : db) : Prop :=
  Forall (fun r => UserRoles.not_null r = true
                   /\ UserRoles.role_check r = true
                   /\ references_user d (UserRoles.user_id r) = true)
         (user_roles d)
  /\ NoDup (map UserRoles.id (user_roles d))
  /\ NoDup (map UserRoles.unique_key (user_roles d)).

Definition schema_constraints (d : db) : Prop :=
  requests_constraints d
  /\ request_comments_constraints d
  /\ user_roles_table_constraints d.

(* ================================================================== *)
(** * A small deployment, used to run the definitions                  *)
(* ================================================================== *)

Module Sample.

Definition alice : User := mkUser "alice" (Some "alice@example.org") (Some "Alice").
Definition bob : User := mkUser "bob" (Some "bob@example.org") None.
Definition carol : User := mkUser "carol" (Some "carol@example.org") (Some "Carol").
Definition dave : User := mkUser "dave" (Some "dave@example.org") (Some "Dave").

Definition empty : db := mkDb [] [] [] [].

Definition role_body (u : User) (role : string) : UserRoles.payload :=
  {| UserRoles.p_id := Omitted;
     UserRoles.p_user_id := Given (Some (u_id u));
     UserRoles.p_role := Given (Some role);
     UserRoles.p_created_at := Omitted |}.

(** Alice signs up as submitter, Bob as handler, Dave as submitter;
    Carol's sign-up awaits confirmation, so she has no role row. *)
Definition signed_up : db :=
  signUp dave true "submitter" "role-3" 12
    (signUp carol false "submitter" "role-x" 11
       (signUp bob true "handler" "role-2" 11
          (signUp alice true "submitter" "role-1" 10 empty))).

(** Alice files a request through the form. *)
Definition with_request : db :=
  commit signed_up
    (handleSubmit alice "req-1" 20 "Projector" "The lamp flickers" "" ""
       signed_up).

Definition req1 : Requests.row :=
  Requests.mk (Some "req-1") (Some "Projector") (Some "The lamp flickers")
    (Some "Other") (Some "Medium") (Some "Received") (Some "alice")
    (Some "Alice") (Some "General Support") (Some "")
    (Some ("Your request regarding " ++ quote ++ "Projector" ++ quote
           ++ " has been received. We will review the details and route it to the appropriate department for handling."))
    (Some 20%Z) (Some 20%Z) None None.

(** Dave adds a handler row for himself. *)
Definition dave_adds_handler : statement :=
  InsertRole "role-4" 30 (role_body dave "handler").

Definition comment_on_req1 (u : User) : Comments.row :=
  Comments.mk (Some "c-1") (Some "req-1") (Some (u_id u)) (u_name u)
    (Some "Any news?") (Some 40%Z).

Definition comment_body (u : User) : Comments.payload :=
  {| Comments.p_id := Omitted;
     Comments.p_request_id := Given (Some "req-1");
     Comments.p_user_id := Given (Some (u_id u));
     Comments.p_user_name := json_key (u_name u);
     Comments.p_comment := Given (Some "Any news?");
     Comments.p_created_at := Omitted |}.

(** An insert that sets the status itself, and an update that clears
    [resolved_at] while the status stays 'Resolved'. *)
Definition resolved_on_arrival : Requests.payload :=
  {| Requests.p_id := Omitted;
     Requests.p_title := Given (Some "Door");
     Requests.p_description := Given (Some "Fixed it myself");
     Requests.p_category := Given (Some "Other");
     Requests.p_priority := Omitted;
     Requests.p_status := Given (Some "Resolved");
     Requests.p_submitter_id := Given (Some "alice");
     Requests.p_submitter_name := Given (Some "Alice");
     Requests.p_assigned_unit := Omitted;
     Requests.p_assigned_handler := Omitted;
     Requests.p_ai_response := Omitted;
     Requests.p_created_at := Omitted;
     Requests.p_updated_at := Omitted;
     Requests.p_resolved_at := Omitted;
     Requests.p_deadline := Omitted |}.

Definition nothing : Requests.payload :=
  Requests.body Omitted Omitted Omitted Omitted Omitted Omitted Omitted
    Omitted Omitted Omitted Omitted Omitted Omitted Omitted Omitted.

Definition set_status (s : string) : Requests.payload :=
  Requests.body Omitted Omitted Omitted Omitted Omitted (Given (Some s))
    Omitted Omitted Omitted Omitted Omitted Omitted Omitted Omitted Omitted.

Definition clear_resolved_at : Requests.payload :=
  Requests.body Omitted Omitted Omitted Omitted Omitted Omitted Omitted
    Omitted Omitted Omitted Omitted Omitted Omitted (Given None) Omitted.

Definition any_request (r : Requests.row) : bool := true.

(** Bob resolves Alice's request in the details panel, then reopens it. *)
Definition resolved : db :=
  commit with_request
    (handleUpdateRequest bob 60 req1
       (Requests.overlay req1 (set_status "Resolved")) with_request).

Definition reopened : db :=
  commit resolved (handleUpdateRequest bob 70 req1 req1 resolved).

(** Alice asks for news on her request; Dave files a second request. *)
Definition discussed : db :=
  commit with_request
    (handleAddComment alice "c-1" 40 req1 "Any news?" with_request).

Definition two_requests : db :=
  commit discussed
    (handleSubmit dave "req-2" 45 "Chair" "My chair is broken" "" ""
       discussed).

End Sample.

(* ================================================================== *)
(** * Properties of the classifier                                     *)
(* ================================================================== *)

Unset Implicit Arguments.

Section Matching.

Lemma toLowerCase_app (a b : string) :
  JS.toLowerCase (a ++ b) = JS.toLowerCase a ++ JS.toLowerCase b.
Proof.
  induction a as [| c a IH]; simpl; [reflexivity | now rewrite IH].
Qed.

Lemma match_here_app (literal text rest : string) :
  JS.match_here literal text = true ->
  JS.match_here literal (text ++ rest) = true.
Proof.
  revert text.
  induction literal as [| p literal IH]; intros text H; [reflexivity |].
  destruct text as [| t text]; simpl in *; [discriminate |].
  apply andb_true_iff in H as [Hu Hm].
  rewrite Hu. simpl. now apply IH.
Qed.

Lemma regex_match_app_l (alternatives : list string) (text rest : string) :
  JS.regex_match alternatives text = true ->
  JS.regex_match alternatives (text ++ rest) = true.
Proof.
  induction text as [| t text IH]; intros H.
  - simpl in H. rewrite orb_false_r in H.
    apply existsb_exists in H as (l & Hin & Hl).
    destruct rest; simpl; apply orb_true_iff; left;
      apply existsb_exists; exists l; split; trivial;
      destruct l; simpl in *; trivial; discriminate.
  - simpl in H. apply orb_true_iff in H as [H | H].
    + simpl. apply orb_true_iff. left.
      apply existsb_exists in H as (l & Hin & Hl).
      apply existsb_exists. exists l. split; trivial.
      now apply (match_here_app l (String t text) rest).
    + simpl. apply orb_true_iff. right. now apply IH.
Qed.

Lemma regex_match_app_r (alternatives : list string) (skipped text : string) :
  JS.regex_match alternatives text = true ->
  JS.regex_match alternatives (skipped ++ text) = true.
Proof.
  intros H. induction skipped as [| c skipped IH]; simpl; trivial.
  apply orb_true_iff. now right.
Qed.

(** A lower-case ASCII letter of a pattern never matches a white-space
    unit of the text. *)
Lemma letter_misses_white_space (p t : ascii) :
  JS.in_range 97 122 (N_of_ascii p) = true ->
  JS.is_white_space t = true ->
  JS.unit_match p t = false.
Proof.
  intros Hp Ht.
  destruct t as [[] [] [] [] [] [] [] []]; vm_compute in Ht;
    try discriminate Ht; clear Ht;
    destruct p as [[] [] [] [] [] [] [] []]; vm_compute in Hp;
      try discriminate Hp; reflexivity.
Qed.

Lemma lower_unit_white_space (c : ascii) :
  JS.is_white_space c = true -> JS.lower_unit c = c.
Proof.
  destruct c as [[] [] [] [] [] [] [] []]; vm_compute;
    intros H; try discriminate H; reflexivity.
Qed.

Lemma white_space_never_matches (alternatives : list string) (text : string) :
  forallb starts_with_letter alternatives = true ->
  JS.all_units JS.is_white_space text = true ->
  JS.regex_match alternatives text = false.
Proof.
  intros Hal. rewrite forallb_forall in Hal.
  induction text as [| t text IH]; intros Hws; simpl.
  - rewrite orb_false_r.
    apply not_true_iff_false. intros H.
    apply existsb_exists in H as (l & Hin & Hl).
    specialize (Hal l Hin). destruct l; simpl in *; discriminate.
  - simpl in Hws. apply andb_true_iff in Hws as [Ht Hrest].
    rewrite (IH Hrest), orb_false_r.
    apply not_true_iff_false. intros H.
    apply existsb_exists in H as (l & Hin & Hl).
    specialize (Hal l Hin). destruct l as [| p l]; simpl in *; [discriminate |].
    rewrite (letter_misses_white_space p t Hal Ht) in Hl. discriminate.
Qed.

Lemma all_white_space_app (a b : string) :
  JS.all_units JS.is_white_space a = true ->
  JS.all_units JS.is_white_space b = true ->
  JS.all_units JS.is_white_space (a ++ b) = true.
Proof.
  intros Ha Hb. induction a as [| c a IH]; simpl in *; trivial.
  apply andb_true_iff in Ha as [Hc Ha]. rewrite Hc. simpl. now apply IH.
Qed.

Lemma toLowerCase_white_space (s : string) :
  JS.all_units JS.is_white_space s = true -> JS.toLowerCase s = s.
Proof.
  induction s as [| c s IH]; simpl; trivial.
  intros H. apply andb_true_iff in H as [Hc Hs].
  now rewrite (lower_unit_white_space c Hc), (IH Hs).
Qed.

Lemma regex_match_alternation (xs ys : list string) (text : string) :
  JS.regex_match (xs ++ ys) text
  = JS.regex_match xs text || JS.regex_match ys text.
Proof.
  induction text as [| t text IH]; simpl; rewrite existsb_app.
  - now rewrite !orb_false_r.
  - rewrite IH.
    destruct (existsb _ xs), (existsb _ ys), (JS.regex_match xs text),
      (JS.regex_match ys text); reflexivity.
Qed.

End Matching.

Lemma analyzeRequest_category (title description : string) :
  a_category (analyzeRequest title description)
  = categorizeRequest (JS.toLowerCase (title ++ " " ++ description)).
Proof. reflexivity. Qed.

Lemma analyzeRequest_priority (title description : string) :
  a_priority (analyzeRequest title description)
  = determinePriority (JS.toLowerCase (title ++ " " ++ description)).
Proof. reflexivity. Qed.

Lemma analyzeRequest_assignedUnit (title description : string) :
  a_assignedUnit (analyzeRequest title description)
  = getAssignedUnit (a_category (analyzeRequest title description)).
Proof. reflexivity. Qed.

(** C7.  Whatever the description, the title "fire alarm and a slow
    computer" is classified 'IT and Technical Support'.  The category is the
    result of the first matching rule in the order IT, Facilities,
    Equipment, Safety, HR, with 'Other' when none matches, over the
    lower-cased "title description"; the title matches the Safety keywords
    too, and a text that matches both the IT and the Safety keywords is an
    IT request. *)
Theorem C7_it_rule_precedes_safety (title description text : string) :
  a_category (analyzeRequest "fire alarm and a slow computer" description)
  = "IT and Technical Support"
  /\ JS.regex_match safety_keywords
       (JS.toLowerCase ("fire alarm and a slow computer" ++ " " ++ description))
     = true
  /\ a_category (analyzeRequest title description)
     = categorizeRequest (JS.toLowerCase (title ++ " " ++ description))
  /\ categorizeRequest text = first_match category_rules "Other" text
  /\ (JS.regex_match it_keywords text = true ->
      JS.regex_match safety_keywords text = true ->
      categorizeRequest text = "IT and Technical Support").
Proof.
  assert (Hit : JS.regex_match it_keywords
                  (JS.toLowerCase ("fire alarm and a slow computer" ++ " " ++ description))
                = true).
  { change ("fire alarm and a slow computer" ++ " " ++ description)
      with ("fire alarm and a slow computer " ++ description).
    rewrite toLowerCase_app. apply regex_match_app_l. reflexivity. }
  split; [| split; [| split; [| split]]].
  - rewrite analyzeRequest_category. unfold categorizeRequest.
    now rewrite Hit.
  - change ("fire alarm and a slow computer" ++ " " ++ description)
      with ("fire alarm and a slow computer " ++ description).
    rewrite toLowerCase_app. apply regex_match_app_l. reflexivity.
  - apply analyzeRequest_category.
  - reflexivity.
  - intros Hi _. unfold categorizeRequest. now rewrite Hi.
Qed.

Lemma C7_it_rule_precedes_safety_witness :
  categorizeRequest "the fire alarm next to the printer"
  = "IT and Technical Support".
Proof.
  pose proof (C7_it_rule_precedes_safety "" ""
                "the fire alarm next to the printer")
    as (_ & _ & _ & _ & Hboth).
  apply Hboth; reflexivity.
Defined.

(** C8.  [analyzeRequest] of the empty title and the empty description is
    category 'Other', priority 'Medium', unit 'General Support'.  The
    classifier returns a result for every input: the category is one of the
    six categories, the priority one of the four priorities, the unit the
    table entry of the category.  A text
    that no keyword set matches gets the fall-back values, and so does every
    title and description made of white space only. *)
Theorem C8_classifier_total_with_fallback (title description : string) :
  (a_category (analyzeRequest "" "") = "Other"
   /\ a_priority (analyzeRequest "" "") = "Medium"
   /\ a_assignedUnit (analyzeRequest "" "") = "General Support")
  /\ (exists r, analyzeRequest title description = r
        /\ In (a_category r)
              ["IT and Technical Support"; "Facilities and Maintenance";
               "Equipment and Furniture"; "Safety and Fire Protection";
               "HR and Staff Matters"; "Other"]
        /\ In (a_priority r) ["Critical"; "High"; "Medium"; "Low"]
        /\ record_get units (a_category r) = Some (a_assignedUnit r))
  /\ (JS.regex_match
        (it_keywords ++ facilities_keywords ++ equipment_keywords
         ++ safety_keywords ++ hr_keywords)
        (JS.toLowerCase (title ++ " " ++ description)) = false ->
      a_category (analyzeRequest title description) = "Other"
      /\ a_assignedUnit (analyzeRequest title description) = "General Support")
  /\ (JS.regex_match (critical_keywords ++ high_keywords ++ low_keywords)
        (JS.toLowerCase (title ++ " " ++ description)) = false ->
      a_priority (analyzeRequest title description) = "Medium")
  /\ (JS.all_units JS.is_white_space title = true ->
      JS.all_units JS.is_white_space description = true ->
      a_category (analyzeRequest title description) = "Other"
      /\ a_priority (analyzeRequest title description) = "Medium"
      /\ a_assignedUnit (analyzeRequest title description) = "General Support").
Proof.
  split; [repeat split |].
  split.
  { eexists. split; [reflexivity |].
    rewrite analyzeRequest_assignedUnit, analyzeRequest_category,
      analyzeRequest_priority.
    unfold categorizeRequest, determinePriority.
    set (text := JS.toLowerCase _).
    destruct (JS.regex_match it_keywords text),
      (JS.regex_match facilities_keywords text),
      (JS.regex_match equipment_keywords text),
      (JS.regex_match safety_keywords text),
      (JS.regex_match hr_keywords text),
      (JS.regex_match critical_keywords text),
      (JS.regex_match high_keywords text),
      (JS.regex_match low_keywords text);
      (split; [simpl; tauto | split; [simpl; tauto | reflexivity]]). }
  split.
  { intros H. rewrite !regex_match_alternation in H.
    repeat (apply orb_false_iff in H; destruct H as [?H H]).
    rewrite analyzeRequest_assignedUnit, analyzeRequest_category.
    unfold categorizeRequest.
    rewrite H0, H1, H2, H3, H. split; reflexivity. }
  split.
  { intros H. rewrite !regex_match_alternation in H.
    repeat (apply orb_false_iff in H; destruct H as [?H H]).
    rewrite analyzeRequest_priority. unfold determinePriority.
    now rewrite H0, H1, H. }
  intros Ht Hd.
  assert (Hws : JS.all_units JS.is_white_space
                  (JS.toLowerCase (title ++ " " ++ description)) = true).
  { assert (Hall : JS.all_units JS.is_white_space (title ++ " " ++ description) = true)
      by (apply all_white_space_app; [assumption |];
          apply all_white_space_app; [reflexivity | assumption]).
    now rewrite (toLowerCase_white_space _ Hall). }
  rewrite analyzeRequest_assignedUnit, analyzeRequest_category,
    analyzeRequest_priority.
  unfold categorizeRequest, determinePriority.
  rewrite !(fun alts H => white_space_never_matches alts _ H Hws)
    by reflexivity.
  repeat split.
Qed.

Lemma C8_classifier_total_with_fallback_witness :
  (a_category (analyzeRequest "   " (String (ascii_of_nat 9) " ")) = "Other"
   /\ a_priority (analyzeRequest "   " (String (ascii_of_nat 9) " ")) = "Medium"
   /\ a_assignedUnit (analyzeRequest "   " (String (ascii_of_nat 9) " "))
      = "General Support")
  /\ a_category (analyzeRequest "Parking" "lot gate") = "Other"
  /\ a_priority (analyzeRequest "Parking" "lot gate") = "Medium".
Proof.
  pose proof (C8_classifier_total_with_fallback
                "   " (String (ascii_of_nat 9) " ")) as (_ & _ & _ & _ & Hws).
  pose proof (C8_classifier_total_with_fallback "Parking" "lot gate")
    as (_ & _ & Hc & Hp & _).
  split; [apply Hws; reflexivity | split].
  - apply Hc. reflexivity.
  - apply Hp. reflexivity.
Defined.

(* ================================================================== *)
(** * Properties of the policies                                       *)
(* ================================================================== *)

Section PolicyFacts.

Lemma uuid_eq_true (a b : option uuid) :
  is_true (uuid_eq a b) = true <-> exists u, a = Some u /\ b = Some u.
Proof.
  destruct a as [x |], b as [y |]; simpl; split;
    try discriminate; try (intros (u & Ha & Hb); discriminate).
  - destruct (String.eqb_spec x y) as [-> | Hne]; [| discriminate].
    intros _. now exists y.
  - intros (u & Ha & Hb). injection Ha as ->. injection Hb as ->.
    now rewrite String.eqb_refl.
Qed.

Lemma text_eq_true (a b : option text) :
  is_true (text_eq a b) = true <-> exists u, a = Some u /\ b = Some u.
Proof. apply uuid_eq_true. Qed.

Lemma uuid_eq_some (a : option uuid) (u : uuid) :
  is_true (uuid_eq a (Some u)) = true <-> a = Some u.
Proof.
  rewrite uuid_eq_true. split.
  - intros (x & Ha & Hx). now injection Hx as ->.
  - intros ->. now exists u.
Qed.

Lemma uuid_eq_some_l (a : option uuid) (u : uuid) :
  is_true (uuid_eq (Some u) a) = true <-> a = Some u.
Proof.
  rewrite uuid_eq_true. split.
  - intros (x & Hx & Ha). now injection Hx as ->.
  - intros ->. now exists u.
Qed.

Lemma and3_true (x y : option bool) :
  is_true (and3 x y) = true <-> is_true x = true /\ is_true y = true.
Proof.
  destruct x as [[] |], y as [[] |]; simpl; intuition discriminate.
Qed.

Lemma user_roles_select_own (uid : uuid) (d : db) (r : UserRoles.row) :
  using_ok user_roles_policies SELECT uid d r = true
  <-> UserRoles.user_id r = Some uid.
Proof.
  unfold using_ok, user_roles_policies; simpl.
  rewrite !orb_false_r. apply uuid_eq_some_l.
Qed.

(** The sub-query of the handler policies finds a row exactly when the
    caller holds a handler row: the SELECT policy of [user_roles] hides
    only rows of other users. *)
Lemma exists_handler_role_iff (uid : uuid) (d : db) :
  exists_handler_role uid d = true <-> holds_role uid "handler" d.
Proof.
  unfold exists_handler_role, holds_role. rewrite existsb_exists. split.
  - intros (r & Hin & Hr). apply filter_In in Hin as [Hin _].
    apply and3_true in Hr as [Hu Hro].
    apply uuid_eq_some in Hu. apply (uuid_eq_some (UserRoles.role r)) in Hro.
    now exists r.
  - intros (r & Hin & Hu & Hro). exists r. split.
    + apply filter_In. split; trivial. now apply user_roles_select_own.
    + apply and3_true. split.
      * now apply uuid_eq_some.
      * now apply (uuid_eq_some (UserRoles.role r)).
Qed.

Lemma exists_handler_role_false (uid : uuid) (d : db) :
  exists_handler_role uid d = false <-> ~ holds_role uid "handler" d.
Proof.
  rewrite <- exists_handler_role_iff.
  destruct (exists_handler_role uid d); intuition discriminate.
Qed.

Lemma requests_select_ok (uid : uuid) (d : db) (r : Requests.row) :
  using_ok requests_policies SELECT uid d r
  = is_true (uuid_eq (Some uid) (Requests.submitter_id r))
    || exists_handler_role uid d.
Proof.
  unfold using_ok, requests_policies; simpl.
  destruct (exists_handler_role uid d); now rewrite ?orb_false_r.
Qed.

Lemma requests_update_using (uid : uuid) (d : db) (r : Requests.row) :
  using_ok requests_policies UPDATE uid d r = exists_handler_role uid d.
Proof.
  unfold using_ok, requests_policies; simpl.
  now destruct (exists_handler_role uid d).
Qed.

Lemma requests_update_check (uid : uuid) (d : db) (r : Requests.row) :
  check_ok requests_policies UPDATE uid d r = exists_handler_role uid d.
Proof.
  unfold check_ok, requests_policies; simpl.
  now destruct (exists_handler_role uid d).
Qed.

Lemma requests_delete_using (uid : uuid) (d : db) (r : Requests.row) :
  using_ok requests_policies DELETE uid d r = exists_handler_role uid d.
Proof.
  unfold using_ok, requests_policies; simpl.
  now destruct (exists_handler_role uid d).
Qed.

Lemma requests_insert_check (uid : uuid) (d : db) (r : Requests.row) :
  check_ok requests_policies INSERT uid d r
  = is_true (uuid_eq (Some uid) (Requests.submitter_id r)).
Proof.
  unfold check_ok, requests_policies; simpl. now rewrite orb_false_r.
Qed.

End PolicyFacts.

(** C1.  For every authenticated caller, every database and every request
    row: a caller who holds a 'handler' row passes the select, update
    (old row and new row) and delete policies of [requests] on every row; a
    caller without one passes the select policies exactly on the rows
    whose [submitter_id] is the caller's uid, and passes the update and
    delete policies on no row. *)
Theorem C1_requests_policies_by_role
  (uid : uuid) (d : db) (row new_row : Requests.row) :
  (holds_role uid "handler" d ->
     using_ok requests_policies SELECT uid d row = true
     /\ using_ok requests_policies UPDATE uid d row = true
     /\ check_ok requests_policies UPDATE uid d new_row = true
     /\ using_ok requests_policies DELETE uid d row = true)
  /\ (~ holds_role uid "handler" d ->
        (using_ok requests_policies SELECT uid d row = true
         <-> Requests.submitter_id row = Some uid)
        /\ using_ok requests_policies UPDATE uid d row = false
        /\ check_ok requests_policies UPDATE uid d new_row = false
        /\ using_ok requests_policies DELETE uid d row = false).
Proof.
  rewrite requests_select_ok, requests_update_using, requests_update_check,
    requests_delete_using.
  split; intros H.
  - apply exists_handler_role_iff in H. rewrite H, orb_true_r. tauto.
  - apply exists_handler_role_false in H. rewrite H, orb_false_r.
    split; [apply uuid_eq_some_l | tauto].
Qed.

Lemma C1_requests_policies_by_role_witness :
  (using_ok requests_policies SELECT "bob" Sample.with_request Sample.req1 = true
   /\ using_ok requests_policies UPDATE "bob" Sample.with_request Sample.req1 = true
   /\ check_ok requests_policies UPDATE "bob" Sample.with_request Sample.req1 = true
   /\ using_ok requests_policies DELETE "bob" Sample.with_request Sample.req1 = true)
  /\ ((using_ok requests_policies SELECT "dave" Sample.with_request Sample.req1 = true
       <-> Requests.submitter_id Sample.req1 = Some "dave")
      /\ using_ok requests_policies UPDATE "dave" Sample.with_request Sample.req1 = false
      /\ check_ok requests_policies UPDATE "dave" Sample.with_request Sample.req1 = false
      /\ using_ok requests_policies DELETE "dave" Sample.with_request Sample.req1 = false).
Proof.
  split.
  - apply (C1_requests_policies_by_role "bob" Sample.with_request
             Sample.req1 Sample.req1).
    apply exists_handler_role_iff. reflexivity.
  - apply (C1_requests_policies_by_role "dave" Sample.with_request
             Sample.req1 Sample.req1).
    apply exists_handler_role_false. reflexivity.
Defined.

Section CommentPolicy.

Lemma key_determines_row {A K : Type} (key : A -> K) (l : list A) (a b : A) :
  NoDup (map key l) -> In a l -> In b l -> key a = key b -> a = b.
Proof.
  induction l as [| x l IH]; simpl; intros Hnd Ha Hb Hk; [contradiction |].
  inversion Hnd as [| ? ? Hnotin Hnd']; subst.
  destruct Ha as [-> | Ha], Hb as [-> | Hb]; trivial.
  - exfalso. apply Hnotin. rewrite Hk. now apply in_map.
  - exfalso. apply Hnotin. rewrite <- Hk. now apply in_map.
  - now apply IH.
Qed.

Lemma exists_own_parent_request_iff (uid : uuid) (d : db) (c : Comments.row) :
  requests_pkey d ->
  exists_own_parent_request uid d (Comments.request_id c) = true
  <-> exists rq, parent_request d c = Some rq
                 /\ Requests.submitter_id rq = Some uid.
Proof.
  intros [Hnn Hnd].
  unfold exists_own_parent_request, parent_request.
  rewrite existsb_exists. split.
  - intros (rq & Hin & Hrq). apply filter_In in Hin as [Hin _].
    apply and3_true in Hrq as [Hid Hsub]. apply uuid_eq_some in Hsub.
    destruct (find _ (requests d)) as [rq' |] eqn:Hfind.
    + apply find_some in Hfind as [Hin' Hid'].
      exists rq'. split; trivial.
      apply uuid_eq_true in Hid as (u & Hu & Hc).
      apply uuid_eq_true in Hid' as (u' & Hu' & Hc').
      rewrite Hc in Hc'. injection Hc' as ->.
      assert (rq' = rq) as ->
          by (apply (key_determines_row Requests.id (requests d));
              trivial; congruence).
      assumption.
    + exfalso. apply (find_none _ _ Hfind) in Hin. unfold same_uuid in Hin.
      congruence.
  - intros (rq & Hfind & Hsub). apply find_some in Hfind as [Hin Hid].
    exists rq. split.
    + apply filter_In. split; trivial.
      rewrite requests_select_ok. apply orb_true_iff. left.
      now apply uuid_eq_some_l.
    + apply and3_true. split; trivial. now apply uuid_eq_some.
Qed.

Lemma comment_insert_check (uid : uuid) (d : db) (c : Comments.row) :
  check_ok request_comments_policies INSERT uid d c
  = is_true (uuid_eq (Some uid) (Comments.user_id c))
    && (exists_own_parent_request uid d (Comments.request_id c)
        || exists_handler_role uid d).
Proof.
  unfold check_ok, request_comments_policies, comment_access; simpl.
  rewrite orb_false_r. unfold uuid_eq, eq3.
  destruct (Comments.user_id c) as [b |]; [destruct (String.eqb uid b) |];
    destruct (exists_own_parent_request uid d (Comments.request_id c)),
      (exists_handler_role uid d); reflexivity.
Qed.

End CommentPolicy.

(** C6.  On a [requests] table that respects its primary key, the insert
    policy of [request_comments] accepts a comment exactly when its
    [user_id] is the caller's uid and the caller is the submitter of the
    parent request or holds a 'handler' row; hence it rejects every comment
    of a caller who is neither the submitter of the parent request nor a
    handler, and the insert statement then fails with a policy violation. *)
Theorem C6_comment_insert_policy
  (uid : uuid) (d : db) (c : Comments.row)
  (fresh_id : uuid) (now : timestamptz) (p : Comments.payload) :
  requests_pkey d ->
  let owns (row : Comments.row) :=
    exists rq, parent_request d row = Some rq
               /\ Requests.submitter_id rq = Some uid in
  (check_ok request_comments_policies INSERT uid d c = true
   <-> Comments.user_id c = Some uid
       /\ (owns c \/ holds_role uid "handler" d))
  /\ (~ owns c -> ~ holds_role uid "handler" d ->
      check_ok request_comments_policies INSERT uid d c = false)
  /\ (~ owns (Comments.overlay (Comments.defaults fresh_id now) p) ->
      ~ holds_role uid "handler" d ->
      request_comments_insert uid fresh_id now p d = Err rls_violation).
Proof.
  intros Hpk owns.
  assert (Hiff : forall row,
            check_ok request_comments_policies INSERT uid d row = true
            <-> Comments.user_id row = Some uid
                /\ (owns row \/ holds_role uid "handler" d)).
  { intros row. rewrite comment_insert_check, andb_true_iff, orb_true_iff.
    rewrite uuid_eq_some_l, (exists_own_parent_request_iff uid d row Hpk),
      exists_handler_role_iff.
    reflexivity. }
  assert (Hrej : forall row, ~ owns row -> ~ holds_role uid "handler" d ->
            check_ok request_comments_policies INSERT uid d row = false).
  { intros row Hno Hnh. apply not_true_iff_false. intros H.
    apply Hiff in H as [_ [H | H]]; contradiction. }
  split; [apply Hiff | split; [apply Hrej |]].
  intros Hno Hnh. unfold request_comments_insert.
  now rewrite (Hrej _ Hno Hnh).
Qed.

Lemma C6_comment_insert_policy_witness :
  check_ok request_comments_policies INSERT "dave" Sample.with_request
    (Sample.comment_on_req1 Sample.dave) = false
  /\ request_comments_insert "dave" "c-1" 40 (Sample.comment_body Sample.dave)
       Sample.with_request = Err rls_violation
  /\ check_ok request_comments_policies INSERT "alice" Sample.with_request
       (Sample.comment_on_req1 Sample.alice) = true.
Proof.
  assert (Hpk : requests_pkey Sample.with_request).
  { split; repeat constructor; simpl; intuition discriminate. }
  assert (Hdave : ~ holds_role "dave" "handler" Sample.with_request)
    by (apply exists_handler_role_false; reflexivity).
  pose proof (C6_comment_insert_policy "dave"
                Sample.with_request (Sample.comment_on_req1 Sample.dave) "c-1" 40
                (Sample.comment_body Sample.dave) Hpk) as (_ & Hrej & Hstmt).
  pose proof (C6_comment_insert_policy "alice"
                Sample.with_request (Sample.comment_on_req1 Sample.alice) "c-1" 40
                (Sample.comment_body Sample.alice) Hpk) as (Hiff & _).
  split; [| split].
  - apply Hrej; trivial.
    intros (rq & Hfind & Hsub). vm_compute in Hfind.
    injection Hfind as <-. discriminate Hsub.
  - apply Hstmt; trivial.
    intros (rq & Hfind & Hsub). vm_compute in Hfind.
    injection Hfind as <-. discriminate Hsub.
  - apply Hiff. split; [reflexivity |].
    left. exists Sample.req1. split; reflexivity.
Defined.

(* ================================================================== *)
(** * Properties of role resolution                                    *)
(* ================================================================== *)

Section RoleResolution.

Lemma select_roles_of_In (uid : uuid) (d : db) (r : UserRoles.row) :
  In r (user_roles d) -> UserRoles.user_id r = Some uid ->
  In r (filter (fun r => same_uuid (UserRoles.user_id r) (Some uid))
          (filter (using_ok user_roles_policies SELECT uid d) (user_roles d))).
Proof.
  intros Hin Hu. apply filter_In. split.
  - apply filter_In. split; trivial. now apply user_roles_select_own.
  - now apply uuid_eq_some.
Qed.

Lemma select_roles_of_nil (uid : uuid) (d : db) :
  Forall (fun r => UserRoles.user_id r <> Some uid) (user_roles d) ->
  select_roles_of uid uid d = [].
Proof.
  intros Hnone. unfold select_roles_of.
  destruct (filter _ (filter _ (user_roles d))) as [| r rows] eqn:Hrows;
    [reflexivity | exfalso].
  assert (Hin : In r (r :: rows)) by now left.
  rewrite <- Hrows in Hin.
  apply filter_In in Hin as [Hin _]. apply filter_In in Hin as [Hin Hsel].
  apply user_roles_select_own in Hsel.
  rewrite Forall_forall in Hnone. now apply (Hnone r).
Qed.

Lemma two_members {A : Type} (l : list A) (a b : A) :
  In a l -> In b l -> a <> b -> exists x y rest, l = x :: y :: rest.
Proof.
  destruct l as [| x [| y rest]]; simpl; intros Ha Hb Hne.
  - contradiction.
  - destruct Ha as [<- | []], Hb as [<- | []]. now elim Hne.
  - now exists x, y, rest.
Qed.

Lemma maybeSingle_many {A : Type} (l : list A) :
  (exists x y rest, l = x :: y :: rest) ->
  maybeSingle l = mkResponse None true.
Proof. intros (x & y & rest & ->). reflexivity. Qed.

End RoleResolution.

(** C9.  When [user_roles] has no row for the identity that signs in, the
    role the sign-in lookup stores is 'submitter' and [AppContent] shows the
    submitter view, not the handler view. *)
Theorem C9_no_role_row_routes_to_submitter
  (u : User) (d : db) (st : auth_state) :
  Forall (fun r => UserRoles.user_id r <> Some (u_id u)) (user_roles d) ->
  fetchUserRole (u_id u) d = "submitter"
  /\ userRole (onAuthStateChange (Some u) d st) = Some "submitter"
  /\ AppContent (onAuthStateChange (Some u) d st) = SubmitterView
  /\ AppContent (onAuthStateChange (Some u) d st) <> HandlerView.
Proof.
  intros Hnone.
  assert (Hrole : fetchUserRole (u_id u) d = "submitter")
    by (unfold fetchUserRole; now rewrite (select_roles_of_nil _ _ Hnone)).
  unfold onAuthStateChange, AppContent; simpl. rewrite Hrole; simpl.
  repeat split. discriminate.
Qed.

Lemma C9_no_role_row_routes_to_submitter_witness :
  fetchUserRole "carol" Sample.with_request = "submitter"
  /\ AppContent (onAuthStateChange (Some Sample.carol) Sample.with_request
                   initial_auth_state) = SubmitterView.
Proof.
  pose proof (C9_no_role_row_routes_to_submitter Sample.carol
                Sample.with_request initial_auth_state) as H.
  assert (Hnone : Forall (fun r => UserRoles.user_id r <> Some (u_id Sample.carol))
                    (user_roles Sample.with_request))
    by (repeat constructor; simpl; discriminate).
  destruct (H Hnone) as (Hrole & _ & Hview & _).
  split; assumption.
Defined.

(** C10.  A user who holds a 'submitter' row and a 'handler' row, which
    UNIQUE(user_id, role) allows, gets several rows from the sign-in lookup;
    [maybeSingle] answers with null data and an error, the default
    'submitter' is stored, and [AppContent] shows the submitter view, while
    the policies of [requests] treat the same user as a handler. *)
Theorem C10_two_role_rows_route_to_submitter
  (u : User) (d : db) (st : auth_state) :
  holds_role (u_id u) "submitter" d ->
  holds_role (u_id u) "handler" d ->
  maybeSingle (select_roles_of (u_id u) (u_id u) d) = mkResponse None true
  /\ fetchUserRole (u_id u) d = "submitter"
  /\ AppContent (onAuthStateChange (Some u) d st) = SubmitterView
  /\ exists_handler_role (u_id u) d = true.
Proof.
  intros (rs & Hins & Hus & Hrs) Hh.
  pose proof Hh as (rh & Hinh & Huh & Hrh).
  assert (Hmany : maybeSingle (select_roles_of (u_id u) (u_id u) d)
                  = mkResponse None true).
  { apply maybeSingle_many. unfold select_roles_of.
    destruct (@two_members _
                (filter (fun r => same_uuid (UserRoles.user_id r) (Some (u_id u)))
                   (filter (using_ok user_roles_policies SELECT (u_id u) d)
                      (user_roles d))) rs rh)
      as (x & y & rest & ->).
    - now apply select_roles_of_In.
    - now apply select_roles_of_In.
    - intros ->. rewrite Hrs in Hrh. discriminate.
    - now exists (UserRoles.role x), (UserRoles.role y), (map UserRoles.role rest). }
  assert (Hrole : fetchUserRole (u_id u) d = "submitter")
    by (unfold fetchUserRole; now rewrite Hmany).
  split; [assumption | split; [assumption | split]].
  - unfold onAuthStateChange, AppContent; simpl. now rewrite Hrole.
  - now apply exists_handler_role_iff.
Qed.

Lemma C10_two_role_rows_route_to_submitter_witness :
  let d := run "dave" [Sample.dave_adds_handler] Sample.signed_up in
  execute "dave" Sample.dave_adds_handler Sample.signed_up = Ok d
  /\ select_roles_of "dave" "dave" d = [Some "submitter"; Some "handler"]
  /\ maybeSingle (select_roles_of "dave" "dave" d) = mkResponse None true
  /\ fetchUserRole "dave" d = "submitter"
  /\ AppContent (onAuthStateChange (Some Sample.dave) d initial_auth_state)
     = SubmitterView
  /\ exists_handler_role "dave" d = true.
Proof.
  intros d.
  split; [reflexivity | split; [reflexivity |]].
  apply (C10_two_role_rows_route_to_submitter Sample.dave d initial_auth_state).
  - eexists. split; [right; right; left; reflexivity | split; reflexivity].
  - eexists. split; [right; right; right; left; reflexivity | split; reflexivity].
Defined.

(* ================================================================== *)
(** * Properties of request creation                                   *)
(* ================================================================== *)

Section Creation.

Lemma guard_ok (b : bool) (e : failure) : guard b e = Ok tt -> b = true.
Proof. destruct b; [reflexivity | discriminate]. Qed.

(** A successful insert appends the proposed row, defaults filled in,
    and changes nothing else. *)
Lemma requests_insert_inv (uid fresh_id : uuid) (now : timestamptz)
  (p : Requests.payload) (d d' : db) :
  requests_insert uid fresh_id now p d = Ok d' ->
  d' = with_requests
         (requests d ++ [Requests.overlay (Requests.defaults fresh_id now) p]) d
  /\ Requests.not_null (Requests.overlay (Requests.defaults fresh_id now) p)
     = true.
Proof.
  unfold requests_insert.
  destruct (check_ok _ _ _ _ _); simpl; [| discriminate].
  destruct (Requests.not_null _); simpl; [| discriminate].
  destruct (negb _); simpl; [| discriminate].
  destruct (references_user _ _); simpl; [| discriminate].
  intros H. injection H as <-. split; reflexivity.
Qed.

Lemma or_else_given (a b : string) : a <> "" -> JS.or_else a b = a.
Proof.
  intros Ha. unfold JS.or_else.
  destruct (String.eqb_spec a ""); [contradiction | reflexivity].
Qed.

Lemma or_else_empty (b : string) : JS.or_else "" b = b.
Proof. reflexivity. Qed.

Lemma id_unused (fresh_id : uuid) (rows : list Requests.row) :
  Forall (fun rq => Requests.id rq <> Some fresh_id) rows ->
  existsb (fun rq => same_uuid (Requests.id rq) (Some fresh_id)) rows = false.
Proof.
  intros Hfresh. apply not_true_iff_false. intros H.
  apply existsb_exists in H as (rq & Hin & Hid).
  apply uuid_eq_some in Hid. rewrite Forall_forall in Hfresh.
  now apply (Hfresh rq).
Qed.

Lemma known_user (u : uuid) (d : db) :
  In u (auth_users d) -> references_user d (Some u) = true.
Proof.
  intros Hin. simpl. apply existsb_exists. exists u. split; trivial.
  apply String.eqb_refl.
Qed.

(** The form's insert goes through for a known user with a display name
    and an unused id. *)
Lemma handleSubmit_succeeds (user : User) (fresh_id : uuid) (now : timestamptz)
  (title description manualCategory manualPriority : string) (d : db) :
  JS.or_else_opt (u_name user) (u_email user) <> None ->
  In (u_id user) (auth_users d) ->
  Forall (fun rq => Requests.id rq <> Some fresh_id) (requests d) ->
  exists d', handleSubmit user fresh_id now title description
               manualCategory manualPriority d = Ok d'.
Proof.
  intros Hname Huser Hfresh.
  unfold handleSubmit, requests_insert.
  assert (Hnn : Requests.not_null
                  (Requests.overlay (Requests.defaults fresh_id now)
                     (handleSubmit_body user title description
                        manualCategory manualPriority)) = true).
  { unfold Requests.not_null, handleSubmit_body; simpl.
    destruct (JS.or_else_opt (u_name user) (u_email user));
      [reflexivity | contradiction]. }
  rewrite requests_insert_check, Hnn. cbn [Requests.overlay Requests.defaults
    handleSubmit_body Requests.submitter_id Requests.p_submitter_id col_or
    Requests.id Requests.p_id].
  assert (Hself : is_true (uuid_eq (Some (u_id user)) (Some (u_id user))) = true)
    by now apply uuid_eq_some.
  rewrite Hself, (id_unused fresh_id (requests d) Hfresh),
    (known_user (u_id user) d Huser).
  simpl. eexists. reflexivity.
Qed.

End Creation.

(** C4.  When the form's insert is accepted, the stored request carries the
    caller's non-empty category override as its category and the non-empty
    priority override as its priority, whatever the title and description
    are; an override left empty is filled with the classifier's value.  The
    insert is accepted for every known user with a display name and an
    unused id. *)
Theorem C4_manual_override_wins
  (user : User) (fresh_id : uuid) (now : timestamptz)
  (title description manualCategory manualPriority : string) (d : db) :
  (JS.or_else_opt (u_name user) (u_email user) <> None ->
   In (u_id user) (auth_users d) ->
   Forall (fun rq => Requests.id rq <> Some fresh_id) (requests d) ->
   exists d', handleSubmit user fresh_id now title description
                manualCategory manualPriority d = Ok d')
  /\ (forall d',
        handleSubmit user fresh_id now title description
          manualCategory manualPriority d = Ok d' ->
        exists stored,
          requests d' = (requests d ++ [stored])%list
          /\ Requests.id stored = Some fresh_id
          /\ Requests.title stored = Some title
          /\ Requests.description stored = Some description
          /\ (manualCategory <> "" ->
              Requests.category stored = Some manualCategory)
          /\ (manualPriority <> "" ->
              Requests.priority stored = Some manualPriority)
          /\ (manualCategory = "" ->
              Requests.category stored
              = Some (a_category (analyzeRequest title description)))
          /\ (manualPriority = "" ->
              Requests.priority stored
              = Some (a_priority (analyzeRequest title description)))).
Proof.
  split; [apply handleSubmit_succeeds |].
  intros d' H. apply requests_insert_inv in H as [-> _].
  eexists. split; [reflexivity |].
  cbn [Requests.overlay Requests.defaults handleSubmit_body col_or
       Requests.id Requests.title Requests.description Requests.category
       Requests.priority Requests.p_id Requests.p_title Requests.p_description
       Requests.p_category Requests.p_priority].
  repeat split.
  - intros Hc. now rewrite or_else_given.
  - intros Hp. now rewrite or_else_given.
  - now intros ->.
  - now intros ->.
Qed.

Lemma C4_manual_override_wins_witness :
  exists d' stored,
    handleSubmit Sample.alice "req-2" 25 "Laptop is down" "It will not boot"
      "Equipment and Furniture" "Low" Sample.with_request = Ok d'
    /\ requests d' = (requests Sample.with_request ++ [stored])%list
    /\ Requests.category stored = Some "Equipment and Furniture"
    /\ Requests.priority stored = Some "Low"
    /\ a_category (analyzeRequest "Laptop is down" "It will not boot")
       = "IT and Technical Support"
    /\ a_priority (analyzeRequest "Laptop is down" "It will not boot")
       = "Critical".
Proof.
  pose proof (C4_manual_override_wins Sample.alice "req-2" 25
                "Laptop is down" "It will not boot"
                "Equipment and Furniture" "Low" Sample.with_request)
    as [Hrun Hstored].
  destruct Hrun as [d' Hd'].
  - discriminate.
  - simpl. tauto.
  - repeat constructor. discriminate.
  - destruct (Hstored d' Hd') as (stored & Hrows & _ & _ & _ & Hc & Hp & _).
    exists d', stored.
    repeat split; trivial.
    + apply Hc. discriminate.
    + apply Hp. discriminate.
Defined.

(** C5, the claim on a concrete creation: with the title "My computer is
    slow" and the category override 'Safety and Fire Protection' the stored
    category is the override, yet the stored unit is 'IT Division', the
    entry of the classifier's category, not 'Safety Division'. *)
Lemma C5_unit_ignores_category_override :
  map (fun r => (Requests.category r, Requests.assigned_unit r))
      (requests
         (commit Sample.signed_up
            (handleSubmit Sample.alice "req-1" 20 "My computer is slow" ""
               "Safety and Fire Protection" "" Sample.signed_up)))
  = [(Some "Safety and Fire Protection", Some "IT Division")]
  /\ getAssignedUnit "Safety and Fire Protection" = "Safety Division"
  /\ Some "IT Division" <> Some (getAssignedUnit "Safety and Fire Protection").
Proof.
  split; [vm_compute; reflexivity | split; [reflexivity |]].
  vm_compute. discriminate.
Qed.

(** C5, amended.  The table maps each of the six categories to its unit.
    When the form's insert is accepted, the stored [assigned_unit] is the
    table entry of the category the classifier computed from the title and
    the description; it is the entry of the stored category when no
    category override is supplied, or when the override names the
    classifier's own category. *)
Theorem C5_assigned_unit_follows_classifier
  (user : User) (fresh_id : uuid) (now : timestamptz)
  (title description manualCategory manualPriority : string) (d d' : db) :
  handleSubmit user fresh_id now title description
    manualCategory manualPriority d = Ok d' ->
  (getAssignedUnit "IT and Technical Support" = "IT Division"
   /\ getAssignedUnit "Facilities and Maintenance" = "Technical Division"
   /\ getAssignedUnit "Equipment and Furniture" = "Procurement Division"
   /\ getAssignedUnit "Safety and Fire Protection" = "Safety Division"
   /\ getAssignedUnit "HR and Staff Matters" = "HR Division"
   /\ getAssignedUnit "Other" = "General Support")
  /\ exists stored,
       requests d' = (requests d ++ [stored])%list
       /\ Requests.assigned_unit stored
          = Some (getAssignedUnit
                    (a_category (analyzeRequest title description)))
       /\ (manualCategory = ""
           \/ manualCategory = a_category (analyzeRequest title description) ->
           exists category,
             Requests.category stored = Some category
             /\ Requests.assigned_unit stored
                = Some (getAssignedUnit category)).
Proof.
  intros H. split; [repeat split |].
  apply requests_insert_inv in H as [-> _].
  eexists. split; [reflexivity |].
  cbn [Requests.overlay Requests.defaults handleSubmit_body col_or
       Requests.category Requests.assigned_unit
       Requests.p_category Requests.p_assigned_unit].
  split; [reflexivity |].
  intros Hc. eexists. split; [reflexivity |].
  rewrite analyzeRequest_assignedUnit.
  destruct Hc as [-> | ->]; [reflexivity |].
  unfold JS.or_else. now destruct (String.eqb _ "").
Qed.

Lemma C5_assigned_unit_follows_classifier_witness :
  exists stored,
    requests Sample.with_request = [stored]
    /\ Requests.category stored = Some "Other"
    /\ Requests.assigned_unit stored = Some "General Support".
Proof.
  assert (Hrun : handleSubmit Sample.alice "req-1" 20 "Projector"
                   "The lamp flickers" "" "" Sample.signed_up
                 = Ok Sample.with_request) by reflexivity.
  destruct (C5_assigned_unit_follows_classifier Sample.alice "req-1" 20
              "Projector" "The lamp flickers" "" "" Sample.signed_up
              Sample.with_request Hrun)
    as (_ & stored & Hrows & Hunit & _).
  exists stored. split; [exact Hrows |].
  assert (Hstored : stored = Sample.req1).
  { change (requests Sample.with_request) with [Sample.req1] in Hrows.
    simpl in Hrows. now injection Hrows as <-. }
  split; [now rewrite Hstored | exact Hunit].
Defined.

(* ================================================================== *)
(** * Properties of the triggers                                       *)
(* ================================================================== *)

Section ResolvedAt.

(** What the two BEFORE UPDATE triggers leave in [status] and
    [resolved_at] of the proposed row. *)
Lemma before_update_spec (now : timestamptz) (OLD NEW : Requests.row) :
  Requests.status (before_update now OLD NEW) = Requests.status NEW
  /\ Requests.resolved_at (before_update now OLD NEW)
     = match Requests.status NEW with
       | Some s =>
           if String.eqb s "Resolved"
           then match Requests.status OLD with
                | Some s0 => if String.eqb s0 "Resolved"
                             then Requests.resolved_at NEW
                             else Some now
                | None => Requests.resolved_at NEW
                end
           else None
       | None => Requests.resolved_at NEW
       end.
Proof.
  unfold before_update, set_resolved_at, update_updated_at_column,
    text_ne, text_eq, eq3, not3.
  destruct NEW as [? ? ? ? ? [s |] ? ? ? ? ? ? ? ? ?],
    OLD as [? ? ? ? ? [s0 |] ? ? ? ? ? ? ? ? ?]; simpl;
    try destruct (String.eqb s "Resolved");
    try destruct (String.eqb s0 "Resolved"); simpl; split; reflexivity.
Qed.

Lemma requests_update_row_inv (uid : uuid) (now : timestamptz)
  (p : Requests.payload) (d : db) (OLD NEW : Requests.row) :
  requests_update_row uid now p d OLD = Ok NEW ->
  NEW = before_update now OLD (Requests.overlay OLD p)
  /\ Requests.status NEW <> None.
Proof.
  unfold requests_update_row.
  destruct (check_ok _ _ _ _ _ && _); simpl; [| discriminate].
  destruct (Requests.not_null _) eqn:Hnn; simpl; [| discriminate].
  destruct (references_user _ _); simpl; [| discriminate].
  intros H. injection H as <-. split; [reflexivity |].
  unfold Requests.not_null in Hnn.
  destruct (Requests.status _); [discriminate |].
  simpl in Hnn. rewrite !andb_false_r in Hnn. discriminate.
Qed.

(** An update that moves the status across the 'Resolved' boundary, or
    leaves it outside, restores the agreement whatever the statement
    assigned. *)
Lemma update_row_restores (uid : uuid) (now : timestamptz)
  (p : Requests.payload) (d : db) (OLD NEW : Requests.row) :
  requests_update_row uid now p d OLD = Ok NEW ->
  Requests.status NEW <> Some "Resolved"
  \/ (exists s, Requests.status OLD = Some s /\ s <> "Resolved") ->
  resolved_consistent NEW.
Proof.
  intros H Hcase. apply requests_update_row_inv in H as [-> Hst].
  destruct (before_update_spec now OLD (Requests.overlay OLD p)) as [Hs Hr].
  unfold resolved_consistent. rewrite Hs in *. rewrite Hr.
  destruct (Requests.status (Requests.overlay OLD p)) as [s |];
    [| contradiction].
  destruct (String.eqb_spec s "Resolved") as [-> | Hne].
  - destruct Hcase as [Hc | (s0 & Hold & Hs0)]; [contradiction |].
    rewrite Hold. destruct (String.eqb_spec s0 "Resolved"); [contradiction |].
    split; [reflexivity | discriminate].
  - split; [intros Hn; now elim Hn | intros Heq; congruence].
Qed.

(** An update that does not assign [resolved_at] keeps the agreement. *)
Lemma update_row_preserves (uid : uuid) (now : timestamptz)
  (p : Requests.payload) (d : db) (OLD NEW : Requests.row) :
  requests_update_row uid now p d OLD = Ok NEW ->
  Requests.p_resolved_at p = Omitted ->
  Requests.status OLD <> None /\ resolved_consistent OLD ->
  Requests.status NEW <> None /\ resolved_consistent NEW.
Proof.
  intros H Hom [Hold Hc].
  pose proof H as Hinv. apply requests_update_row_inv in Hinv as [HNEW Hst].
  split; [assumption |].
  destruct (Requests.status OLD) as [s0 |] eqn:Hs0; [| contradiction].
  destruct (String.eqb_spec s0 "Resolved") as [-> | Hne].
  - subst NEW.
    destruct (before_update_spec now OLD (Requests.overlay OLD p)) as [Hs Hr].
    unfold resolved_consistent in *. rewrite Hs in *. rewrite Hr, Hs0.
    destruct (Requests.status (Requests.overlay OLD p)) as [s |];
      [| contradiction].
    destruct (String.eqb_spec s "Resolved") as [-> | Hne].
    + simpl. unfold Requests.overlay; simpl. rewrite Hom; simpl.
      split; [reflexivity | intros _; now apply Hc].
    + split; [intros Hn; now elim Hn | intros Heq; congruence].
  - apply (update_row_restores uid now p d OLD NEW H).
    right. now exists s0.
Qed.

Lemma mapM_Forall2 {A B : Type} (f : A -> result B) (l : list A) (l' : list B) :
  mapM f l = Ok l' -> Forall2 (fun a b => f a = Ok b) l l'.
Proof.
  revert l'. induction l as [| a l IH]; simpl; intros l' H.
  - injection H as <-. constructor.
  - destruct (f a) as [b |] eqn:Hfa; simpl in H; [| discriminate].
    destruct (mapM f l) as [bs |]; simpl in H; [| discriminate].
    injection H as <-. constructor; auto.
Qed.

Lemma Forall2_preserves {A : Type} (P : A -> Prop) (R : A -> A -> Prop)
  (l l' : list A) :
  Forall2 R l l' -> (forall a b, R a b -> P a -> P b) ->
  Forall P l -> Forall P l'.
Proof.
  intros H2 Hstep. induction H2 as [| a b l l' Hab _ IH]; intros Hall.
  - constructor.
  - inversion Hall; subst. constructor; eauto.
Qed.

Lemma requests_update_preserves (uid : uuid) (now : timestamptz)
  (p : Requests.payload) (where_ : Requests.row -> bool) (d d' : db) :
  requests_update uid now p where_ d = Ok d' ->
  Requests.p_resolved_at p = Omitted ->
  stored_consistent d -> stored_consistent d'.
Proof.
  unfold requests_update, stored_consistent. intros H Hom Hd.
  destruct (mapM _ (requests d)) as [rows |] eqn:Hrows; simpl in H;
    [| discriminate].
  destruct (distinct _ _); simpl in H; [| discriminate].
  destruct (forallb _ _); simpl in H; [| discriminate].
  injection H as <-. simpl.
  apply mapM_Forall2 in Hrows.
  refine (Forall2_preserves _ _ _ _ Hrows _ Hd).
  intros OLD NEW Hrow Hold.
  destruct (requests_target UPDATE uid d where_ OLD).
  - now apply (update_row_preserves uid now p d OLD NEW).
  - now injection Hrow as <-.
Qed.

Lemma requests_insert_preserves (uid fresh_id : uuid) (now : timestamptz)
  (p : Requests.payload) (d d' : db) :
  requests_insert uid fresh_id now p d = Ok d' ->
  Requests.p_resolved_at p = Omitted \/ Requests.p_resolved_at p = Given None ->
  Requests.p_status p <> Given (Some "Resolved") ->
  stored_consistent d -> stored_consistent d'.
Proof.
  intros H Hres Hst Hd. apply requests_insert_inv in H as [-> Hnn].
  unfold stored_consistent in *. simpl. apply Forall_app. split; trivial.
  constructor; [| constructor].
  unfold Requests.not_null in Hnn. unfold resolved_consistent.
  unfold Requests.overlay in *; simpl in *.
  assert (Hnull : col_or None (Requests.p_resolved_at p) = None)
    by (destruct Hres as [-> | ->]; reflexivity).
  rewrite Hnull.
  destruct (Requests.p_status p) as [| [s |]]; simpl in *.
  - split; [discriminate |]. split; [intros Hn; now elim Hn | discriminate].
  - split; [discriminate |].
    split; [intros Hn; now elim Hn |].
    intros Heq. injection Heq as ->. now elim Hst.
  - rewrite !andb_false_r in Hnn. discriminate.
Qed.

End ResolvedAt.

(** C3, the claim on two concrete statements.  Alice inserts a request
    whose body sets status 'Resolved': the insert is accepted, no trigger
    runs, and the stored row is resolved without a [resolved_at].  Bob, a
    handler, resolves a request and then sends an update that sets
    [resolved_at] to null: the status stays 'Resolved', the trigger leaves
    the column as assigned, and the row is resolved without a
    [resolved_at]. *)
Lemma C3_resolved_without_resolved_at :
  (exists d' stored,
      execute "alice" (InsertRequest "req-2" 50 Sample.resolved_on_arrival)
        Sample.with_request = Ok d'
      /\ requests d' = [Sample.req1; stored]
      /\ Requests.status stored = Some "Resolved"
      /\ Requests.resolved_at stored = None
      /\ ~ resolved_consistent stored)
  /\ (exists d1 d2 stored,
         execute "bob" (UpdateRequests 60 (Sample.set_status "Resolved")
                          Sample.any_request) Sample.with_request = Ok d1
         /\ stored_consistent d1
         /\ execute "bob" (UpdateRequests 70 Sample.clear_resolved_at
                             Sample.any_request) d1 = Ok d2
         /\ requests d2 = [stored]
         /\ Requests.status stored = Some "Resolved"
         /\ Requests.resolved_at stored = None
         /\ ~ resolved_consistent stored).
Proof.
  split.
  - eexists. eexists. split; [vm_compute; reflexivity |].
    split; [reflexivity |]. split; [reflexivity |]. split; [reflexivity |].
    unfold resolved_consistent; simpl. intros [_ H].
    now apply H.
  - eexists. eexists. eexists. split; [vm_compute; reflexivity |].
    split.
    { repeat constructor; simpl; try discriminate. }
    split; [vm_compute; reflexivity |].
    split; [reflexivity |]. split; [reflexivity |]. split; [reflexivity |].
    unfold resolved_consistent; simpl. intros [_ H].
    now apply H.
Qed.

(** C3, amended.  Stored rows have a status, and [resolved_at] is non-null
    exactly when the status is 'Resolved',
    - after an accepted insert whose body leaves [resolved_at] out (or null)
      and does not set status 'Resolved', in particular after every
      accepted creation by the form, which stores status 'Received';
    - after an accepted update whose body does not assign [resolved_at],
      in particular after every accepted update by the details panel,
      provided it held before;
    - on every updated row whose new status is not 'Resolved' or whose old
      status was not 'Resolved', whatever the body assigned and whatever
      held before. *)
Theorem C3_resolved_at_follows_status :
  (forall uid fresh_id now p d d',
      requests_insert uid fresh_id now p d = Ok d' ->
      Requests.p_resolved_at p = Omitted \/ Requests.p_resolved_at p = Given None ->
      Requests.p_status p <> Given (Some "Resolved") ->
      stored_consistent d -> stored_consistent d')
  /\ (forall user fresh_id now title description manualCategory manualPriority d d',
         handleSubmit user fresh_id now title description
           manualCategory manualPriority d = Ok d' ->
         stored_consistent d -> stored_consistent d')
  /\ (forall uid now p where_ d d',
         requests_update uid now p where_ d = Ok d' ->
         Requests.p_resolved_at p = Omitted ->
         stored_consistent d -> stored_consistent d')
  /\ (forall user now request editedRequest d d',
         handleUpdateRequest user now request editedRequest d = Ok d' ->
         stored_consistent d -> stored_consistent d')
  /\ (forall uid now p d OLD NEW,
         requests_update_row uid now p d OLD = Ok NEW ->
         Requests.status NEW <> Some "Resolved"
         \/ (exists s, Requests.status OLD = Some s /\ s <> "Resolved") ->
         resolved_consistent NEW).
Proof.
  split; [exact requests_insert_preserves |].
  split.
  { intros user fresh_id now title description mc mp d d' H.
    apply (requests_insert_preserves _ _ _ _ _ _ H);
      [now left | discriminate]. }
  split; [exact requests_update_preserves |].
  split; [| exact update_row_restores].
  intros user now request editedRequest d d' H.
  now apply (requests_update_preserves _ _ _ _ _ _ H).
Qed.

Lemma C3_resolved_at_follows_status_witness :
  stored_consistent Sample.with_request
  /\ handleUpdateRequest Sample.bob 60 Sample.req1
       (Requests.overlay Sample.req1 (Sample.set_status "Resolved"))
       Sample.with_request = Ok Sample.resolved
  /\ map (fun r => (Requests.status r, Requests.resolved_at r))
         (requests Sample.resolved) = [(Some "Resolved", Some 60%Z)]
  /\ stored_consistent Sample.resolved
  /\ handleUpdateRequest Sample.bob 70 Sample.req1 Sample.req1 Sample.resolved
     = Ok Sample.reopened
  /\ map (fun r => (Requests.status r, Requests.resolved_at r))
         (requests Sample.reopened) = [(Some "Received", None)]
  /\ stored_consistent Sample.reopened.
Proof.
  destruct C3_resolved_at_follows_status as (_ & Hcreate & _ & Hupdate & _).
  assert (H0 : stored_consistent Sample.with_request).
  { apply (Hcreate Sample.alice "req-1" 20%Z "Projector" "The lamp flickers"
             "" "" Sample.signed_up Sample.with_request);
      [reflexivity | constructor]. }
  assert (R1 : handleUpdateRequest Sample.bob 60 Sample.req1
                 (Requests.overlay Sample.req1 (Sample.set_status "Resolved"))
                 Sample.with_request = Ok Sample.resolved)
    by (vm_compute; reflexivity).
  assert (R2 : handleUpdateRequest Sample.bob 70 Sample.req1 Sample.req1
                 Sample.resolved = Ok Sample.reopened)
    by (vm_compute; reflexivity).
  assert (H1 : stored_consistent Sample.resolved)
    by (apply (Hupdate _ _ _ _ _ _ R1 H0)).
  assert (H2 : stored_consistent Sample.reopened)
    by (apply (Hupdate _ _ _ _ _ _ R2 H1)).
  repeat split; trivial.
Defined.

(* ================================================================== *)
(** * Properties of the roles table                                    *)
(* ================================================================== *)

Section Roles.

Lemma user_roles_no_update_policy (uid : uuid) (d : db)
  (where_ : UserRoles.row -> bool) (r : UserRoles.row) :
  user_roles_target UPDATE uid d where_ r = false.
Proof.
  unfold user_roles_target, using_ok, user_roles_policies; simpl.
  now rewrite !andb_false_r.
Qed.

Lemma user_roles_no_delete_policy (uid : uuid) (d : db)
  (where_ : UserRoles.row -> bool) (r : UserRoles.row) :
  user_roles_target DELETE uid d where_ r = false.
Proof.
  unfold user_roles_target, using_ok, user_roles_policies; simpl.
  now rewrite !andb_false_r.
Qed.

Lemma mapM_untouched {A : Type} (target : A -> bool) (f : A -> result A)
  (l : list A) :
  (forall a, target a = false) ->
  mapM (fun a => if target a then f a else Ok a) l = Ok l.
Proof.
  intros Hnone. induction l as [| a l IH]; simpl; [reflexivity |].
  now rewrite Hnone, IH.
Qed.

Lemma filter_untouched {A : Type} (target : A -> bool) (l : list A) :
  (forall a, target a = false) ->
  filter (fun a => negb (target a)) l = l.
Proof.
  intros Hnone. induction l as [| a l IH]; simpl; [reflexivity |].
  now rewrite Hnone, IH.
Qed.

Lemma with_user_roles_same (d : db) : with_user_roles (user_roles d) d = d.
Proof. now destruct d. Qed.

(** UPDATE and DELETE on [user_roles] reach no row. *)
Lemma user_roles_update_noop (uid : uuid) (p : UserRoles.payload)
  (where_ : UserRoles.row -> bool) (d : db) :
  commit d (user_roles_update uid p where_ d) = d.
Proof.
  unfold user_roles_update.
  rewrite (mapM_untouched (user_roles_target UPDATE uid d where_));
    [| apply user_roles_no_update_policy].
  simpl. destruct (user_roles_constraints d (user_roles d)); simpl;
    [apply with_user_roles_same | reflexivity].
Qed.

Lemma user_roles_delete_noop (uid : uuid) (where_ : UserRoles.row -> bool)
  (d : db) :
  user_roles_delete uid where_ d = Ok d.
Proof.
  unfold user_roles_delete.
  rewrite (filter_untouched (user_roles_target DELETE uid d where_));
    [| apply user_roles_no_delete_policy].
  now rewrite with_user_roles_same.
Qed.

(** An accepted insert appends one row; it carries the caller's uid and a
    role of the CHECK list that the caller did not hold. *)
Lemma user_roles_insert_inv (uid fresh_id : uuid) (now : timestamptz)
  (p : UserRoles.payload) (d d' : db) :
  user_roles_insert uid fresh_id now p d = Ok d' ->
  exists r role,
    d' = with_user_roles (user_roles d ++ [r]) d
    /\ UserRoles.user_id r = Some uid
    /\ UserRoles.role r = Some role
    /\ (role = "submitter" \/ role = "handler")
    /\ ~ holds_role uid role d.
Proof.
  unfold user_roles_insert.
  set (NEW := UserRoles.overlay (UserRoles.defaults fresh_id now) p).
  destruct (check_ok _ _ _ _ _) eqn:Hrls; simpl; [| discriminate].
  destruct (UserRoles.not_null NEW) eqn:Hnn; simpl; [| discriminate].
  destruct (UserRoles.role_check NEW) eqn:Hck; simpl; [| discriminate].
  destruct (negb _ && negb _) eqn:Huq; simpl; [| discriminate].
  destruct (references_user _ _); simpl; [| discriminate].
  intros H. injection H as <-.
  assert (Hu : UserRoles.user_id NEW = Some uid).
  { unfold check_ok, user_roles_policies in Hrls; simpl in Hrls.
    rewrite orb_false_r in Hrls. now apply uuid_eq_some_l in Hrls. }
  unfold UserRoles.not_null in Hnn.
  destruct (UserRoles.role NEW) as [role |] eqn:Hrole;
    [| simpl in Hnn; rewrite andb_false_r in Hnn; discriminate].
  exists NEW, role. repeat split; trivial.
  - unfold UserRoles.role_check in Hck. rewrite Hrole in Hck. simpl in Hck.
    destruct (String.eqb_spec role "submitter"); [now left |].
    destruct (String.eqb_spec role "handler"); [now right | discriminate].
  - intros (r & Hin & Hru & Hrr).
    apply andb_true_iff in Huq as [_ Huq].
    apply negb_true_iff in Huq.
    apply not_true_iff_false in Huq. apply Huq.
    apply existsb_exists. exists r. split; trivial.
    unfold UserRoles.unique_key. rewrite Hru, Hrr, Hu, Hrole. simpl.
    now rewrite !String.eqb_refl.
Qed.

(** Whatever a user sends, [user_roles] only grows, and only by rows of
    that user. *)
Lemma execute_roles (uid : uuid) (s : statement) (d : db) :
  exists added,
    user_roles (commit d (execute uid s d)) = (user_roles d ++ added)%list
    /\ Forall (fun r => UserRoles.user_id r = Some uid) added.
Proof.
  destruct s as [f n p | n p w | w | f n p | f n p | p w | w]; cbn [execute].
  - destruct (requests_insert uid f n p d) as [d' |] eqn:H; simpl;
      [| exists []; now rewrite app_nil_r].
    apply requests_insert_inv in H as [-> _].
    exists []. now rewrite app_nil_r.
  - unfold requests_update.
    destruct (mapM _ (requests d)); simpl; [| exists []; now rewrite app_nil_r].
    destruct (distinct _ _); simpl; [| exists []; now rewrite app_nil_r].
    destruct (forallb _ _); simpl; exists []; now rewrite app_nil_r.
  - exists []. now rewrite app_nil_r.
  - unfold request_comments_insert.
    destruct (check_ok _ _ _ _ _); simpl; [| exists []; now rewrite app_nil_r].
    destruct (Comments.not_null _); simpl; [| exists []; now rewrite app_nil_r].
    destruct (negb _); simpl; [| exists []; now rewrite app_nil_r].
    destruct (_ && _); simpl; exists []; now rewrite app_nil_r.
  - destruct (user_roles_insert uid f n p d) as [d' |] eqn:H; simpl;
      [| exists []; now rewrite app_nil_r].
    apply user_roles_insert_inv in H as (r & role & -> & Hu & _).
    exists [r]. split; [reflexivity | now constructor].
  - rewrite user_roles_update_noop. exists []. now rewrite app_nil_r.
  - rewrite user_roles_delete_noop. exists []. now rewrite app_nil_r.
Qed.

Lemma run_roles (uid : uuid) (script : list statement) (d : db) :
  exists added,
    user_roles (run uid script d) = (user_roles d ++ added)%list
    /\ Forall (fun r => UserRoles.user_id r = Some uid) added.
Proof.
  revert d. induction script as [| s script IH]; intros d; simpl.
  - exists []. now rewrite app_nil_r.
  - destruct (execute_roles uid s d) as (a1 & H1 & F1).
    destruct (IH (commit d (execute uid s d))) as (a2 & H2 & F2).
    exists (a1 ++ a2)%list. unfold run in *. rewrite H2, H1, app_assoc.
    split; [reflexivity | now apply Forall_app].
Qed.

End Roles.

(** C2, the claim on a concrete user.  Dave signed up as submitter.  He
    then inserts a 'handler' row for himself: the insert policy asks only
    for his own uid, the CHECK list contains 'handler', and
    UNIQUE(user_id, role) holds since his other row has another role.  The
    roles the storage layer returns for him change from submitter to
    submitter and handler, and the handler policies of [requests], which
    rejected him before, accept him. *)
Lemma C2_self_insert_escalates :
  let d0 := Sample.with_request in
  let d1 := run "dave" [Sample.dave_adds_handler] d0 in
  execute "dave" Sample.dave_adds_handler d0 = Ok d1
  /\ select_roles_of "dave" "dave" d0 = [Some "submitter"]
  /\ select_roles_of "dave" "dave" d1 = [Some "submitter"; Some "handler"]
  /\ exists_handler_role "dave" d0 = false
  /\ exists_handler_role "dave" d1 = true
  /\ using_ok requests_policies DELETE "dave" d0 Sample.req1 = false
  /\ using_ok requests_policies DELETE "dave" d1 Sample.req1 = true.
Proof.
  repeat split; vm_compute; reflexivity.
Qed.

(** C2, amended.  Through the roles table a user can insert rows only
    under the own identity, and only with a role of the CHECK list not
    held yet; UPDATE and DELETE on [user_roles] reach no row.  Hence, for
    every sequence of statements a user sends, every role anybody held
    before is still held afterwards (no revocation), and the roles of every
    other user, and what the handler policies decide for them, are
    unchanged. *)
Theorem C2_roles_grow_only_by_own_rows
  (uid : uuid) (script : list statement) (d : db) :
  (forall r, check_ok user_roles_policies INSERT uid d r = true
             <-> UserRoles.user_id r = Some uid)
  /\ (forall fresh_id now p d',
         execute uid (InsertRole fresh_id now p) d = Ok d' ->
         exists r role,
           d' = with_user_roles (user_roles d ++ [r]) d
           /\ UserRoles.user_id r = Some uid
           /\ UserRoles.role r = Some role
           /\ (role = "submitter" \/ role = "handler")
           /\ ~ holds_role uid role d)
  /\ (forall p where_, commit d (execute uid (UpdateRoles p where_) d) = d)
  /\ (forall where_, execute uid (DeleteRoles where_) d = Ok d)
  /\ (forall v role,
         holds_role v role d -> holds_role v role (run uid script d))
  /\ (forall v role,
         v <> uid ->
         holds_role v role (run uid script d) -> holds_role v role d)
  /\ (forall v,
         v <> uid ->
         exists_handler_role v (run uid script d) = exists_handler_role v d).
Proof.
  destruct (run_roles uid script d) as (added & Hrun & Hown).
  assert (Hkeep : forall v role,
             holds_role v role d -> holds_role v role (run uid script d)).
  { intros v role (r & Hin & Hr). exists r. split; trivial.
    rewrite Hrun. apply in_or_app. now left. }
  assert (Hother : forall v role, v <> uid ->
             holds_role v role (run uid script d) -> holds_role v role d).
  { intros v role Hne (r & Hin & Hu & Hr). exists r. split; [| now split].
    rewrite Hrun in Hin. apply in_app_or in Hin as [Hin | Hin]; trivial.
    rewrite Forall_forall in Hown. apply Hown in Hin.
    rewrite Hin in Hu. injection Hu as ->. now elim Hne. }
  split.
  { intros r. unfold check_ok, user_roles_policies; simpl.
    rewrite orb_false_r. apply uuid_eq_some_l. }
  split; [intros f n p d'; apply user_roles_insert_inv |].
  split; [intros p w; apply user_roles_update_noop |].
  split; [intros w; apply user_roles_delete_noop |].
  split; [exact Hkeep |]. split; [exact Hother |].
  intros v Hne.
  destruct (exists_handler_role v d) eqn:Hd.
  - apply exists_handler_role_iff. apply Hkeep.
    now apply exists_handler_role_iff.
  - apply exists_handler_role_false. intros H.
    apply (Hother v "handler" Hne) in H.
    apply exists_handler_role_false in Hd. contradiction.
Qed.

Lemma C2_roles_grow_only_by_own_rows_witness :
  let script :=
    [ Sample.dave_adds_handler;
      DeleteRoles (fun _ => true);
      UpdateRoles (Sample.role_body Sample.dave "handler") (fun _ => true) ] in
  holds_role "dave" "submitter" (run "dave" script Sample.with_request)
  /\ holds_role "bob" "handler" (run "dave" script Sample.with_request)
  /\ ~ holds_role "alice" "handler" (run "dave" script Sample.with_request)
  /\ exists_handler_role "alice" (run "dave" script Sample.with_request) = false.
Proof.
  intros script.
  destruct (C2_roles_grow_only_by_own_rows "dave" script Sample.with_request)
    as (_ & _ & _ & _ & Hkeep & Hother & Hpolicy).
  split; [| split; [| split]].
  - apply Hkeep.
    exists (UserRoles.mk (Some "role-3") (Some "dave") (Some "submitter")
              (Some 12%Z)).
    simpl. tauto.
  - apply Hkeep. apply exists_handler_role_iff. reflexivity.
  - intros H. apply Hother in H; [| discriminate].
    revert H. apply exists_handler_role_false. reflexivity.
  - rewrite Hpolicy; [reflexivity | discriminate].
Defined.
(* ================================================================== *)
(** * Further properties of the classifier                             *)
(* ================================================================== *)

Section KeywordFacts.

Lemma unit_match_trans (a b c : ascii) :
  JS.unit_match a b = true -> JS.unit_match b c = true ->
  JS.unit_match a c = true.
Proof.
  unfold JS.unit_match. rewrite !N.eqb_eq. congruence.
Qed.

Lemma match_here_trans (literal keyword text : string) :
  JS.match_here literal keyword = true ->
  JS.match_here keyword text = true ->
  JS.match_here literal text = true.
Proof.
  revert keyword text.
  induction literal as [| l literal IH]; intros keyword text Hlk Hkt;
    [reflexivity |].
  destruct keyword as [| k keyword]; simpl in Hlk; [discriminate |].
  destruct text as [| t text]; simpl in Hkt; [discriminate |].
  apply andb_true_iff in Hlk as [Hl Hlk].
  apply andb_true_iff in Hkt as [Hk Hkt].
  simpl. rewrite (unit_match_trans l k t Hl Hk). simpl.
  now apply (IH keyword text).
Qed.

Lemma regex_match_inside (alternatives : list string) (keyword text : string) :
  JS.regex_match alternatives keyword = true ->
  JS.match_here keyword text = true ->
  JS.regex_match alternatives text = true.
Proof.
  revert text.
  induction keyword as [| k keyword IH]; intros text Hk Ht.
  - simpl in Hk. rewrite orb_false_r in Hk.
    apply existsb_exists in Hk as (l & Hin & Hl).
    destruct l; [| discriminate].
    destruct text; simpl; apply orb_true_iff; left;
      apply existsb_exists; now exists "".
  - destruct text as [| t text]; simpl in Ht; [discriminate |].
    apply andb_true_iff in Ht as [Hu Ht].
    simpl in Hk. apply orb_true_iff in Hk as [Hk | Hk].
    + simpl. apply orb_true_iff. left.
      apply existsb_exists in Hk as (l & Hin & Hl).
      apply existsb_exists. exists l. split; trivial.
      apply (match_here_trans l (String k keyword) (String t text)); trivial.
      simpl. now rewrite Hu, Ht.
    + simpl. apply orb_true_iff. right. now apply IH.
Qed.

(** A text that contains a keyword contains whatever the keyword
    contains. *)
Lemma regex_match_substring (alternatives : list string) (keyword text : string) :
  JS.regex_match alternatives keyword = true ->
  JS.regex_match [keyword] text = true ->
  JS.regex_match alternatives text = true.
Proof.
  intros Hk. induction text as [| t text IH]; intros Ht.
  - simpl in Ht. rewrite !orb_false_r in Ht.
    now apply (regex_match_inside alternatives keyword "").
  - simpl in Ht. rewrite orb_false_r in Ht.
    apply orb_true_iff in Ht as [Ht | Ht].
    + now apply (regex_match_inside alternatives keyword (String t text)).
    + simpl. apply orb_true_iff. right. now apply IH.
Qed.

Lemma regex_match_one_of (alternatives : list string) (keyword text : string) :
  In keyword alternatives ->
  JS.regex_match [keyword] text = true ->
  JS.regex_match alternatives text = true.
Proof.
  intros Hin. induction text as [| t text IH]; simpl;
    rewrite !orb_false_r; intros H.
  - apply existsb_exists. now exists keyword.
  - apply orb_true_iff in H as [H | H]; apply orb_true_iff.
    + left. apply existsb_exists. now exists keyword.
    + right. apply IH. simpl in H. exact H.
Qed.

Lemma append_assoc (a b c : string) : (a ++ b) ++ c = a ++ b ++ c.
Proof.
  induction a as [| x a IH]; simpl; [reflexivity | now rewrite IH].
Qed.

Lemma categorizeRequest_it (text : string) :
  categorizeRequest text = "IT and Technical Support"
  <-> JS.regex_match it_keywords text = true.
Proof.
  unfold categorizeRequest.
  destruct (JS.regex_match it_keywords text); [tauto |].
  destruct (JS.regex_match facilities_keywords text),
    (JS.regex_match equipment_keywords text),
    (JS.regex_match safety_keywords text),
    (JS.regex_match hr_keywords text); split; discriminate.
Qed.

Lemma determinePriority_critical (text : string) :
  determinePriority text = "Critical"
  <-> JS.regex_match critical_keywords text = true.
Proof.
  unfold determinePriority.
  destruct (JS.regex_match critical_keywords text); [tauto |].
  destruct (JS.regex_match high_keywords text),
    (JS.regex_match low_keywords text); split; discriminate.
Qed.

End KeywordFacts.

(** X1.  The first rule of each list wins for good: a text classified
    'IT and Technical Support' stays so, and a text of priority 'Critical'
    stays so, whatever is written before or after it; in particular
    appending to the description of a request never moves it out of IT or
    below Critical. *)
Theorem X1_first_rules_survive_more_text
  (title description before after : string) :
  (categorizeRequest description = "IT and Technical Support" ->
   categorizeRequest (before ++ description ++ after)
   = "IT and Technical Support")
  /\ (determinePriority description = "Critical" ->
      determinePriority (before ++ description ++ after) = "Critical")
  /\ (a_category (analyzeRequest title description)
      = "IT and Technical Support" ->
      a_category (analyzeRequest title (description ++ after))
      = "IT and Technical Support")
  /\ (a_priority (analyzeRequest title description) = "Critical" ->
      a_priority (analyzeRequest title (description ++ after)) = "Critical").
Proof.
  assert (Hgrow : forall alts text,
             JS.regex_match alts text = true ->
             JS.regex_match alts (before ++ text ++ after) = true).
  { intros alts text H. apply regex_match_app_r. now apply regex_match_app_l. }
  assert (Happ : JS.toLowerCase (title ++ " " ++ description ++ after)
                 = JS.toLowerCase (title ++ " " ++ description)
                   ++ JS.toLowerCase after).
  { rewrite <- toLowerCase_app. f_equal.
    now rewrite !append_assoc. }
  split; [| split; [| split]].
  - rewrite !categorizeRequest_it. apply Hgrow.
  - rewrite !determinePriority_critical. apply Hgrow.
  - rewrite !analyzeRequest_category, !categorizeRequest_it, Happ.
    apply regex_match_app_l.
  - rewrite !analyzeRequest_priority, !determinePriority_critical, Happ.
    apply regex_match_app_l.
Qed.

Lemma X1_first_rules_survive_more_text_witness :
  categorizeRequest "the fire alarm next to my laptop is on"
  = "IT and Technical Support"
  /\ a_priority (analyzeRequest "Door" "is broken, but take your time")
     = "Critical".
Proof.
  split.
  - apply (X1_first_rules_survive_more_text "" "my laptop"
             "the fire alarm next to " " is on"). reflexivity.
  - apply (X1_first_rules_survive_more_text "Door" "is broken"
             "" ", but take your time"). reflexivity.
Defined.

(** X2.  The classification ignores letter case: two requests whose titles
    and descriptions differ only in case get the same category, priority
    and unit. *)
Theorem X2_classification_ignores_case
  (title description title' description' : string) :
  JS.toLowerCase title = JS.toLowerCase title' ->
  JS.toLowerCase description = JS.toLowerCase description' ->
  a_category (analyzeRequest title description)
  = a_category (analyzeRequest title' description')
  /\ a_priority (analyzeRequest title description)
     = a_priority (analyzeRequest title' description')
  /\ a_assignedUnit (analyzeRequest title description)
     = a_assignedUnit (analyzeRequest title' description').
Proof.
  intros Ht Hd.
  assert (Htext : JS.toLowerCase (title ++ " " ++ description)
                  = JS.toLowerCase (title' ++ " " ++ description'))
    by (rewrite !toLowerCase_app; now rewrite Ht, Hd).
  assert (Hc : a_category (analyzeRequest title description)
               = a_category (analyzeRequest title' description'))
    by (rewrite !analyzeRequest_category; now rewrite Htext).
  split; [exact Hc |]. split.
  - rewrite !analyzeRequest_priority. now rewrite Htext.
  - rewrite !analyzeRequest_assignedUnit. now rewrite Hc.
Qed.

Lemma X2_classification_ignores_case_witness :
  a_category (analyzeRequest "WIFI DOWN" "Third Floor")
  = a_category (analyzeRequest "wifi down" "third floor")
  /\ a_priority (analyzeRequest "WIFI DOWN" "Third Floor")
     = a_priority (analyzeRequest "wifi down" "third floor")
  /\ a_assignedUnit (analyzeRequest "WIFI DOWN" "Third Floor")
     = a_assignedUnit (analyzeRequest "wifi down" "third floor").
Proof.
  destruct (X2_classification_ignores_case "WIFI DOWN" "Third Floor"
              "wifi down" "third floor") as (Hc & Hp & Hu);
    [reflexivity | reflexivity |].
  repeat split; assumption.
Defined.

(** X3.  Keywords that contain a keyword of an earlier rule never decide.
    'air condition', 'furniture', 'security', 'benefits' and 'recruitment'
    contain 'it': a text with one of them is an IT request, and so is a
    text with the priority keywords 'critical', 'high priority' or
    'low priority'.  'not urgent' contains 'urgent': a text with it has
    priority 'Critical', not 'Low'. *)
Theorem X3_shadowed_keywords (keyword text : string) :
  (filter (JS.regex_match it_keywords)
     (facilities_keywords ++ equipment_keywords ++ safety_keywords
      ++ hr_keywords)%list
   = ["air condition"; "furniture"; "security"; "benefits"; "recruitment"]
   /\ filter (JS.regex_match it_keywords)
        (critical_keywords ++ high_keywords ++ low_keywords)%list
      = ["critical"; "high priority"; "low priority"]
   /\ filter (JS.regex_match critical_keywords)
        (high_keywords ++ low_keywords)%list
      = ["not urgent"])
  /\ (In keyword ["air condition"; "furniture"; "security"; "benefits";
                  "recruitment"; "critical"; "high priority"; "low priority"] ->
      JS.regex_match [keyword] text = true ->
      categorizeRequest text = "IT and Technical Support")
  /\ (JS.regex_match ["not urgent"] text = true ->
      determinePriority text = "Critical").
Proof.
  split; [repeat split |]. split.
  - intros Hin Ht. apply categorizeRequest_it.
    apply (regex_match_substring it_keywords keyword text); trivial.
    simpl in Hin.
    repeat (destruct Hin as [<- | Hin]; [reflexivity |]). contradiction.
  - intros Ht. apply determinePriority_critical.
    now apply (regex_match_substring critical_keywords "not urgent" text).
Qed.

Lemma X3_shadowed_keywords_witness :
  a_category (analyzeRequest "New furniture" "Two shelves for the archive")
  = "IT and Technical Support"
  /\ a_priority (analyzeRequest "Shelf" "This is not urgent at all")
     = "Critical".
Proof.
  split.
  - rewrite analyzeRequest_category.
    apply (X3_shadowed_keywords "furniture"
             (JS.toLowerCase ("New furniture" ++ " " ++ "Two shelves for the archive")));
      [simpl; tauto | reflexivity].
  - rewrite analyzeRequest_priority.
    apply (X3_shadowed_keywords ""
             (JS.toLowerCase ("Shelf" ++ " " ++ "This is not urgent at all"))).
    reflexivity.
Defined.

(** X4.  The generated response always opens with the sentence that quotes
    the title as it was typed, whatever the title and the description
    are. *)
Theorem X4_response_quotes_title (title description : string) :
  exists rest,
    a_aiResponse (analyzeRequest title description)
    = ("Your request regarding " ++ quote ++ title ++ quote
       ++ " has been received") ++ rest.
Proof.
  assert (H : forall category,
             In category ["IT and Technical Support"; "Facilities and Maintenance";
                          "Equipment and Furniture"; "Safety and Fire Protection";
                          "HR and Staff Matters"; "Other"] ->
             exists rest, generateResponse title category = received title ++ rest).
  { intros category Hin. simpl in Hin.
    repeat (destruct Hin as [<- | Hin];
            [unfold generateResponse, responses, received; simpl;
             eexists; reflexivity |]).
    contradiction. }
  change (a_aiResponse (analyzeRequest title description))
    with (generateResponse title
            (categorizeRequest (JS.toLowerCase (title ++ " " ++ description)))).
  apply H. unfold categorizeRequest.
  destruct (JS.regex_match it_keywords _); [simpl; tauto |].
  destruct (JS.regex_match facilities_keywords _); [simpl; tauto |].
  destruct (JS.regex_match equipment_keywords _); [simpl; tauto |].
  destruct (JS.regex_match safety_keywords _); [simpl; tauto |].
  destruct (JS.regex_match hr_keywords _); simpl; tauto.
Qed.

(* ================================================================== *)
(** * Further properties of the statements on [requests]               *)
(* ================================================================== *)

Section RequestStatements.

Lemma requests_target_update (uid : uuid) (d : db)
  (where_ : Requests.row -> bool) (r : Requests.row) :
  requests_target UPDATE uid d where_ r
  = where_ r && exists_handler_role uid d.
Proof.
  unfold requests_target.
  rewrite requests_select_ok, requests_update_using.
  destruct (where_ r), (exists_handler_role uid d),
    (is_true (uuid_eq (Some uid) (Requests.submitter_id r))); reflexivity.
Qed.

Lemma requests_target_delete (uid : uuid) (d : db)
  (where_ : Requests.row -> bool) (r : Requests.row) :
  requests_target DELETE uid d where_ r
  = where_ r && exists_handler_role uid d.
Proof.
  unfold requests_target.
  rewrite requests_select_ok, requests_delete_using.
  destruct (where_ r), (exists_handler_role uid d),
    (is_true (uuid_eq (Some uid) (Requests.submitter_id r))); reflexivity.
Qed.

Lemma before_update_updated_at (now : timestamptz) (OLD NEW : Requests.row) :
  Requests.updated_at (before_update now OLD NEW) = Some now.
Proof.
  unfold before_update, set_resolved_at, update_updated_at_column.
  destruct (is_true _); [reflexivity |].
  destruct (is_true _); reflexivity.
Qed.

Lemma Forall2_weaken {A B : Type} (R R' : A -> B -> Prop) (l : list A)
  (l' : list B) :
  (forall a b, R a b -> R' a b) -> Forall2 R l l' -> Forall2 R' l l'.
Proof.
  intros Himp H. induction H; constructor; auto.
Qed.

Lemma Forall2_eq {A : Type} (l l' : list A) : Forall2 eq l l' -> l' = l.
Proof.
  intros H. induction H as [| a b l l' -> _ IH]; [reflexivity | now rewrite IH].
Qed.

(** What an accepted UPDATE leaves: the rows it targets went through
    [requests_update_row], the others are as they were. *)
Lemma requests_update_inv (uid : uuid) (now : timestamptz)
  (p : Requests.payload) (where_ : Requests.row -> bool) (d d' : db) :
  requests_update uid now p where_ d = Ok d' ->
  exists rows,
    d' = with_requests rows d
    /\ Forall2 (fun OLD NEW =>
                  if requests_target UPDATE uid d where_ OLD
                  then requests_update_row uid now p d OLD = Ok NEW
                  else NEW = OLD) (requests d) rows
    /\ distinct opt_uuid_eqb (map Requests.id rows) = true
    /\ forallb (fun c => references_request rows (Comments.request_id c))
               (request_comments d) = true.
Proof.
  unfold requests_update. intros H.
  destruct (mapM _ (requests d)) as [rows |] eqn:Hrows; simpl in H;
    [| discriminate].
  destruct (distinct _ _) eqn:Hd; simpl in H; [| discriminate].
  destruct (forallb _ _) eqn:Hf; simpl in H; [| discriminate].
  injection H as <-. exists rows. repeat split; trivial.
  apply mapM_Forall2 in Hrows.
  refine (Forall2_weaken _ _ _ _ _ Hrows).
  intros OLD NEW H1.
  destruct (requests_target UPDATE uid d where_ OLD); trivial.
  now injection H1 as <-.
Qed.

End RequestStatements.

(** X5.  Nobody files a request in another name: an accepted insert into
    [requests] appends exactly one row, whose [submitter_id] is the
    caller's uid, and leaves every other row and table alone; a body whose
    [submitter_id] is missing, null or another identity is rejected as a
    policy violation. *)
Theorem X5_requests_insert_own_identity
  (uid fresh_id : uuid) (now : timestamptz) (p : Requests.payload) (d : db) :
  (forall d', requests_insert uid fresh_id now p d = Ok d' ->
     exists stored,
       stored = Requests.overlay (Requests.defaults fresh_id now) p
       /\ Requests.submitter_id stored = Some uid
       /\ requests d' = (requests d ++ [stored])%list
       /\ request_comments d' = request_comments d
       /\ user_roles d' = user_roles d
       /\ auth_users d' = auth_users d)
  /\ (col_or None (Requests.p_submitter_id p) <> Some uid ->
      requests_insert uid fresh_id now p d = Err rls_violation).
Proof.
  split.
  - intros d' H. unfold requests_insert in H.
    rewrite requests_insert_check in H.
    destruct (is_true _) eqn:Hrls; simpl in H; [| discriminate].
    apply uuid_eq_some_l in Hrls.
    destruct (Requests.not_null _); simpl in H; [| discriminate].
    destruct (negb _); simpl in H; [| discriminate].
    destruct (references_user _ _); simpl in H; [| discriminate].
    injection H as <-. eexists. split; [reflexivity |].
    repeat split. exact Hrls.
  - intros Hne. unfold requests_insert. rewrite requests_insert_check.
    destruct (is_true _) eqn:Hrls; [| reflexivity].
    apply uuid_eq_some_l in Hrls. now elim Hne.
Qed.

Lemma X5_requests_insert_own_identity_witness :
  requests_insert "dave" "req-2" 50 Sample.resolved_on_arrival
    Sample.with_request = Err rls_violation
  /\ exists stored,
       Requests.submitter_id stored = Some "alice"
       /\ requests (commit Sample.with_request
                      (requests_insert "alice" "req-2" 50
                         Sample.resolved_on_arrival Sample.with_request))
          = [Sample.req1; stored].
Proof.
  split.
  - apply (X5_requests_insert_own_identity "dave" "req-2" 50
             Sample.resolved_on_arrival Sample.with_request).
    discriminate.
  - destruct (X5_requests_insert_own_identity "alice" "req-2" 50
                Sample.resolved_on_arrival Sample.with_request) as [Hok _].
    destruct (Hok (commit Sample.with_request
                     (requests_insert "alice" "req-2" 50
                        Sample.resolved_on_arrival Sample.with_request)))
      as (stored & _ & Hsub & Hrows & _); [reflexivity |].
    exists stored. split; [exact Hsub | exact Hrows].
Defined.

(** X6.  An accepted UPDATE of [requests] touches exactly the rows its
    WHERE clause selects, and only when the caller holds a handler row;
    every row it touches carries the time of the statement in
    [updated_at], whatever the body assigned to that column; the other rows,
    the comments and the roles are unchanged. *)
Theorem X6_update_stamps_updated_at
  (uid : uuid) (now : timestamptz) (p : Requests.payload)
  (where_ : Requests.row -> bool) (d d' : db) :
  requests_update uid now p where_ d = Ok d' ->
  Forall2 (fun OLD NEW =>
             (where_ OLD = true /\ holds_role uid "handler" d
              /\ NEW = before_update now OLD (Requests.overlay OLD p)
              /\ Requests.updated_at NEW = Some now)
             \/ ((where_ OLD = false \/ ~ holds_role uid "handler" d)
                 /\ NEW = OLD))
          (requests d) (requests d')
  /\ request_comments d' = request_comments d
  /\ user_roles d' = user_roles d
  /\ auth_users d' = auth_users d.
Proof.
  intros H. apply requests_update_inv in H as (rows & -> & Hrows & _ & _).
  split; [| repeat split]. simpl.
  refine (Forall2_weaken _ _ _ _ _ Hrows).
  intros OLD NEW H1.
  rewrite requests_target_update in H1.
  destruct (where_ OLD) eqn:Hw; simpl in H1.
  - destruct (exists_handler_role uid d) eqn:Hh.
    + left. apply requests_update_row_inv in H1 as [-> _].
      apply exists_handler_role_iff in Hh.
      repeat split; trivial. apply before_update_updated_at.
    + right. apply exists_handler_role_false in Hh. split; [now right | trivial].
  - right. split; [now left | trivial].
Qed.

Lemma X6_update_stamps_updated_at_witness :
  map Requests.updated_at (requests Sample.resolved) = [Some 60%Z]
  /\ user_roles Sample.resolved = user_roles Sample.with_request.
Proof.
  assert (H : requests_update "bob" 60
                (handleUpdateRequest_body
                   (Requests.overlay Sample.req1 (Sample.set_status "Resolved")))
                (fun r => same_uuid (Requests.id r) (Requests.id Sample.req1))
                Sample.with_request = Ok Sample.resolved)
    by (vm_compute; reflexivity).
  apply X6_update_stamps_updated_at in H as (Hrows & _ & Hroles & _).
  split; [reflexivity | exact Hroles].
Defined.

(** X7.  The statements of a caller without a handler row change no
    request: an UPDATE leaves the whole database as it was, and a DELETE
    leaves [requests] as it was, and the comments too when each of them
    references a request. *)
Theorem X7_non_handler_changes_no_request
  (uid : uuid) (now : timestamptz) (p : Requests.payload)
  (where_ : Requests.row -> bool) (d : db) :
  ~ holds_role uid "handler" d ->
  commit d (requests_update uid now p where_ d) = d
  /\ requests (commit d (requests_delete uid where_ d)) = requests d
  /\ (Forall (fun c => references_request (requests d) (Comments.request_id c)
                       = true) (request_comments d) ->
      requests_delete uid where_ d = Ok d).
Proof.
  intros Hno. apply exists_handler_role_false in Hno.
  assert (Hkeep : filter (fun r => negb (requests_target DELETE uid d where_ r))
                    (requests d) = requests d).
  { apply (filter_untouched (requests_target DELETE uid d where_)).
    intros r. rewrite requests_target_delete, Hno. apply andb_false_r. }
  split; [| split].
  - destruct (requests_update uid now p where_ d) as [d' |] eqn:H;
      [| reflexivity].
    simpl. apply requests_update_inv in H as (rows & -> & Hrows & _).
    assert (rows = requests d) as ->.
    { apply Forall2_eq. refine (Forall2_weaken _ _ _ _ _ Hrows).
      intros OLD NEW H1.
      rewrite requests_target_update, Hno, andb_false_r in H1.
      now symmetry. }
    now destruct d.
  - unfold requests_delete. simpl. exact Hkeep.
  - intros Hfk. unfold requests_delete. rewrite Hkeep.
    assert (Hc : filter (fun c => references_request (requests d)
                                    (Comments.request_id c))
                   (request_comments d) = request_comments d).
    { clear - Hfk. induction Hfk as [| c l Hc _ IH]; simpl; [reflexivity |].
      now rewrite Hc, IH. }
    rewrite Hc. now destruct d.
Qed.

Lemma X7_non_handler_changes_no_request_witness :
  commit Sample.with_request
    (requests_update "alice" 60 (Sample.set_status "Resolved")
       Sample.any_request Sample.with_request) = Sample.with_request
  /\ requests_delete "alice" Sample.any_request Sample.with_request
     = Ok Sample.with_request.
Proof.
  destruct (X7_non_handler_changes_no_request "alice" 60
              (Sample.set_status "Resolved") Sample.any_request
              Sample.with_request) as (Hu & _ & Hd).
  - apply exists_handler_role_false. reflexivity.
  - split; [exact Hu | apply Hd; constructor].
Defined.

(* ================================================================== *)
(** * The constraints of the schema as an invariant                    *)
(* ================================================================== *)

Section Constraints.

Lemma opt_uuid_eqb_eq (a b : option uuid) : opt_uuid_eqb a b = true <-> a = b.
Proof.
  destruct a as [x |], b as [y |]; simpl; split; try discriminate; trivial.
  - intros H. apply String.eqb_eq in H. now subst.
  - intros H. injection H as ->. apply String.eqb_refl.
Qed.

Lemma distinct_NoDup (keys : list (option uuid)) :
  distinct opt_uuid_eqb keys = true -> NoDup keys.
Proof.
  induction keys as [| k keys IH]; simpl; intros H; constructor.
  - apply andb_true_iff in H as [H _]. apply negb_true_iff in H.
    intros Hin. apply not_true_iff_false in H. apply H.
    apply existsb_exists. exists k. split; trivial. now apply opt_uuid_eqb_eq.
  - apply andb_true_iff in H as [_ H]. now apply IH.
Qed.

Lemma NoDup_snoc {A : Type} (l : list A) (x : A) :
  NoDup l -> ~ In x l -> NoDup (l ++ [x]).
Proof.
  intros Hl Hx. induction Hl as [| a l Ha Hl IH]; simpl.
  - constructor; [intros [] | constructor].
  - constructor.
    + intros Hin. apply in_app_or in Hin as [Hin | [<- | []]]; [contradiction |].
      apply Hx. now left.
    + apply IH. intros Hin. apply Hx. now right.
Qed.

Lemma NoDup_map_filter {A K : Type} (key : A -> K) (keep : A -> bool)
  (l : list A) :
  NoDup (map key l) -> NoDup (map key (filter keep l)).
Proof.
  induction l as [| a l IH]; simpl; intros H; [constructor |].
  inversion H as [| ? ? Hnotin Hnd]; subst.
  destruct (keep a); simpl; [constructor |]; auto.
  intros Hin. apply Hnotin. apply in_map_iff in Hin as (b & Hb & Hin).
  apply filter_In in Hin as [Hin _]. rewrite <- Hb. now apply in_map.
Qed.

(** The id an insert proposes is new when no stored id equals it. *)
Lemma new_id_not_in {A : Type} (id : A -> option uuid) (rows : list A)
  (new_id : option uuid) :
  new_id <> None ->
  existsb (fun r => same_uuid (id r) new_id) rows = false ->
  ~ In new_id (map id rows).
Proof.
  intros Hnn Hex Hin. apply in_map_iff in Hin as (r & Hr & Hin).
  apply not_true_iff_false in Hex. apply Hex.
  apply existsb_exists. exists r. split; trivial.
  unfold same_uuid. apply uuid_eq_true.
  destruct new_id as [i |]; [| contradiction]. now exists i.
Qed.

Lemma references_request_more (rows : list Requests.row) (r : Requests.row)
  (rid : option uuid) :
  references_request rows rid = true ->
  references_request (rows ++ [r]) rid = true.
Proof.
  destruct rid as [i |]; simpl; trivial.
  rewrite existsb_app. intros ->. reflexivity.
Qed.

Lemma references_user_more (u : uuid) (d : db) (x : option uuid) :
  references_user d x = true -> references_user (with_auth_user u d) x = true.
Proof.
  destruct x as [i |]; simpl; trivial. intros ->. apply orb_true_r.
Qed.

Lemma is_null_false {A : Type} (x : option A) :
  negb (is_null x) = true -> x <> None.
Proof. destruct x; [discriminate | discriminate]. Qed.

Lemma requests_id_not_null (r : Requests.row) :
  Requests.not_null r = true -> Requests.id r <> None.
Proof.
  unfold Requests.not_null. rewrite !andb_true_iff.
  intros H. apply is_null_false. tauto.
Qed.

Lemma comments_id_not_null (c : Comments.row) :
  Comments.not_null c = true -> Comments.id c <> None.
Proof.
  unfold Comments.not_null. rewrite !andb_true_iff.
  intros H. apply is_null_false. tauto.
Qed.

Lemma user_roles_not_null (r : UserRoles.row) :
  UserRoles.not_null r = true ->
  UserRoles.id r <> None
  /\ exists u role, UserRoles.user_id r = Some u /\ UserRoles.role r = Some role.
Proof.
  unfold UserRoles.not_null. rewrite !andb_true_iff.
  intros [[Hi Hu] Hr]. split; [now apply is_null_false |].
  destruct (UserRoles.user_id r) as [u |]; [| discriminate].
  destruct (UserRoles.role r) as [role |]; [| discriminate].
  now exists u, role.
Qed.

Lemma role_key_eqb_eq (u : uuid) (role : text) (k : option (uuid * text)) :
  k = Some (u, role) -> role_key_eqb k (Some (u, role)) = true.
Proof. intros ->. simpl. now rewrite !String.eqb_refl. Qed.

Lemma requests_insert_keeps (uid fresh_id : uuid) (now : timestamptz)
  (p : Requests.payload) (d d' : db) :
  requests_insert uid fresh_id now p d = Ok d' ->
  schema_constraints d -> schema_constraints d'.
Proof.
  unfold requests_insert.
  set (NEW := Requests.overlay (Requests.defaults fresh_id now) p).
  destruct (check_ok _ _ _ _ _); simpl; [| discriminate].
  destruct (Requests.not_null NEW) eqn:Hnn; simpl; [| discriminate].
  destruct (negb _) eqn:Huq; simpl; [| discriminate].
  destruct (references_user d _) eqn:Hfk; simpl; [| discriminate].
  intros H. injection H as <-.
  intros ((Hrq & Hid) & (Hc & Hcid) & Hroles).
  split; [| split]; trivial.
  - split; simpl.
    + apply Forall_app. split; [exact Hrq |]. constructor; [| constructor].
      split; assumption.
    + rewrite map_app. simpl. apply NoDup_snoc; trivial.
      apply negb_true_iff in Huq.
      apply new_id_not_in; trivial. exact (requests_id_not_null NEW Hnn).
  - split; simpl; trivial.
    refine (Forall_impl _ _ Hc). intros c (H1 & H2 & H3).
    repeat split; trivial. now apply references_request_more.
Qed.

Lemma requests_update_row_guards (uid : uuid) (now : timestamptz)
  (p : Requests.payload) (d : db) (OLD NEW : Requests.row) :
  requests_update_row uid now p d OLD = Ok NEW ->
  Requests.not_null NEW = true
  /\ references_user d (Requests.submitter_id NEW) = true.
Proof.
  unfold requests_update_row.
  destruct (check_ok _ _ _ _ _ && _); simpl; [| discriminate].
  destruct (Requests.not_null _) eqn:Hnn; simpl; [| discriminate].
  destruct (references_user _ _) eqn:Hfk; simpl; [| discriminate].
  intros H. injection H as <-. now split.
Qed.

Lemma requests_update_keeps (uid : uuid) (now : timestamptz)
  (p : Requests.payload) (where_ : Requests.row -> bool) (d d' : db) :
  requests_update uid now p where_ d = Ok d' ->
  schema_constraints d -> schema_constraints d'.
Proof.
  intros H ((Hrq & Hid) & (Hc & Hcid) & Hroles).
  apply requests_update_inv in H as (rows & -> & Hrows & Hdist & Hfk).
  split; [| split]; trivial.
  - split; simpl; [| now apply distinct_NoDup].
    refine (Forall2_preserves _ _ _ _ Hrows _ Hrq).
    intros OLD NEW H1 Hold.
    destruct (requests_target UPDATE uid d where_ OLD); [| now subst].
    now apply requests_update_row_guards in H1.
  - split; simpl; trivial.
    rewrite forallb_forall in Hfk. rewrite Forall_forall in *.
    intros c Hin. destruct (Hc c Hin) as (H1 & _ & H3).
    repeat split; trivial. now apply Hfk.
Qed.

Lemma requests_delete_keeps (uid : uuid) (where_ : Requests.row -> bool)
  (d d' : db) :
  requests_delete uid where_ d = Ok d' ->
  schema_constraints d -> schema_constraints d'.
Proof.
  unfold requests_delete. intros H. injection H as <-.
  intros ((Hrq & Hid) & (Hc & Hcid) & Hroles).
  split; [| split]; trivial.
  - split; simpl.
    + rewrite Forall_forall in *. intros r Hin.
      apply filter_In in Hin as [Hin _]. now apply Hrq.
    + now apply NoDup_map_filter.
  - split; simpl.
    + rewrite Forall_forall in *. intros c Hin.
      apply filter_In in Hin as [Hin Href].
      destruct (Hc c Hin) as (H1 & _ & H3). now repeat split.
    + now apply NoDup_map_filter.
Qed.

Lemma request_comments_insert_keeps (uid fresh_id : uuid) (now : timestamptz)
  (p : Comments.payload) (d d' : db) :
  request_comments_insert uid fresh_id now p d = Ok d' ->
  schema_constraints d -> schema_constraints d'.
Proof.
  unfold request_comments_insert.
  set (NEW := Comments.overlay (Comments.defaults fresh_id now) p).
  destruct (check_ok _ _ _ _ _); simpl; [| discriminate].
  destruct (Comments.not_null NEW) eqn:Hnn; simpl; [| discriminate].
  destruct (negb _) eqn:Huq; simpl; [| discriminate].
  destruct (references_request _ _ && _) eqn:Hfk; simpl; [| discriminate].
  intros H. injection H as <-.
  intros (Hrq & (Hc & Hcid) & Hroles).
  apply andb_true_iff in Hfk as [Hfr Hfu].
  split; [| split]; trivial.
  split; simpl.
  - apply Forall_app. split; [exact Hc |]. constructor; [| constructor].
    now repeat split.
  - rewrite map_app. simpl. apply NoDup_snoc; trivial.
    apply negb_true_iff in Huq.
    apply new_id_not_in; trivial. exact (comments_id_not_null NEW Hnn).
Qed.

Lemma user_roles_insert_keeps (uid fresh_id : uuid) (now : timestamptz)
  (p : UserRoles.payload) (d d' : db) :
  user_roles_insert uid fresh_id now p d = Ok d' ->
  schema_constraints d -> schema_constraints d'.
Proof.
  unfold user_roles_insert.
  set (NEW := UserRoles.overlay (UserRoles.defaults fresh_id now) p).
  destruct (check_ok _ _ _ _ _); simpl; [| discriminate].
  destruct (UserRoles.not_null NEW) eqn:Hnn; simpl; [| discriminate].
  destruct (UserRoles.role_check NEW) eqn:Hck; simpl; [| discriminate].
  destruct (negb _ && negb _) eqn:Huq; simpl; [| discriminate].
  destruct (references_user d _) eqn:Hfk; simpl; [| discriminate].
  intros H. injection H as <-.
  intros (Hrq & Hc & (Hr & Hrid & Hkey)).
  apply andb_true_iff in Huq as [Huid Hukey].
  apply negb_true_iff in Huid. apply negb_true_iff in Hukey.
  destruct (user_roles_not_null NEW Hnn) as (Hidnn & u & role & Hu & Hrole).
  split; [| split]; trivial.
  split; [| split]; simpl.
  - apply Forall_app. split; [exact Hr |]. constructor; [| constructor].
    now repeat split.
  - rewrite map_app. simpl. apply NoDup_snoc; trivial.
    now apply new_id_not_in.
  - rewrite map_app. simpl. apply NoDup_snoc; trivial.
    intros Hin. apply in_map_iff in Hin as (r & Hk & Hin).
    apply not_true_iff_false in Hukey. apply Hukey.
    apply existsb_exists. exists r. split; trivial.
    rewrite Hk. unfold UserRoles.unique_key. rewrite Hu, Hrole.
    simpl. now rewrite !String.eqb_refl.
Qed.

Lemma execute_keeps (uid : uuid) (s : statement) (d : db) :
  schema_constraints d -> schema_constraints (commit d (execute uid s d)).
Proof.
  intros Hd.
  destruct s as [f n p | n p w | w | f n p | f n p | p w | w]; cbn [execute].
  - destruct (requests_insert uid f n p d) eqn:H; simpl; trivial.
    now apply (requests_insert_keeps uid f n p d).
  - destruct (requests_update uid n p w d) eqn:H; simpl; trivial.
    now apply (requests_update_keeps uid n p w d).
  - destruct (requests_delete uid w d) eqn:H; simpl; trivial.
    now apply (requests_delete_keeps uid w d).
  - destruct (request_comments_insert uid f n p d) eqn:H; simpl; trivial.
    now apply (request_comments_insert_keeps uid f n p d).
  - destruct (user_roles_insert uid f n p d) eqn:H; simpl; trivial.
    now apply (user_roles_insert_keeps uid f n p d).
  - now rewrite user_roles_update_noop.
  - now rewrite user_roles_delete_noop.
Qed.

Lemma with_auth_user_keeps (u : uuid) (d : db) :
  schema_constraints d -> schema_constraints (with_auth_user u d).
Proof.
  intros ((Hrq & Hid) & (Hc & Hcid) & (Hr & Hrid & Hkey)).
  split; [| split]; (split; [| try split]); simpl; trivial.
  - refine (Forall_impl _ _ Hrq). intros r [H1 H2].
    split; trivial. now apply references_user_more.
  - refine (Forall_impl _ _ Hc). intros c (H1 & H2 & H3).
    repeat split; trivial. now apply references_user_more.
  - refine (Forall_impl _ _ Hr). intros r (H1 & H2 & H3).
    repeat split; trivial. now apply references_user_more.
Qed.

End Constraints.

(** X8.  The declared constraints are an invariant of everything the
    application and its users can do: NOT NULL columns, the primary keys,
    the references of requests, comments and roles to users, of comments to
    requests (deleting a request takes its comments along), the CHECK on
    the role and UNIQUE(user_id, role) hold in the empty database, and are
    kept by every sign-up and by every sequence of statements of any user,
    accepted or rejected. *)
Theorem X8_schema_constraints_invariant
  (uid : uuid) (script : list statement)
  (new_user : User) (session : bool) (role : string)
  (fresh_id : uuid) (now : timestamptz) (d : db) :
  schema_constraints (mkDb [] [] [] [])
  /\ (schema_constraints d -> schema_constraints (run uid script d))
  /\ (schema_constraints d ->
      schema_constraints (signUp new_user session role fresh_id now d)).
Proof.
  split; [| split].
  - repeat split; constructor.
  - revert d. induction script as [| s script IH]; intros d Hd; [exact Hd |].
    simpl. apply IH. now apply execute_keeps.
  - intros Hd. unfold signUp.
    pose proof (with_auth_user_keeps (u_id new_user) d Hd) as H1.
    destruct session; trivial.
    destruct (user_roles_insert _ _ _ _ _) eqn:H; simpl; trivial.
    now apply (user_roles_insert_keeps _ _ _ _ _ _ H).
Qed.

Lemma X8_schema_constraints_invariant_witness :
  schema_constraints Sample.signed_up
  /\ schema_constraints
       (run "bob" [DeleteRequests Sample.any_request] Sample.with_request).
Proof.
  pose proof (proj1 (X8_schema_constraints_invariant "" [] Sample.alice true
                       "" "" 0%Z (mkDb [] [] [] []))) as Hempty.
  pose proof (fun uid script d =>
                proj1 (proj2 (X8_schema_constraints_invariant uid script
                                Sample.alice true "" "" 0%Z d))) as Hrun.
  pose proof (fun u s r f n d =>
                proj2 (proj2 (X8_schema_constraints_invariant "" [] u s r f n d)))
    as Hsign.
  assert (H1 : schema_constraints Sample.signed_up).
  { unfold Sample.signed_up. repeat apply Hsign. exact Hempty. }
  split; [exact H1 |].
  apply Hrun.
  change Sample.with_request
    with (run "alice" [InsertRequest "req-1" 20
                         (handleSubmit_body Sample.alice "Projector"
                            "The lamp flickers" "" "")] Sample.signed_up).
  apply Hrun. exact H1.
Defined.

(* ================================================================== *)
(** * Further properties of sign-up, sign-in and routing               *)
(* ================================================================== *)

Section SignUp.

Lemma none_of (uid : uuid) (visible : UserRoles.row -> bool)
  (rows : list UserRoles.row) :
  ~ In (Some uid) (map UserRoles.user_id rows) ->
  filter (fun r => same_uuid (UserRoles.user_id r) (Some uid))
         (filter visible rows) = [].
Proof.
  intros Hnone.
  destruct (filter _ (filter visible rows)) as [| r l] eqn:Hl; [reflexivity |].
  exfalso. assert (Hin : In r (r :: l)) by now left.
  rewrite <- Hl in Hin. apply filter_In in Hin as [Hin Hu].
  apply filter_In in Hin as [Hin _]. apply uuid_eq_some in Hu.
  apply Hnone. rewrite <- Hu. now apply in_map.
Qed.

Lemma visible_roles_iff (uid : uuid) (d : db) (r : UserRoles.row) :
  In r (filter (using_ok user_roles_policies SELECT uid d) (user_roles d))
  <-> In r (user_roles d) /\ UserRoles.user_id r = Some uid.
Proof.
  rewrite filter_In. now rewrite user_roles_select_own.
Qed.

(** The role row of a new user is accepted. *)
Lemma signUp_inserts (new_user : User) (role : string) (fresh_id : uuid)
  (now : timestamptz) (d : db) :
  role = "submitter" \/ role = "handler" ->
  ~ In (Some (u_id new_user)) (map UserRoles.user_id (user_roles d)) ->
  ~ In (Some fresh_id) (map UserRoles.id (user_roles d)) ->
  user_roles (signUp new_user true role fresh_id now d)
  = (user_roles d
     ++ [UserRoles.mk (Some fresh_id) (Some (u_id new_user)) (Some role)
           (Some now)])%list.
Proof.
  intros Hrole Hnew Hfresh. unfold signUp, user_roles_insert.
  set (NEW := UserRoles.overlay _ _).
  assert (Hrls : check_ok user_roles_policies INSERT (u_id new_user)
                   (with_auth_user (u_id new_user) d) NEW = true).
  { unfold check_ok, user_roles_policies; simpl.
    now rewrite orb_false_r, String.eqb_refl. }
  assert (Hck : UserRoles.role_check NEW = true)
    by (destruct Hrole as [-> | ->]; reflexivity).
  assert (Hid : existsb (fun r => same_uuid (UserRoles.id r) (UserRoles.id NEW))
                  (user_roles (with_auth_user (u_id new_user) d)) = false).
  { apply not_true_iff_false. intros H.
    apply existsb_exists in H as (r & Hin & Hr).
    apply uuid_eq_some in Hr. apply Hfresh. rewrite <- Hr. now apply in_map. }
  assert (Hkey : existsb (fun r => role_key_eqb (UserRoles.unique_key r)
                                     (UserRoles.unique_key NEW))
                   (user_roles (with_auth_user (u_id new_user) d)) = false).
  { apply not_true_iff_false. intros H.
    apply existsb_exists in H as (r & Hin & Hr).
    apply Hnew. apply in_map_iff. exists r. split; [| exact Hin].
    unfold UserRoles.unique_key in Hr. simpl in Hr.
    destruct (UserRoles.user_id r) as [u |]; [| discriminate].
    destruct (UserRoles.role r); [| discriminate].
    simpl in Hr. apply andb_true_iff in Hr as [Hu _].
    apply String.eqb_eq in Hu. now subst. }
  rewrite Hrls, Hck, Hid, Hkey. simpl.
  now rewrite String.eqb_refl.
Qed.

End SignUp.

(** X9.  Sign-up and sign-in agree.  For a user without a role row and an
    unused row id, a sign-up with a session stores the chosen role, and the
    next sign-in reads that role and shows the handler view exactly when
    'handler' was chosen; a sign-up without a session stores no role and
    the user is shown the submitter view. *)
Theorem X9_sign_up_then_sign_in
  (new_user : User) (role : string) (fresh_id : uuid) (now : timestamptz)
  (d : db) (st : auth_state) :
  role = "submitter" \/ role = "handler" ->
  ~ In (Some (u_id new_user)) (map UserRoles.user_id (user_roles d)) ->
  ~ In (Some fresh_id) (map UserRoles.id (user_roles d)) ->
  fetchUserRole (u_id new_user) (signUp new_user true role fresh_id now d)
  = role
  /\ (AppContent (onAuthStateChange (Some new_user)
                    (signUp new_user true role fresh_id now d) st)
      = HandlerView <-> role = "handler")
  /\ user_roles (signUp new_user false role fresh_id now d) = user_roles d
  /\ AppContent (onAuthStateChange (Some new_user)
                   (signUp new_user false role fresh_id now d) st)
     = SubmitterView.
Proof.
  intros Hrole Hnew Hfresh.
  assert (Hfetch : fetchUserRole (u_id new_user)
                     (signUp new_user true role fresh_id now d) = role).
  { unfold fetchUserRole, select_roles_of.
    rewrite (signUp_inserts new_user role fresh_id now d Hrole Hnew Hfresh).
    rewrite !filter_app, (none_of (u_id new_user) _ (user_roles d) Hnew).
    simpl. rewrite String.eqb_refl. simpl.
    unfold same_uuid. simpl. now rewrite String.eqb_refl. }
  assert (Hnone : fetchUserRole (u_id new_user)
                    (signUp new_user false role fresh_id now d) = "submitter").
  { unfold fetchUserRole, select_roles_of, signUp. simpl user_roles.
    now rewrite (none_of (u_id new_user) _ (user_roles d) Hnew). }
  split; [exact Hfetch |]. split; [| split; [reflexivity |]].
  - unfold onAuthStateChange, AppContent. cbn [loading user userRole].
    rewrite Hfetch.
    destruct (String.eqb_spec role "handler"); split; trivial;
      try discriminate; intros; contradiction.
  - unfold onAuthStateChange, AppContent. cbn [loading user userRole].
    now rewrite Hnone.
Qed.

Lemma X9_sign_up_then_sign_in_witness :
  fetchUserRole "erin"
    (signUp (mkUser "erin" None None) true "handler" "role-9" 90
       Sample.with_request) = "handler"
  /\ AppContent (onAuthStateChange (Some (mkUser "erin" None None))
                   (signUp (mkUser "erin" None None) true "handler" "role-9" 90
                      Sample.with_request) initial_auth_state)
     = HandlerView.
Proof.
  destruct (X9_sign_up_then_sign_in (mkUser "erin" None None) "handler"
              "role-9" 90 Sample.with_request initial_auth_state)
    as (Hrole & Hview & _).
  - now right.
  - simpl. intuition discriminate.
  - simpl. intuition discriminate.
  - split; [exact Hrole | now apply Hview].
Defined.

(** X10.  The handler view is shown only to handlers: after a sign-in
    [AppContent] shows it exactly when the lookup returns one row and that
    row says 'handler', and then the caller holds a handler row, so the
    handler policies of [requests] accept what the view sends.  After a
    sign-out the sign-in form is shown. *)
Theorem X10_handler_view_only_for_handlers
  (u : User) (d : db) (st : auth_state) :
  (AppContent (onAuthStateChange (Some u) d st) = HandlerView
   <-> select_roles_of (u_id u) (u_id u) d = [Some "handler"])
  /\ (AppContent (onAuthStateChange (Some u) d st) = HandlerView ->
      holds_role (u_id u) "handler" d
      /\ exists_handler_role (u_id u) d = true)
  /\ AppContent (onAuthStateChange None d st) = Auth.
Proof.
  assert (Hiff : AppContent (onAuthStateChange (Some u) d st) = HandlerView
                 <-> select_roles_of (u_id u) (u_id u) d = [Some "handler"]).
  { unfold onAuthStateChange, AppContent, fetchUserRole.
    cbn [loading user userRole].
    destruct (select_roles_of (u_id u) (u_id u) d) as [| [role |] [| y l]];
      simpl; try (split; discriminate).
    destruct (String.eqb_spec role "handler") as [-> | Hne]; split; trivial;
      try discriminate.
    intros H. injection H as ->. now elim Hne. }
  split; [exact Hiff |]. split; [| reflexivity].
  intros H. apply Hiff in H.
  assert (Hh : holds_role (u_id u) "handler" d).
  { assert (Hin : In (Some "handler") (select_roles_of (u_id u) (u_id u) d))
      by (rewrite H; now left).
    unfold select_roles_of in Hin.
    apply in_map_iff in Hin as (r & Hr & Hin).
    apply filter_In in Hin as [Hin _].
    apply visible_roles_iff in Hin as [Hin Hu]. now exists r. }
  split; [exact Hh | now apply exists_handler_role_iff].
Qed.

Lemma X10_handler_view_only_for_handlers_witness :
  AppContent (onAuthStateChange (Some Sample.bob) Sample.with_request
                initial_auth_state) = HandlerView
  /\ holds_role "bob" "handler" Sample.with_request.
Proof.
  destruct (X10_handler_view_only_for_handlers Sample.bob Sample.with_request
              initial_auth_state) as (Hiff & Himp & _).
  assert (Hview : AppContent (onAuthStateChange (Some Sample.bob)
                                Sample.with_request initial_auth_state)
                  = HandlerView) by (apply Hiff; reflexivity).
  split; [exact Hview | now apply Himp].
Defined.

(** X11.  A user reads only the own role rows: the rows of [user_roles]
    that the SELECT policy shows to a caller are exactly the stored rows of
    that caller, so a lookup for any other identity answers with no row. *)
Theorem X11_roles_of_others_are_hidden
  (uid userId : uuid) (d : db) (r : UserRoles.row) :
  (In r (filter (using_ok user_roles_policies SELECT uid d) (user_roles d))
   <-> In r (user_roles d) /\ UserRoles.user_id r = Some uid)
  /\ (userId <> uid -> select_roles_of uid userId d = []).
Proof.
  split; [apply visible_roles_iff |].
  intros Hne. unfold select_roles_of.
  destruct (filter _ (filter _ (user_roles d))) as [| x l] eqn:Hl;
    [reflexivity | exfalso].
  assert (Hin : In x (x :: l)) by now left.
  rewrite <- Hl in Hin. apply filter_In in Hin as [Hin Hu].
  apply visible_roles_iff in Hin as [_ Hown].
  apply uuid_eq_some in Hu. rewrite Hown in Hu. injection Hu as ->.
  now elim Hne.
Qed.

Lemma X11_roles_of_others_are_hidden_witness :
  select_roles_of "alice" "bob" Sample.with_request = [].
Proof.
  apply (X11_roles_of_others_are_hidden "alice" "bob" Sample.with_request
           (UserRoles.mk None None None None)).
  discriminate.
Defined.

(* ================================================================== *)
(** * Further properties of the comments                               *)
(* ================================================================== *)

Section Comments.

(** The sub-query of the comment policies, read on the table itself: the
    SELECT policies of [requests] hide no request of the caller. *)
Lemma own_parent_iff (uid : uuid) (d : db) (rid : option uuid) :
  exists_own_parent_request uid d rid = true
  <-> exists rq, In rq (requests d)
                 /\ Requests.id rq = rid /\ rid <> None
                 /\ Requests.submitter_id rq = Some uid.
Proof.
  unfold exists_own_parent_request. rewrite existsb_exists. split.
  - intros (rq & Hin & Hrq). apply filter_In in Hin as [Hin _].
    apply and3_true in Hrq as [Hid Hsub]. apply uuid_eq_some in Hsub.
    apply uuid_eq_true in Hid as (i & Hi & ->).
    exists rq. repeat split; trivial. discriminate.
  - intros (rq & Hin & Hid & Hnn & Hsub). exists rq. split.
    + apply filter_In. split; trivial. rewrite requests_select_ok.
      apply orb_true_iff. left. now apply uuid_eq_some_l.
    + apply and3_true. split; [| now apply uuid_eq_some].
      apply uuid_eq_true. destruct rid as [i |]; [| contradiction].
      now exists i.
Qed.

Lemma comment_select_using (uid : uuid) (d : db) (c : Comments.row) :
  using_ok request_comments_policies SELECT uid d c
  = exists_own_parent_request uid d (Comments.request_id c)
    || exists_handler_role uid d.
Proof.
  unfold using_ok, request_comments_policies, comment_access; simpl.
  rewrite orb_false_r.
  destruct (exists_own_parent_request uid d (Comments.request_id c)),
    (exists_handler_role uid d); reflexivity.
Qed.

Lemma request_comments_insert_inv (uid fresh_id : uuid) (now : timestamptz)
  (p : Comments.payload) (d d' : db) :
  request_comments_insert uid fresh_id now p d = Ok d' ->
  d' = with_request_comments
         (request_comments d
          ++ [Comments.overlay (Comments.defaults fresh_id now) p]) d
  /\ check_ok request_comments_policies INSERT uid d
       (Comments.overlay (Comments.defaults fresh_id now) p) = true.
Proof.
  unfold request_comments_insert.
  destruct (check_ok _ _ _ _ _); simpl; [| discriminate].
  destruct (Comments.not_null _); simpl; [| discriminate].
  destruct (negb _); simpl; [| discriminate].
  destruct (_ && _); simpl; [| discriminate].
  intros H. injection H as <-. split; reflexivity.
Qed.

End Comments.

(** X12.  [handleAddComment] sends nothing for a comment of white space
    only.  Otherwise an accepted comment is stored as typed (not trimmed),
    under the caller's identity, on the request of the panel, at the time
    of the statement, and the caller submitted that request or holds a
    handler row.  The comment is accepted when the request is stored, the
    caller submitted it or is a handler, is a known user with a display
    name, and the id is unused. *)
Theorem X12_handleAddComment
  (user : User) (fresh_id : uuid) (now : timestamptz)
  (request : Requests.row) (newComment : string) (d : db) :
  (JS.all_units JS.is_white_space newComment = true ->
   handleAddComment user fresh_id now request newComment d = Ok d)
  /\ (JS.all_units JS.is_white_space newComment = false ->
      forall d',
        handleAddComment user fresh_id now request newComment d = Ok d' ->
        exists stored,
          d' = with_request_comments (request_comments d ++ [stored]) d
          /\ Comments.id stored = Some fresh_id
          /\ Comments.request_id stored = Requests.id request
          /\ Comments.user_id stored = Some (u_id user)
          /\ Comments.comment stored = Some newComment
          /\ Comments.created_at stored = Some now
          /\ ((exists rq, In rq (requests d)
                          /\ Requests.id rq = Requests.id request
                          /\ Requests.submitter_id rq = Some (u_id user))
              \/ holds_role (u_id user) "handler" d))
  /\ (JS.all_units JS.is_white_space newComment = false ->
      JS.or_else_opt (u_name user) (u_email user) <> None ->
      In (u_id user) (auth_users d) ->
      Forall (fun c => Comments.id c <> Some fresh_id) (request_comments d) ->
      (exists rq, In rq (requests d)
                  /\ Requests.id rq = Requests.id request
                  /\ Requests.id request <> None
                  /\ (Requests.submitter_id rq = Some (u_id user)
                      \/ holds_role (u_id user) "handler" d)) ->
      exists d', handleAddComment user fresh_id now request newComment d
                 = Ok d').
Proof.
  unfold handleAddComment. split; [| split].
  - intros ->. reflexivity.
  - intros -> d' H. apply request_comments_insert_inv in H as [-> Hrls].
    eexists. split; [reflexivity |].
    repeat (split; [reflexivity |]).
    rewrite comment_insert_check in Hrls.
    apply andb_true_iff in Hrls as [_ Hacc].
    apply orb_true_iff in Hacc as [Hown | Hh].
    + left. apply own_parent_iff in Hown as (rq & Hin & Hid & _ & Hsub).
      now exists rq.
    + right. now apply exists_handler_role_iff.
  - intros -> Hname Huser Hfresh (rq & Hin & Hid & Hnn & Hwho).
    unfold request_comments_insert.
    set (NEW := Comments.overlay _ _).
    assert (Hrls : check_ok request_comments_policies INSERT (u_id user) d NEW
                   = true).
    { rewrite comment_insert_check. apply andb_true_iff. split.
      - now apply uuid_eq_some_l.
      - apply orb_true_iff. destruct Hwho as [Hsub | Hh].
        + left. apply own_parent_iff. now exists rq.
        + right. now apply exists_handler_role_iff. }
    assert (Hnull : Comments.not_null NEW = true).
    { unfold Comments.not_null, NEW; simpl.
      destruct (Requests.id request); [| contradiction].
      destruct (JS.or_else_opt (u_name user) (u_email user));
        [reflexivity | contradiction]. }
    assert (Hid' : existsb (fun c => same_uuid (Comments.id c) (Comments.id NEW))
                     (request_comments d) = false).
    { apply not_true_iff_false. intros H.
      apply existsb_exists in H as (c & Hc & Heq).
      apply uuid_eq_some in Heq. rewrite Forall_forall in Hfresh.
      now apply (Hfresh c). }
    assert (Hfk : references_request (requests d) (Comments.request_id NEW)
                  = true).
    { change (Comments.request_id NEW) with (Requests.id request).
      destruct (Requests.id request) as [i |] eqn:Hi; [| contradiction].
      simpl. apply existsb_exists. exists rq. split; trivial.
      unfold same_uuid. now apply uuid_eq_some. }
    assert (Hfu : references_user d (Comments.user_id NEW) = true)
      by exact (known_user (u_id user) d Huser).
    rewrite Hrls, Hnull, Hid', Hfk, Hfu. simpl. eexists. reflexivity.
Qed.

Lemma X12_handleAddComment_witness :
  handleAddComment Sample.alice "c-1" 40 Sample.req1 "   " Sample.with_request
  = Ok Sample.with_request
  /\ exists stored,
       request_comments Sample.discussed = [stored]
       /\ Comments.comment stored = Some "Any news?"
       /\ Comments.user_id stored = Some "alice".
Proof.
  destruct (X12_handleAddComment Sample.alice "c-1" 40 Sample.req1 "   "
              Sample.with_request) as (Hblank & _).
  destruct (X12_handleAddComment Sample.alice "c-1" 40 Sample.req1 "Any news?"
              Sample.with_request) as (_ & Hstored & _).
  split; [apply Hblank; reflexivity |].
  destruct (Hstored eq_refl Sample.discussed eq_refl)
    as (stored & Hd & _ & _ & Hu & Hc & _).
  exists stored. split; [now rewrite Hd | split; assumption].
Defined.

(* ================================================================== *)
(** * Properties of what the views load                                *)
(* ================================================================== *)

Section Queries.

Lemma desc_le_total (a b : option timestamptz) :
  desc_le a b = true \/ desc_le b a = true.
Proof.
  destruct a as [x |], b as [y |]; simpl; auto.
  rewrite !Z.leb_le. lia.
Qed.

Lemma desc_le_trans (a b c : option timestamptz) :
  desc_le a b = true -> desc_le b c = true -> desc_le a c = true.
Proof.
  destruct a as [x |], b as [y |], c as [z |]; simpl; trivial;
    try discriminate.
  rewrite !Z.leb_le. lia.
Qed.

Lemma asc_le_total (a b : option timestamptz) :
  asc_le a b = true \/ asc_le b a = true.
Proof.
  destruct a as [x |], b as [y |]; simpl; auto.
  rewrite !Z.leb_le. lia.
Qed.

Lemma asc_le_trans (a b c : option timestamptz) :
  asc_le a b = true -> asc_le b c = true -> asc_le a c = true.
Proof.
  destruct a as [x |], b as [y |], c as [z |]; simpl; trivial;
    try discriminate.
  rewrite !Z.leb_le. lia.
Qed.

Lemma filter_keeps_all {A : Type} (keep : A -> bool) (l : list A) :
  (forall a, keep a = true) -> filter keep l = l.
Proof.
  intros Hall. induction l as [| a l IH]; simpl; [reflexivity |].
  now rewrite Hall, IH.
Qed.

Variable R : Type.
Variable le : R -> R -> bool.
Hypothesis le_total : forall a b, le a b = true \/ le b a = true.
Hypothesis le_trans : forall a b c, le a b = true -> le b c = true -> le a c = true.

Lemma insert_by_perm (x : R) (l : list R) :
  Permutation (x :: l) (insert_by le x l).
Proof.
  induction l as [| y l IH]; simpl; [apply Permutation_refl |].
  destruct (le x y); [apply Permutation_refl |].
  eapply Permutation_trans; [apply perm_swap |]. now apply perm_skip.
Qed.

Lemma insert_by_sorted (x : R) (l : list R) :
  StronglySorted (fun a b => le a b = true) l ->
  StronglySorted (fun a b => le a b = true) (insert_by le x l).
Proof.
  induction 1 as [| y l Hs IH Hy]; simpl.
  - constructor; constructor.
  - destruct (le x y) eqn:Hxy.
    + constructor; [now constructor |].
      constructor; trivial.
      refine (Forall_impl _ _ Hy). intros z Hz. now apply (le_trans x y z).
    + constructor; trivial.
      assert (Hyx : le y x = true)
        by (destruct (le_total x y) as [H | H]; [congruence | exact H]).
      apply (Permutation_Forall (insert_by_perm x l)). now constructor.
Qed.

(** Every selection has an answer in the requested order. *)
Lemma sort_by_answers (l : list R) : answers le l (sort_by le l).
Proof.
  unfold answers, sort_by. induction l as [| x l [IHp IHs]]; simpl.
  - split; constructor.
  - split.
    + eapply Permutation_trans; [apply perm_skip, IHp | apply insert_by_perm].
    + now apply insert_by_sorted.
Qed.

End Queries.

(** X13.  What the request lists show.  Whatever order the storage layer
    picks among equal timestamps, [SubmitterView.loadRequests] receives
    exactly the stored requests the caller submitted, also when the caller
    is a handler, and [HandlerView.loadRequests] receives exactly the
    stored requests that the caller submitted or, for a caller with a
    handler row, all of them; each stored row comes as often as it is
    stored.  Such an answer always exists. *)
Theorem X13_loaded_requests
  (uid : uuid) (d : db) (data : list Requests.row) :
  (answers newest_first (SubmitterView_selected uid d) data ->
   (forall r, In r data
              <-> In r (requests d) /\ Requests.submitter_id r = Some uid)
   /\ (List.length data <= List.length (requests d))%nat)
  /\ (answers newest_first (HandlerView_selected uid d) data ->
      (forall r, In r data
                 <-> In r (requests d)
                     /\ (Requests.submitter_id r = Some uid
                         \/ holds_role uid "handler" d))
      /\ (holds_role uid "handler" d -> Permutation (requests d) data))
  /\ answers newest_first (SubmitterView_selected uid d)
       (sort_by newest_first (SubmitterView_selected uid d))
  /\ answers newest_first (HandlerView_selected uid d)
       (sort_by newest_first (HandlerView_selected uid d)).
Proof.
  assert (Hsel : forall r,
             In r (HandlerView_selected uid d)
             <-> In r (requests d)
                 /\ (Requests.submitter_id r = Some uid
                     \/ holds_role uid "handler" d)).
  { intros r. unfold HandlerView_selected.
    rewrite filter_In, requests_select_ok, orb_true_iff, uuid_eq_some_l,
      exists_handler_role_iff. reflexivity. }
  assert (Hsort : forall l, answers newest_first l (sort_by newest_first l)).
  { intros l. apply sort_by_answers.
    - intros a b. apply desc_le_total.
    - intros a b c. apply desc_le_trans. }
  split; [| split; [| split; apply Hsort]].
  - intros [Hperm _]. split.
    + intros r. split.
      * intros Hin. apply (Permutation_in _ (Permutation_sym Hperm)) in Hin.
        unfold SubmitterView_selected in Hin.
        apply filter_In in Hin as [Hin Hown]. apply filter_In in Hin as [Hin _].
        apply uuid_eq_some in Hown. now split.
      * intros [Hin Hown]. apply (Permutation_in _ Hperm).
        unfold SubmitterView_selected. apply filter_In. split.
        -- apply filter_In. split; trivial. rewrite requests_select_ok.
           apply orb_true_iff. left. now apply uuid_eq_some_l.
        -- now apply uuid_eq_some.
    + rewrite <- (Permutation_length Hperm). unfold SubmitterView_selected.
      eapply Nat.le_trans; apply filter_length_le.
  - intros [Hperm _]. split.
    + intros r. rewrite <- Hsel. split; intros Hin.
      * now apply (Permutation_in _ (Permutation_sym Hperm)).
      * now apply (Permutation_in _ Hperm).
    + intros Hh. apply exists_handler_role_iff in Hh.
      assert (Hall : HandlerView_selected uid d = requests d).
      { unfold HandlerView_selected. apply filter_keeps_all.
        intros r. now rewrite requests_select_ok, Hh, orb_true_r. }
      now rewrite <- Hall.
Qed.

Lemma X13_loaded_requests_witness :
  (forall r, In r (sort_by newest_first
                     (SubmitterView_selected "alice" Sample.two_requests))
             <-> In r (requests Sample.two_requests)
                 /\ Requests.submitter_id r = Some "alice")
  /\ map Requests.id
       (sort_by newest_first (SubmitterView_selected "alice" Sample.two_requests))
     = [Some "req-1"]
  /\ map Requests.id
       (sort_by newest_first (HandlerView_selected "bob" Sample.two_requests))
     = [Some "req-2"; Some "req-1"].
Proof.
  destruct (X13_loaded_requests "alice" Sample.two_requests
              (sort_by newest_first
                 (SubmitterView_selected "alice" Sample.two_requests)))
    as (Hsub & _ & Hex & _).
  split; [apply (Hsub Hex) | split; reflexivity].
Defined.

(** X14.  What the comment list shows: whatever order the storage layer
    picks among equal timestamps, [loadComments] receives exactly the
    stored comments of the request of the panel, and only for a caller who
    submitted that request or holds a handler row; for anybody else the
    list is empty.  Such an answer always exists. *)
Theorem X14_loaded_comments
  (uid : uuid) (d : db) (request : Requests.row) (data : list Comments.row) :
  let own :=
    exists rq, In rq (requests d)
               /\ Requests.id rq = Requests.id request
               /\ Requests.submitter_id rq = Some uid in
  (answers oldest_first (loadComments_selected uid d request) data ->
   (forall c, In c data
              <-> In c (request_comments d)
                  /\ Comments.request_id c = Requests.id request
                  /\ Requests.id request <> None
                  /\ (own \/ holds_role uid "handler" d))
   /\ (~ own -> ~ holds_role uid "handler" d -> data = []))
  /\ answers oldest_first (loadComments_selected uid d request)
       (sort_by oldest_first (loadComments_selected uid d request)).
Proof.
  intros own.
  assert (Hsel : forall c,
             In c (loadComments_selected uid d request)
             <-> In c (request_comments d)
                 /\ Comments.request_id c = Requests.id request
                 /\ Requests.id request <> None
                 /\ (own \/ holds_role uid "handler" d)).
  { intros c. unfold loadComments_selected.
    rewrite !filter_In, comment_select_using, orb_true_iff, own_parent_iff,
      exists_handler_role_iff.
    unfold same_uuid. rewrite uuid_eq_true. split.
    - intros [[Hin Hacc] (i & Hc & Hr)].
      split; trivial. split; [congruence |]. split; [congruence |].
      destruct Hacc as [(rq & Hrq & Hid & _ & Hsub) | Hh]; [left | now right].
      exists rq. repeat split; trivial. congruence.
    - intros (Hin & Hid & Hnn & Hacc).
      destruct (Requests.id request) as [i |] eqn:Hi; [| contradiction].
      split; [| now exists i]. split; trivial.
      destruct Hacc as [(rq & Hrq & Hrid & Hsub) | Hh]; [left | now right].
      exists rq. repeat split; trivial; congruence. }
  split.
  - intros [Hperm _]. split.
    + intros c. rewrite <- Hsel. split; intros Hin.
      * now apply (Permutation_in _ (Permutation_sym Hperm)).
      * now apply (Permutation_in _ Hperm).
    + intros Hno Hnh. destruct data as [| c data]; [reflexivity | exfalso].
      assert (Hin : In c (loadComments_selected uid d request))
        by (apply (Permutation_in _ (Permutation_sym Hperm)); now left).
      apply Hsel in Hin as (_ & _ & _ & [H | H]); contradiction.
  - apply sort_by_answers.
    + intros a b. apply asc_le_total.
    + intros a b c. apply asc_le_trans.
Qed.

Lemma X14_loaded_comments_witness :
  sort_by oldest_first
    (loadComments_selected "dave" Sample.two_requests Sample.req1) = []
  /\ List.length
       (sort_by oldest_first
          (loadComments_selected "alice" Sample.two_requests Sample.req1)) = 1%nat.
Proof.
  destruct (X14_loaded_comments "dave" Sample.two_requests Sample.req1
              (sort_by oldest_first
                 (loadComments_selected "dave" Sample.two_requests Sample.req1)))
    as (Hload & Hex).
  split; [| reflexivity].
  apply (Hload Hex).
  - intros (rq & Hin & Hid & Hsub).
    simpl in Hin. destruct Hin as [<- | [<- | []]]; discriminate.
  - apply exists_handler_role_false. reflexivity.
Defined.

(* ================================================================== *)
(** * Properties of the handler's filters and counters                 *)
(* ================================================================== *)

Section Filters.

Lemma filterM_total {A : Type} (keep : A -> option bool) (keep' : A -> bool)
  (l : list A) :
  Forall (fun a => keep a = Some (keep' a)) l ->
  filterM keep l = Some (filter keep' l).
Proof.
  induction 1 as [| a l Ha _ IH]; simpl; [reflexivity |].
  now rewrite Ha, IH.
Qed.

Lemma filterM_throws {A : Type} (keep : A -> option bool) (l : list A) (a : A) :
  In a l -> keep a = None -> filterM keep l = None.
Proof.
  induction l as [| b l IH]; simpl; intros Hin Ha; [contradiction |].
  destruct Hin as [-> | Hin].
  - now rewrite Ha.
  - destruct (keep b); trivial. now rewrite (IH Hin Ha).
Qed.

Lemma filter_twice {A : Type} (p q : A -> bool) (l : list A) :
  filter q (filter p l) = filter (fun a => p a && q a) l.
Proof.
  induction l as [| a l IH]; simpl; [reflexivity |].
  destruct (p a); simpl; [destruct (q a) |]; now rewrite IH.
Qed.

Lemma filter_column_as_filter (column : Requests.row -> option text)
  (value : string) (l : list Requests.row) :
  filter_column column value l
  = filter (fun r => String.eqb value "" || strict_eq (column r) value) l.
Proof.
  unfold filter_column. destruct (String.eqb value ""); simpl; trivial.
  symmetry. now apply filter_keeps_all.
Qed.

Lemma matches_search_defined (search : string) (r : Requests.row) :
  Requests.not_null r = true ->
  matches_search search r = Some (search_hit search r).
Proof.
  unfold Requests.not_null, search_hit, matches_search, lower_includes.
  rewrite !andb_true_iff. intros H.
  destruct (Requests.title r); [| simpl in H; intuition discriminate].
  destruct (Requests.description r); [| simpl in H; intuition discriminate].
  destruct (Requests.submitter_name r); [| simpl in H; intuition discriminate].
  destruct (includes _ search); trivial.
  destruct (includes _ search); trivial.
  now destruct (includes _ search).
Qed.

End Filters.

(** X15.  [applyFilters] composes its four steps into one filter.  On rows
    as the storage layer returns them (NOT NULL columns present) no
    callback throws and the result is the sub-list, in the loaded order,
    of the requests that pass every filter that is set: the lower-cased
    search term occurs in the lower-cased title, description or submitter
    name, and category, status and priority equal the chosen values.  With
    no filter set the whole list is shown; filtering the result again
    changes nothing.  A search over a row without a title throws. *)
Theorem X15_applyFilters
  (f : filters) (requests : list Requests.row) (r : Requests.row) :
  let keep (r : Requests.row) :=
    (String.eqb (searchTerm f) ""
     || search_hit (JS.toLowerCase (searchTerm f)) r)
    && (String.eqb (filterCategory f) ""
        || strict_eq (Requests.category r) (filterCategory f))
    && (String.eqb (filterStatus f) ""
        || strict_eq (Requests.status r) (filterStatus f))
    && (String.eqb (filterPriority f) ""
        || strict_eq (Requests.priority r) (filterPriority f)) in
  applyFilters clearFilters requests = Some requests
  /\ (Forall (fun r => Requests.not_null r = true) requests ->
      applyFilters f requests = Some (filter keep requests)
      /\ applyFilters f (filter keep requests) = Some (filter keep requests))
  /\ (searchTerm f <> "" -> In r requests -> Requests.title r = None ->
      applyFilters f requests = None).
Proof.
  intros keep.
  assert (Hmain : forall l,
             Forall (fun r => Requests.not_null r = true) l ->
             applyFilters f l = Some (filter keep l)).
  { intros l Hl. unfold applyFilters, keep.
    assert (Hbool : forall b1 b2 b3 b4 : bool,
               b2 && (b3 && b4) = (true || b1) && b2 && b3 && b4
               /\ b1 && (b2 && (b3 && b4)) = (false || b1) && b2 && b3 && b4)
      by (intros [] [] [] []; split; reflexivity).
    destruct (String.eqb (searchTerm f) "") eqn:Hs.
    - rewrite !filter_column_as_filter, !filter_twice. f_equal.
      apply filter_ext. intros a. apply Hbool.
    - rewrite (filterM_total _ (search_hit (JS.toLowerCase (searchTerm f)))).
      + rewrite !filter_column_as_filter, !filter_twice. f_equal.
        apply filter_ext. intros a. apply Hbool.
      + refine (Forall_impl _ _ Hl). intros a Ha.
        now apply matches_search_defined. }
  split; [reflexivity | split].
  - intros Hl. split; [now apply Hmain |].
    rewrite Hmain.
    + f_equal. rewrite filter_twice. apply filter_ext.
      intros a. now destruct (keep a).
    + rewrite Forall_forall in *. intros a Ha.
      apply filter_In in Ha as [Ha _]. now apply Hl.
  - intros Hs Hin Ht. unfold applyFilters.
    destruct (String.eqb_spec (searchTerm f) ""); [contradiction |].
    rewrite (filterM_throws _ requests r Hin); trivial.
    unfold matches_search, lower_includes. now rewrite Ht.
Qed.

Lemma X15_applyFilters_witness :
  option_map (map Requests.id)
    (applyFilters (mkFilters "CHAIR" "" "Received" "")
       (requests Sample.two_requests)) = Some [Some "req-2"]
  /\ applyFilters (mkFilters "CHAIR" "" "Received" "")
       [Requests.set_resolved_at_column None Sample.req1;
        Requests.mk None None None None None None None None None None None
          None None None None] = None.
Proof.
  destruct (X15_applyFilters (mkFilters "CHAIR" "" "Received" "")
              (requests Sample.two_requests) Sample.req1) as (_ & Hok & _).
  destruct (X15_applyFilters (mkFilters "CHAIR" "" "Received" "")
              [Requests.set_resolved_at_column None Sample.req1;
               Requests.mk None None None None None None None None None None
                 None None None None None]
              (Requests.mk None None None None None None None None None None
                 None None None None None)) as (_ & _ & Hthrow).
  split.
  - destruct Hok as [-> _]; [| reflexivity].
    repeat constructor.
  - apply Hthrow; [discriminate | simpl; tauto | reflexivity].
Defined.

(** X16.  The status counters never exceed the total, and add up to the
    total exactly when every loaded request has one of the three statuses
    'Received', 'In Progress', 'Resolved' (the schema puts no CHECK on the
    status); the critical counter never exceeds the total. *)
Theorem X16_counters (requests : list Requests.row) :
  let s := HandlerView_stats requests in
  (received_count s + inProgress s + resolved_count s <= total s)%nat
  /\ (critical s <= total s)%nat
  /\ ((received_count s + inProgress s + resolved_count s = total s)%nat
      <-> Forall (fun r => Requests.status r = Some "Received"
                           \/ Requests.status r = Some "In Progress"
                           \/ Requests.status r = Some "Resolved") requests).
Proof.
  unfold HandlerView_stats, count_where; cbn [total received_count inProgress
    resolved_count critical].
  split; [| split].
  - induction requests as [| r l IH]; simpl; [lia |].
    destruct (Requests.status r) as [s |]; simpl; [| lia].
    destruct (String.eqb_spec s "Received") as [-> | ?]; simpl; [lia |].
    destruct (String.eqb_spec s "In Progress") as [-> | ?]; simpl; [lia |].
    destruct (String.eqb s "Resolved"); simpl; lia.
  - apply filter_length_le.
  - induction requests as [| r l IH]; simpl; [split; [constructor | lia] |].
    assert (Hle : (List.length
                     (filter (fun r => strict_eq (Requests.status r) "Received") l)
                   + List.length
                       (filter (fun r => strict_eq (Requests.status r) "In Progress") l)
                   + List.length
                       (filter (fun r => strict_eq (Requests.status r) "Resolved") l)
                   <= List.length l)%nat).
    { clear. induction l as [| r l IH]; simpl; [lia |].
      destruct (Requests.status r) as [s |]; simpl; [| lia].
      destruct (String.eqb_spec s "Received") as [-> | ?]; simpl; [lia |].
      destruct (String.eqb_spec s "In Progress") as [-> | ?]; simpl; [lia |].
      destruct (String.eqb s "Resolved"); simpl; lia. }
    destruct (Requests.status r) as [s |] eqn:Hs; simpl.
    + destruct (String.eqb_spec s "Received") as [-> | H1]; simpl.
      { rewrite Forall_cons_iff, <- IH. intuition lia. }
      destruct (String.eqb_spec s "In Progress") as [-> | H2]; simpl.
      { rewrite Forall_cons_iff, <- IH. intuition lia. }
      destruct (String.eqb_spec s "Resolved") as [-> | H3]; simpl.
      { rewrite Forall_cons_iff, <- IH. intuition lia. }
      split; [lia |]. intros H. inversion H as [| ? ? Hr _]; subst.
      destruct Hr as [Hr | [Hr | Hr]]; congruence.
    + split; [lia |]. intros H. inversion H as [| ? ? Hr _]; subst.
      destruct Hr as [Hr | [Hr | Hr]]; congruence.
Qed.

(* ================================================================== *)
(** * Further properties of the forms                                  *)
(* ================================================================== *)

Section Forms.

(** The triggers write [updated_at] and [resolved_at], nothing else. *)
Lemma before_update_frame (now : timestamptz) (OLD NEW : Requests.row) :
  let N' := before_update now OLD NEW in
  Requests.id N' = Requests.id NEW
  /\ Requests.title N' = Requests.title NEW
  /\ Requests.description N' = Requests.description NEW
  /\ Requests.category N' = Requests.category NEW
  /\ Requests.priority N' = Requests.priority NEW
  /\ Requests.status N' = Requests.status NEW
  /\ Requests.submitter_id N' = Requests.submitter_id NEW
  /\ Requests.submitter_name N' = Requests.submitter_name NEW
  /\ Requests.assigned_unit N' = Requests.assigned_unit NEW
  /\ Requests.assigned_handler N' = Requests.assigned_handler NEW
  /\ Requests.ai_response N' = Requests.ai_response NEW
  /\ Requests.created_at N' = Requests.created_at NEW
  /\ Requests.deadline N' = Requests.deadline NEW.
Proof.
  unfold before_update, set_resolved_at, update_updated_at_column.
  destruct (is_true _); [repeat split |].
  destruct (is_true _); repeat split.
Qed.

End Forms.

(** X17.  What the details panel changes.  When a handler's update is
    accepted, the request with the id of the panel takes category,
    priority, status, unit, handler and deadline from the edited copy and
    the statement's time as [updated_at]; its id, title, description,
    submitter, generated response and creation time stay, whatever the
    edited copy says about them; every other request is unchanged. *)
Theorem X17_handleUpdateRequest_frame
  (user : User) (now : timestamptz) (request editedRequest : Requests.row)
  (d d' : db) :
  handleUpdateRequest user now request editedRequest d = Ok d' ->
  holds_role (u_id user) "handler" d ->
  Forall2 (fun OLD NEW =>
             (same_uuid (Requests.id OLD) (Requests.id request) = true
              /\ Requests.category NEW = Requests.category editedRequest
              /\ Requests.priority NEW = Requests.priority editedRequest
              /\ Requests.status NEW = Requests.status editedRequest
              /\ Requests.assigned_unit NEW = Requests.assigned_unit editedRequest
              /\ Requests.assigned_handler NEW
                 = Requests.assigned_handler editedRequest
              /\ Requests.deadline NEW = Requests.deadline editedRequest
              /\ Requests.updated_at NEW = Some now
              /\ Requests.id NEW = Requests.id OLD
              /\ Requests.title NEW = Requests.title OLD
              /\ Requests.description NEW = Requests.description OLD
              /\ Requests.submitter_id NEW = Requests.submitter_id OLD
              /\ Requests.submitter_name NEW = Requests.submitter_name OLD
              /\ Requests.ai_response NEW = Requests.ai_response OLD
              /\ Requests.created_at NEW = Requests.created_at OLD)
             \/ (same_uuid (Requests.id OLD) (Requests.id request) = false
                 /\ NEW = OLD))
          (requests d) (requests d').
Proof.
  unfold handleUpdateRequest. intros H Hh.
  apply exists_handler_role_iff in Hh.
  apply requests_update_inv in H as (rows & -> & Hrows & _ & _). simpl.
  refine (Forall2_weaken _ _ _ _ _ Hrows).
  intros OLD NEW H1. rewrite requests_target_update, Hh, andb_true_r in H1.
  destruct (same_uuid (Requests.id OLD) (Requests.id request)) eqn:Hid.
  - left. apply requests_update_row_inv in H1 as [-> _].
    destruct (before_update_frame now OLD
                (Requests.overlay OLD (handleUpdateRequest_body editedRequest)))
      as (F1 & F2 & F3 & F4 & F5 & F6 & F7 & F8 & F9 & F10 & F11 & F12 & F13).
    rewrite before_update_updated_at, F1, F2, F3, F4, F5, F6, F7, F8, F9, F10,
      F11, F12, F13.
    repeat split.
  - right. now split.
Qed.

Lemma X17_handleUpdateRequest_frame_witness :
  map (fun r => (Requests.title r, Requests.status r, Requests.updated_at r,
                 Requests.created_at r))
      (requests Sample.resolved)
  = [(Some "Projector", Some "Resolved", Some 60%Z, Some 20%Z)].
Proof.
  assert (H : handleUpdateRequest Sample.bob 60 Sample.req1
                (Requests.overlay Sample.req1 (Sample.set_status "Resolved"))
                Sample.with_request = Ok Sample.resolved)
    by (vm_compute; reflexivity).
  apply X17_handleUpdateRequest_frame in H;
    [| apply exists_handler_role_iff; reflexivity].
  change (requests Sample.with_request) with [Sample.req1] in H.
  set (rows := requests Sample.resolved) in *. clearbody rows.
  inversion H as [| OLD NEW l l' Hrow Hrest]; subst.
  inversion Hrest; subst.
  destruct Hrow as [(_ & _ & _ & Hs & _ & _ & _ & Hu & _ & Ht & _ & _ & _ & _ & Hc)
                   | [Hid _]]; [| discriminate Hid].
  simpl. now rewrite Ht, Hs, Hu, Hc.
Defined.

(** X18.  What the creation form stores besides category and priority:
    status 'Received', the caller as submitter, the display name (the name
    of the profile, or the e-mail address when the name is missing or
    empty), the statement's time as creation and update time, no
    resolution time, no deadline, an empty handler, and the response
    generated for the classifier's category, also when a category override
    is stored.  A user with neither name nor e-mail address cannot file a
    request: the insert fails on the NOT NULL constraint. *)
Theorem X18_handleSubmit_stored_row
  (user : User) (fresh_id : uuid) (now : timestamptz)
  (title description manualCategory manualPriority : string) (d : db) :
  (forall d',
     handleSubmit user fresh_id now title description
       manualCategory manualPriority d = Ok d' ->
     exists stored,
       d' = with_requests (requests d ++ [stored]) d
       /\ Requests.status stored = Some "Received"
       /\ Requests.submitter_id stored = Some (u_id user)
       /\ Requests.submitter_name stored
          = JS.or_else_opt (u_name user) (u_email user)
       /\ Requests.submitter_name stored <> None
       /\ Requests.created_at stored = Some now
       /\ Requests.updated_at stored = Some now
       /\ Requests.resolved_at stored = None
       /\ Requests.deadline stored = None
       /\ Requests.assigned_handler stored = Some ""
       /\ Requests.ai_response stored
          = Some (generateResponse title
                    (a_category (analyzeRequest title description))))
  /\ (JS.or_else_opt (u_name user) (u_email user) = None ->
      handleSubmit user fresh_id now title description
        manualCategory manualPriority d = Err not_null_violation).
Proof.
  split.
  - intros d' H. apply requests_insert_inv in H as [-> Hnn].
    eexists. split; [reflexivity |].
    assert (Hname : Requests.submitter_name
                      (Requests.overlay (Requests.defaults fresh_id now)
                         (handleSubmit_body user title description
                            manualCategory manualPriority))
                    = JS.or_else_opt (u_name user) (u_email user)).
    { unfold handleSubmit_body; simpl.
      now destruct (JS.or_else_opt (u_name user) (u_email user)). }
    repeat split; trivial.
    unfold Requests.not_null in Hnn. rewrite !andb_true_iff in Hnn.
    apply is_null_false. tauto.
  - intros Hnone. unfold handleSubmit, requests_insert.
    rewrite requests_insert_check.
    assert (Hself : is_true (uuid_eq (Some (u_id user))
                               (Requests.submitter_id
                                  (Requests.overlay (Requests.defaults fresh_id now)
                                     (handleSubmit_body user title description
                                        manualCategory manualPriority)))) = true)
      by (now apply uuid_eq_some_l).
    rewrite Hself.
    assert (Hnn : Requests.not_null
                    (Requests.overlay (Requests.defaults fresh_id now)
                       (handleSubmit_body user title description
                          manualCategory manualPriority)) = false).
    { unfold Requests.not_null, handleSubmit_body; simpl.
      now rewrite Hnone. }
    now rewrite Hnn.
Qed.

Lemma X18_handleSubmit_stored_row_witness :
  handleSubmit (mkUser "erin" None (Some "")) "req-9" 90 "Lamp" "Broken" "" ""
    (with_auth_user "erin" Sample.with_request) = Err not_null_violation.
Proof.
  apply (X18_handleSubmit_stored_row (mkUser "erin" None (Some "")) "req-9" 90
           "Lamp" "Broken" "" "" (with_auth_user "erin" Sample.with_request)).
  reflexivity.
Defined.

(** X19.  The resolution time through the details panel.  When a
    handler's update of a stored request is accepted: resolving a request
    that was not resolved stamps the statement's time; editing a request
    that stays 'Resolved' keeps the resolution time it had; any other new
    status clears it. *)
Theorem X19_resolution_time
  (user : User) (now : timestamptz) (request editedRequest : Requests.row)
  (d d' : db) :
  handleUpdateRequest user now request editedRequest d = Ok d' ->
  holds_role (u_id user) "handler" d ->
  Forall2 (fun OLD NEW =>
             same_uuid (Requests.id OLD) (Requests.id request) = true ->
             Requests.status OLD <> None ->
             (Requests.status editedRequest = Some "Resolved" ->
              Requests.status OLD <> Some "Resolved" ->
              Requests.resolved_at NEW = Some now)
             /\ (Requests.status editedRequest = Some "Resolved" ->
                 Requests.status OLD = Some "Resolved" ->
                 Requests.resolved_at NEW = Requests.resolved_at OLD)
             /\ (Requests.status editedRequest <> Some "Resolved" ->
                 Requests.resolved_at NEW = None))
          (requests d) (requests d').
Proof.
  unfold handleUpdateRequest. intros H Hh.
  apply exists_handler_role_iff in Hh.
  apply requests_update_inv in H as (rows & -> & Hrows & _ & _). simpl.
  refine (Forall2_weaken _ _ _ _ _ Hrows).
  intros OLD NEW H1 Hid Hold.
  rewrite requests_target_update, Hh, andb_true_r, Hid in H1.
  apply requests_update_row_inv in H1 as [-> Hst].
  destruct (before_update_spec now OLD
              (Requests.overlay OLD (handleUpdateRequest_body editedRequest)))
    as [Hs Hr].
  rewrite Hs in Hst. rewrite Hr. clear Hs Hr.
  change (Requests.status
            (Requests.overlay OLD (handleUpdateRequest_body editedRequest)))
    with (Requests.status editedRequest) in *.
  change (Requests.resolved_at
            (Requests.overlay OLD (handleUpdateRequest_body editedRequest)))
    with (Requests.resolved_at OLD).
  destruct (Requests.status editedRequest) as [s |]; [| contradiction].
  destruct (Requests.status OLD) as [s0 |]; [| contradiction].
  destruct (String.eqb_spec s "Resolved") as [-> | Hs];
    destruct (String.eqb_spec s0 "Resolved") as [-> | Hs0];
    repeat split; intros; try reflexivity;
    try (match goal with H : _ <> _ |- _ => now elim H end);
    match goal with
    | H : Some _ = Some _ |- _ => injection H as ->; contradiction
    end.
Qed.

Lemma X19_resolution_time_witness :
  map Requests.resolved_at (requests Sample.resolved) = [Some 60%Z]
  /\ map Requests.resolved_at (requests Sample.reopened) = [None].
Proof.
  assert (H1 : handleUpdateRequest Sample.bob 60 Sample.req1
                 (Requests.overlay Sample.req1 (Sample.set_status "Resolved"))
                 Sample.with_request = Ok Sample.resolved)
    by (vm_compute; reflexivity).
  assert (H2 : handleUpdateRequest Sample.bob 70 Sample.req1 Sample.req1
                 Sample.resolved = Ok Sample.reopened)
    by (vm_compute; reflexivity).
  assert (Hbob1 : holds_role (u_id Sample.bob) "handler" Sample.with_request)
    by (apply exists_handler_role_iff; reflexivity).
  assert (Hbob2 : holds_role (u_id Sample.bob) "handler" Sample.resolved)
    by (apply exists_handler_role_iff; reflexivity).
  apply X19_resolution_time in H1; [| exact Hbob1].
  apply X19_resolution_time in H2; [| exact Hbob2].
  split.
  - change (requests Sample.with_request) with [Sample.req1] in H1.
    set (rows := requests Sample.resolved) in *. clearbody rows.
    inversion H1 as [| OLD NEW l l' Hrow Hrest]; subst.
    inversion Hrest; subst.
    destruct Hrow as (Hres & _); [reflexivity | discriminate |].
    simpl. rewrite Hres; [reflexivity | reflexivity | discriminate].
  - set (old := requests Sample.resolved) in *.
    assert (Hold : exists r, old = [r] /\ Requests.id r = Some "req-1"
                             /\ Requests.status r = Some "Resolved")
      by (eexists; split; [reflexivity | split; reflexivity]).
    clearbody old. destruct Hold as (r & -> & Hid & Hs).
    set (rows := requests Sample.reopened) in *. clearbody rows.
    inversion H2 as [| OLD NEW l l' Hrow Hrest]; subst.
    inversion Hrest; subst.
    destruct Hrow as (_ & _ & Hclear).
    + unfold same_uuid. apply uuid_eq_true. now exists "req-1".
    + rewrite Hs. discriminate.
    + simpl. rewrite Hclear; [reflexivity | discriminate].
Defined.

Section Cascade.

Lemma references_request_iff (rows : list Requests.row) (rid : option uuid) :
  references_request rows rid = true
  <-> rid = None \/ exists rq, In rq rows /\ Requests.id rq = rid.
Proof.
  destruct rid as [i |]; simpl; [| tauto].
  rewrite existsb_exists. split.
  - intros (rq & Hin & Hid). right. exists rq. split; trivial.
    now apply uuid_eq_some in Hid.
  - intros [H | (rq & Hin & Hid)]; [discriminate |].
    exists rq. split; trivial. unfold same_uuid. now apply uuid_eq_some.
Qed.

End Cascade.

(** X20.  Deleting takes the comments along.  An accepted DELETE of a
    caller with a handler row removes exactly the stored requests its
    WHERE clause selects; a comment stays exactly when the request it
    references stays, so no comment is left without its request; roles and
    users are untouched. *)
Theorem X20_handler_delete_cascades
  (uid : uuid) (where_ : Requests.row -> bool) (d d' : db) :
  holds_role uid "handler" d ->
  requests_delete uid where_ d = Ok d' ->
  requests d' = filter (fun r => negb (where_ r)) (requests d)
  /\ (forall c,
         In c (request_comments d')
         <-> In c (request_comments d)
             /\ (Comments.request_id c = None
                 \/ exists rq, In rq (requests d) /\ where_ rq = false
                               /\ Requests.id rq = Comments.request_id c))
  /\ user_roles d' = user_roles d
  /\ auth_users d' = auth_users d.
Proof.
  intros Hh H. apply exists_handler_role_iff in Hh.
  unfold requests_delete in H. injection H as <-.
  assert (Hkept : filter (fun r => negb (requests_target DELETE uid d where_ r))
                    (requests d)
                  = filter (fun r => negb (where_ r)) (requests d)).
  { apply filter_ext. intros r.
    now rewrite requests_target_delete, Hh, andb_true_r. }
  simpl. rewrite Hkept. split; [reflexivity |]. split; [| split; reflexivity].
  intros c. rewrite filter_In, references_request_iff. split.
  - intros [Hin [Hn | (rq & Hrq & Hid)]]; split; trivial; [now left |].
    right. apply filter_In in Hrq as [Hrq Hw]. apply negb_true_iff in Hw.
    now exists rq.
  - intros [Hin [Hn | (rq & Hrq & Hw & Hid)]]; split; trivial; [now left |].
    right. exists rq. split; trivial. apply filter_In. split; trivial.
    now rewrite Hw.
Qed.

Lemma X20_handler_delete_cascades_witness :
  let d' := commit Sample.two_requests
              (requests_delete "bob"
                 (fun r => same_uuid (Requests.id r) (Some "req-1"))
                 Sample.two_requests) in
  map Requests.id (requests d') = [Some "req-2"]
  /\ request_comments d' = []
  /\ user_roles d' = user_roles Sample.two_requests.
Proof.
  intros d'.
  destruct (X20_handler_delete_cascades "bob"
              (fun r => same_uuid (Requests.id r) (Some "req-1"))
              Sample.two_requests d') as (Hrows & _ & Hroles & _).
  - apply exists_handler_role_iff. reflexivity.
  - reflexivity.
  - split; [now rewrite Hrows | split; [reflexivity | exact Hroles]].
Defined.

(** X21.  Create, then read back.  After an accepted creation every answer
    to [SubmitterView.loadRequests] of the submitter contains the new
    request with the id the storage layer gave it, the title and
    description as typed and the category and priority the form settled
    on; no answer to the request list of another user without a handler
    row contains a request of the submitter. *)
Theorem X21_created_request_is_read_back
  (user : User) (fresh_id : uuid) (now : timestamptz)
  (title description manualCategory manualPriority : string) (d d' : db)
  (data : list Requests.row) (other : uuid) (data' : list Requests.row) :
  handleSubmit user fresh_id now title description
    manualCategory manualPriority d = Ok d' ->
  (answers newest_first (SubmitterView_selected (u_id user) d') data ->
   exists stored,
     In stored data
     /\ Requests.id stored = Some fresh_id
     /\ Requests.title stored = Some title
     /\ Requests.description stored = Some description
     /\ Requests.category stored
        = Some (JS.or_else manualCategory
                  (a_category (analyzeRequest title description)))
     /\ Requests.priority stored
        = Some (JS.or_else manualPriority
                  (a_priority (analyzeRequest title description)))
     /\ Requests.submitter_id stored = Some (u_id user))
  /\ (other <> u_id user ->
      ~ holds_role other "handler" d' ->
      answers newest_first (HandlerView_selected other d') data' ->
      forall r, In r data' -> Requests.submitter_id r <> Some (u_id user)).
Proof.
  intros H. apply requests_insert_inv in H as [-> _]. split.
  - intros [Hperm _].
    exists (Requests.overlay (Requests.defaults fresh_id now)
              (handleSubmit_body user title description
                 manualCategory manualPriority)).
    split; [| repeat split].
    apply (Permutation_in _ Hperm). unfold SubmitterView_selected.
    apply filter_In. split.
    + apply filter_In. split.
      * simpl. apply in_or_app. right. now left.
      * rewrite requests_select_ok. apply orb_true_iff. left.
        now apply uuid_eq_some_l.
    + now apply uuid_eq_some.
  - intros Hne Hno [Hperm _] r Hin Hsub.
    apply (Permutation_in _ (Permutation_sym Hperm)) in Hin.
    unfold HandlerView_selected in Hin. apply filter_In in Hin as [_ Hsel].
    rewrite requests_select_ok in Hsel.
    apply exists_handler_role_false in Hno. rewrite Hno, orb_false_r in Hsel.
    apply uuid_eq_some_l in Hsel. rewrite Hsel in Hsub.
    injection Hsub as ->. now elim Hne.
Qed.

Lemma X21_created_request_is_read_back_witness :
  (exists stored,
      In stored (sort_by newest_first
                   (SubmitterView_selected "dave" Sample.two_requests))
      /\ Requests.id stored = Some "req-2"
      /\ Requests.title stored = Some "Chair")
  /\ forall r,
       In r (sort_by newest_first
               (HandlerView_selected "alice" Sample.two_requests)) ->
       Requests.submitter_id r <> Some "dave".
Proof.
  assert (H : handleSubmit Sample.dave "req-2" 45 "Chair" "My chair is broken"
                "" "" Sample.discussed = Ok Sample.two_requests)
    by (vm_compute; reflexivity).
  assert (Hsort : forall l, answers newest_first l (sort_by newest_first l)).
  { intros l. apply sort_by_answers.
    - intros a b. apply desc_le_total.
    - intros a b c. apply desc_le_trans. }
  destruct (X21_created_request_is_read_back Sample.dave "req-2" 45 "Chair"
              "My chair is broken" "" "" Sample.discussed Sample.two_requests
              (sort_by newest_first
                 (SubmitterView_selected "dave" Sample.two_requests))
              "alice"
              (sort_by newest_first
                 (HandlerView_selected "alice" Sample.two_requests)) H)
    as (Hback & Hhidden).
  split.
  - destruct (Hback (Hsort _)) as (stored & Hin & Hid & Ht & _).
    now exists stored.
  - apply Hhidden; [discriminate | | apply Hsort].
    apply exists_handler_role_false. reflexivity.
Defined.
